(** * antivenom_validation: the validation engine

    A shallow embedding of the engine of [antivenom_validation/validate]:
    the severity and result model ([models.py]), the manifest configuration
    ([manifest.py]), the check contract ([checks/base.py]), the run methods
    of the registered checks ([checks/*.py]) and the runner ([runner.py]).

    Python objects that the code shares and may update in place (the
    [DataFrame] handed to every check, the clocks) live in an explicit
    [World]; code that can raise returns an [Outcome]. *)

From stdpp Require Import base option list strings gmap.
From Stdlib Require Import ZArith QArith Lia DecimalString Permutation Sorted.
Close Scope Q_scope.

(** ** Python values, exceptions and the services of the interpreter *)

(** The values that occur in cells of the dataset, in [details] payloads
    and in the dict the runner builds for a fault.  A [dict] is kept as an
    association list in insertion order, a [set] as the list of its
    elements in the order it is iterated; [PFloat] stands for a finite
    float, [PNaN] for the float [nan]. *)
#[warnings="-register-all"]
Inductive PyVal : Type :=
  | PNone
  | PNaN
  | PBool (b : bool)
  | PInt (z : Z)
  | PFloat (q : Q)
  | PStr (s : string)
  | PList (l : list PyVal)
  | PSet (l : list PyVal)
  | PDict (d : list (string * PyVal)).

(** [d.get(k)] on an association list: the binding of [k], if any. *)
Fixpoint dict_lookup {V : Type} (d : list (string * V)) (k : string) : option V :=
  match d with
  | [] => None
  | (k', v) :: d' => if String.eqb k' k then Some v else dict_lookup d' k
  end.

(** [d.get(k, dflt)] *)
Definition dict_get {V : Type} (d : list (string * V)) (k : string) (dflt : V) : V :=
  match dict_lookup d k with
  | Some v => v
  | None => dflt
  end.

(** [k in d] and [x in l] for strings *)
Definition dict_contains {V : Type} (d : list (string * V)) (k : string) : bool :=
  match dict_lookup d k with
  | Some _ => true
  | None => false
  end.

Fixpoint str_in (x : string) (l : list string) : bool :=
  match l with
  | [] => false
  | y :: l' => if String.eqb y x then true else str_in x l'
  end.

(** An exception object: the name of its class ([type(e).__name__]), its
    text ([str(e)]) and whether its class derives from [Exception] (it is
    [false] for [KeyboardInterrupt], [SystemExit] and [GeneratorExit]). *)
Record PyException : Type := mkException {
  exc_type : string;
  exc_str : string;
  exc_is_Exception : bool
}.

(** The result of running code that may raise. *)
Inductive Outcome (A : Type) : Type :=
  | Returns (a : A)
  | Raises (e : PyException).
Arguments Returns {A} a.
Arguments Raises {A} e.

Definition Outcome_bind {A B : Type} (m : Outcome A) (k : A -> Outcome B) : Outcome B :=
  match m with
  | Returns a => k a
  | Raises e => Raises e
  end.

Notation "x <- m ;; k" := (Outcome_bind m (fun x => k))
  (at level 100, m at next level, right associativity, only parsing).

(** What the model takes from the interpreter and from the [re] module
    without looking inside:
    - [py_repr v], the text of [repr(v)], used for floats, quoted strings
      and containers;
    - [format_exc e], the text [traceback.format_exc()] returns inside the
      handler of [e];
    - [re_match p s], whether [re.match(p, s)] finds a match ([re.error]
      for a pattern that does not compile);
    - [format_percent x d], the text of [f"{x:.<d>%}"];
    - [isoformat t], the text of [datetime.isoformat()] for the instant [t];
    - [py_round x n], the float [round(x, n)]. *)
Class PyRuntime : Type := {
  py_repr : PyVal -> string;
  format_exc : PyException -> string;
  re_match : string -> string -> Outcome bool;
  format_percent : Q -> nat -> string;
  isoformat : Q -> string;
  py_round : Q -> nat -> Q
}.

Definition str_of_nat (n : nat) : string := NilEmpty.string_of_uint (Nat.to_uint n).
Definition str_of_Z (z : Z) : string := NilZero.string_of_int (Z.to_int z).

(** [str(v)] *)
Definition py_str `{PyRuntime} (v : PyVal) : string :=
  match v with
  | PNone => "None"
  | PNaN => "nan"
  | PBool true => "True"
  | PBool false => "False"
  | PInt z => str_of_Z z
  | PStr s => s
  | PFloat _ | PList _ | PSet _ | PDict _ => py_repr v
  end.

Definition KeyError `{PyRuntime} (key : string) : PyException :=
  {| exc_type := "KeyError"; exc_str := py_repr (PStr key); exc_is_Exception := true |}.

Definition ValueError (msg : string) : PyException :=
  {| exc_type := "ValueError"; exc_str := msg; exc_is_Exception := true |}.

Definition TypeError (msg : string) : PyException :=
  {| exc_type := "TypeError"; exc_str := msg; exc_is_Exception := true |}.

Definition AttributeError (msg : string) : PyException :=
  {| exc_type := "AttributeError"; exc_str := msg; exc_is_Exception := true |}.

(** ** models.py *)

(** [class Severity(Enum)], members in definition order. *)
Inductive Severity : Type := BLOCKER | MAJOR | MINOR | INFO.

#[export] Instance Severity_eq_dec : EqDecision Severity.
Proof. solve_decision. Defined.

Definition Severity_value (s : Severity) : string :=
  match s with
  | BLOCKER => "BLOCKER"
  | MAJOR => "MAJOR"
  | MINOR => "MINOR"
  | INFO => "INFO"
  end.

(** [Severity.__members__] *)
Definition Severity_members : list (string * Severity) :=
  [("BLOCKER", BLOCKER); ("MAJOR", MAJOR); ("MINOR", MINOR); ("INFO", INFO)].

(** [Severity[name]]: [KeyError] for a name that is not a member. *)
Definition Severity_getitem `{PyRuntime} (name : string) : Outcome Severity :=
  match dict_lookup Severity_members name with
  | Some s => Returns s
  | None => Raises (KeyError name)
  end.

(** [l.index(x)]: the first position of [x]; [ValueError] when absent. *)
Fixpoint list_index {A : Type} `{EqDecision A} (x : A) (l : list A) : Outcome nat :=
  match l with
  | [] => Raises (ValueError "x is not in list")
  | y :: l' =>
      if decide (y = x) then Returns 0
      else (i <- list_index x l' ;; Returns (S i))
  end.

(** [Severity.__lt__] *)
Definition Severity_lt (self other : Severity) : Outcome bool :=
  let order := [INFO; MINOR; MAJOR; BLOCKER] in
  i <- list_index self order ;;
  j <- list_index other order ;;
  Returns (i <? j).

(** [sorted(xs, key=key)] where the keys are severities.  Python's sort is
    stable and compares keys with [<] only; it is modelled by the insertion
    scheme it applies to short runs: elements are taken from left to right
    and each is placed before the first already placed element whose key is
    greater. *)
Fixpoint sort_insert {A : Type} (key : A -> Severity) (x : A) (placed : list A)
  : Outcome (list A) :=
  match placed with
  | [] => Returns [x]
  | y :: rest =>
      b <- Severity_lt (key x) (key y) ;;
      if b then Returns (x :: y :: rest)
      else (r <- sort_insert key x rest ;; Returns (y :: r))
  end.

Fixpoint sort_loop {A : Type} (key : A -> Severity) (todo placed : list A)
  : Outcome (list A) :=
  match todo with
  | [] => Returns placed
  | x :: todo' =>
      placed' <- sort_insert key x placed ;;
      sort_loop key todo' placed'
  end.

Definition sorted_by_severity {A : Type} (key : A -> Severity) (xs : list A)
  : Outcome (list A) :=
  sort_loop key xs [].

Module ValidationError.
(** [@dataclass class ValidationError] *)
Record t : Type := mk {
  severity : Severity;
  category : string;
  message : string;
  row_indices : option (list Z);
  column : option string;
  expected : option PyVal;
  actual : option PyVal;
  details : option (list (string * PyVal))
}.
End ValidationError.

(** The buckets of a result are declared [list[ValidationError]], but the
    runner also stores a plain dict there; [count_by_severity] and
    [to_dict] tell the two shapes apart with [hasattr]. *)
Inductive Finding : Type :=
  | FError (e : ValidationError.t)
  | FDict (d : list (string * PyVal)).

Module ValidationResult.
(** [@dataclass class ValidationResult] *)
Record t : Type := mk {
  category : string;
  passed : bool;
  errors : list Finding;
  warnings : list Finding;
  info : list Finding;
  duration_seconds : Q
}.

Definition total_issues (self : t) : nat :=
  length (errors self) + length (warnings self) + length (info self).

(** [result.duration_seconds = d] *)
Definition set_duration_seconds (self : t) (d : Q) : t :=
  {| category := category self; passed := passed self;
     errors := errors self; warnings := warnings self; info := info self;
     duration_seconds := d |}.
End ValidationResult.

Module ValidationReport.
(** [@dataclass class ValidationReport] *)
Record t : Type := mk {
  timestamp : Q;
  manifest_path : string;
  data_file : string;
  row_count : nat;
  column_count : nat;
  results : list ValidationResult.t;
  data_quality : list (string * PyVal);
  duration_seconds : Q
}.

(** [all(r.passed for r in self.results)] *)
Definition passed (self : t) : bool :=
  forallb ValidationResult.passed (results self).

Definition total_checks (self : t) : nat := length (results self).

Definition passed_checks (self : t) : nat :=
  length (filter (fun r : ValidationResult.t => ValidationResult.passed r = true) (results self)).

Definition failed_checks (self : t) : nat := total_checks self - passed_checks self.

(** One turn of the three inner loops of [count_by_severity]: the
    severity is read from the attribute of an object or from the key of
    a dict; a member of the enumeration has [.value] and is counted with
    [counts[severity.value] += 1] ([KeyError] if the key were absent),
    anything else with [counts[str(severity)] = counts.get(..., 0) + 1]. *)
Definition count_finding `{PyRuntime} (counts : gmap string nat) (f : Finding)
  : Outcome (gmap string nat) :=
  match f with
  | FError e =>
      let key := Severity_value (ValidationError.severity e) in
      match counts !! key with
      | Some n => Returns (<[key := n + 1]> counts)
      | None => Raises (KeyError key)
      end
  | FDict d =>
      let severity := dict_get d "severity" (PStr "UNKNOWN") in
      let key := py_str severity in
      Returns (<[key := default 0 (counts !! key) + 1]> counts)
  end.

Fixpoint count_findings `{PyRuntime} (counts : gmap string nat) (fs : list Finding)
  : Outcome (gmap string nat) :=
  match fs with
  | [] => Returns counts
  | f :: fs' => counts' <- count_finding counts f ;; count_findings counts' fs'
  end.

Fixpoint count_results `{PyRuntime} (counts : gmap string nat)
    (rs : list ValidationResult.t) : Outcome (gmap string nat) :=
  match rs with
  | [] => Returns counts
  | result :: rs' =>
      c1 <- count_findings counts (ValidationResult.errors result) ;;
      c2 <- count_findings c1 (ValidationResult.warnings result) ;;
      c3 <- count_findings c2 (ValidationResult.info result) ;;
      count_results c3 rs'
  end.

(** [{s.value: 0 for s in Severity}] *)
Definition initial_counts : gmap string nat :=
  <["INFO" := 0]> (<["MINOR" := 0]> (<["MAJOR" := 0]> (<["BLOCKER" := 0]> ∅))).

Definition count_by_severity `{PyRuntime} (self : t) : Outcome (gmap string nat) :=
  count_results initial_counts (results self).

(** [self.count_by_severity()[key] > 0] *)
Definition has_severity `{PyRuntime} (key : string) (self : t) : Outcome bool :=
  counts <- count_by_severity self ;;
  match counts !! key with
  | Some n => Returns (0 <? n)
  | None => Raises (KeyError key)
  end.

Definition has_blockers `{PyRuntime} (self : t) : Outcome bool :=
  has_severity "BLOCKER" self.

Definition has_majors `{PyRuntime} (self : t) : Outcome bool :=
  has_severity "MAJOR" self.
End ValidationReport.

(** ** manifest.py *)

Module ColumnConfig.
Record t : Type := mk {
  name : string;
  required : bool;
  type : string;
  aliases : list string
}.
End ColumnConfig.

Module ConstraintConfig.
Record t : Type := mk {
  type : string;
  pattern : option string;
  min_length : option Z;
  max_length : option Z;
  strip_chars : option string;
  allow_empty : bool;
  allow_special_values : list string;
  severity : string
}.
End ConstraintConfig.

Module VocabConfig.
Record t : Type := mk {
  values : list string;
  case_sensitive : bool;
  allow_null : bool;
  severity : string
}.
End VocabConfig.

Module GeoConfig.
Record t : Type := mk {
  lat_field : string;
  lon_field : string;
  lat_min : Q;
  lat_max : Q;
  lon_min : Q;
  lon_max : Q;
  brazil_lat_min : Q;
  brazil_lat_max : Q;
  brazil_lon_min : Q;
  brazil_lon_max : Q;
  check_duplicates : bool;
  id_column : string
}.
End GeoConfig.

Module CrossFieldConfig.
Record t : Type := mk {
  description : string;
  field_a : string;
  field_b : string;
  mapping_file : option string;
  rule : option string;
  tolerance : Z;
  severity : string
}.
End CrossFieldConfig.

Module ManifestConfig.
(** [@dataclass class ManifestConfig]: [input_file] is the one field
    without a default. *)
Record t : Type := mk {
  input_file : string;
  source_type : string;
  sheet_name : option string;
  columns : list ColumnConfig.t;
  constraints : list (string * ConstraintConfig.t);
  controlled_vocab : list (string * VocabConfig.t);
  geospatial : option GeoConfig.t;
  cross_field : list (string * CrossFieldConfig.t);
  uniqueness_columns : list string;
  missingness : list (string * list (string * PyVal));
  reports_dir : string;
  fu_to_state : list (string * list string);
  fu_to_region : list (string * list string)
}.

(** The generated [__init__], called with keyword arguments as the
    repository does: [None] stands for an argument that is not passed. A
    field with a default takes it; [input_file] has none, so leaving it
    out is a [TypeError]. *)
Definition init (input_file : option string) (source_type : option string)
    (sheet_name : option (option string)) (reports_dir : option string) : Outcome t :=
  match input_file with
  | None =>
      Raises (TypeError
        "ManifestConfig.__init__() missing 1 required positional argument: 'input_file'")
  | Some f =>
      Returns {| input_file := f;
                 source_type := default "excel" source_type;
                 sheet_name := default None sheet_name;
                 columns := [];
                 constraints := [];
                 controlled_vocab := [];
                 geospatial := None;
                 cross_field := [];
                 uniqueness_columns := [];
                 missingness := [];
                 reports_dir := default "reports" reports_dir;
                 fu_to_state := [];
                 fu_to_region := [] |}
  end.

Definition geo_config (self : t) : option GeoConfig.t := geospatial self.
Definition primary_keys (self : t) : list string := uniqueness_columns self.
Definition composite_keys (self : t) : list (list string) := [].
Definition expected_hash (self : t) : option string := None.
Definition expected_rows (self : t) : option nat := None.
Definition expected_columns (self : t) : option (list string) :=
  match columns self with
  | [] => None
  | cols => Some (map ColumnConfig.name cols)
  end.
Definition encoding (self : t) : string := "utf-8".
Definition delimiter (self : t) : string := ",".
End ManifestConfig.

(** ** Text

    A Python [str] is kept as the bytes of its UTF-8 encoding, which is what
    a string literal of this file denotes; the operations below work on the
    characters of that encoding. *)

Definition is_continuation_byte (c : Ascii.ascii) : bool :=
  let n := Ascii.nat_of_ascii c in (128 <=? n) && (n <? 192).

Definition starts_with_continuation (ch : string) : bool :=
  match ch with
  | EmptyString => false
  | String c _ => is_continuation_byte c
  end.

(** The characters of a string, each as the bytes that encode it. *)
Fixpoint utf8_chars (s : string) : list string :=
  match s with
  | EmptyString => []
  | String c s' =>
      match utf8_chars s' with
      | ch :: rest =>
          if starts_with_continuation ch then String c ch :: rest
          else String c EmptyString :: ch :: rest
      | [] => [String c EmptyString]
      end
  end.

Fixpoint str_concat (l : list string) : string :=
  match l with
  | [] => EmptyString
  | s :: l' => String.append s (str_concat l')
  end.

Definition bytes_of (ch : string) : list nat :=
  map Ascii.nat_of_ascii (String.list_ascii_of_string ch).

(** [ch.isspace()] for one character: the white space of ASCII and the
    white space characters of Unicode beyond it. *)
Definition is_space (ch : string) : bool :=
  match bytes_of ch with
  | [n] => ((9 <=? n) && (n <=? 13)) || ((28 <=? n) && (n <=? 32))
  | [194; n] => (n =? 133) || (n =? 160)
  | [225; 154; 128] => true
  | [226; 128; n] =>
      ((128 <=? n) && (n <=? 138)) || (n =? 168) || (n =? 169) || (n =? 175)
  | [226; 129; 159] => true
  | [227; 128; 128] => true
  | _ => false
  end.

Fixpoint drop_while {A : Type} (p : A -> bool) (l : list A) : list A :=
  match l with
  | [] => []
  | x :: l' => if p x then drop_while p l' else l
  end.

Definition strip_by (p : string -> bool) (s : string) : string :=
  str_concat (rev (drop_while p (rev (drop_while p (utf8_chars s))))).

(** [s.strip()] *)
Definition py_strip (s : string) : string := strip_by is_space s.

(** [s.strip(chars)] *)
Definition py_strip_chars (s chars : string) : string :=
  strip_by (fun ch => str_in ch (utf8_chars chars)) s.

(** [s.replace(ch, '')] for a single character [ch] *)
Definition remove_char (s ch : string) : string :=
  str_concat (filter (fun c => c <> ch) (utf8_chars s)).

(** Truth value of an optional string: [None] and [''] are false. *)
Definition truthy_str (o : option string) : bool :=
  match o with
  | Some (String _ _) => true
  | _ => false
  end.

(** ** The dataset and the world *)

(** A [pandas.DataFrame]: column labels with their dtypes, and the rows,
    each with its index label and one cell per column. *)
Record DataFrame : Type := mkDataFrame {
  df_columns : list string;
  df_dtypes : list string;
  df_rows : list (Z * list PyVal)
}.

(** [len(df)] and [len(df.columns)] *)
Definition df_len (df : DataFrame) : nat := length (df_rows df).
Definition df_ncols (df : DataFrame) : nat := length (df_columns df).

(** [pd.isna(val)] for a scalar cell *)
Definition pd_isna (v : PyVal) : bool :=
  match v with
  | PNone | PNaN => true
  | _ => false
  end.

Fixpoint column_position (col : string) (cols : list string) : option nat :=
  match cols with
  | [] => None
  | c :: cols' =>
      if String.eqb c col then Some 0
      else option_map S (column_position col cols')
  end.

(** [df[col].items()]: the index label and the cell of every row;
    [KeyError] for a label that is not a column.  The cells are those of
    the one column that carries the label: where several columns carry it
    [df[col]] is a DataFrame, and the statements about cells are made for
    distinct labels or for the case that the check returns. *)
Definition df_items `{PyRuntime} (df : DataFrame) (col : string) : Outcome (list (Z * PyVal)) :=
  match column_position col (df_columns df) with
  | None => Raises (KeyError col)
  | Some i => Returns (map (fun r : Z * list PyVal => (fst r, nth i (snd r) PNaN)) (df_rows df))
  end.

(** [df.loc[i, col]] for index labels that are unique *)
Definition df_loc `{PyRuntime} (df : DataFrame) (i : Z) (col : string) : Outcome PyVal :=
  items <- df_items df col ;;
  match List.find (fun r : Z * PyVal => Z.eqb (fst r) i) items with
  | Some r => Returns (snd r)
  | None => Raises (KeyError (str_of_Z i))
  end.

(** A row as [df.apply(..., axis=1)] and [df.iterrows()] hand it over *)
Definition Row : Type := list (string * PyVal).

Definition df_row_series (df : DataFrame) (r : Z * list PyVal) : Row :=
  combine (df_columns df) (snd r).

(** What a run can read and change: the [DataFrame] object every check
    receives, and the two clocks. *)
Record World : Type := mkWorld {
  w_df : DataFrame;
  w_time : Q;
  w_perf_counter : Q
}.

(** A computation that may read and update the world and may raise; the
    world it leaves behind is kept in both cases. *)
Definition Py (A : Type) : Type := World -> Outcome A * World.

Definition Py_ret {A : Type} (a : A) : Py A := fun w => (Returns a, w).

Definition Py_raise {A : Type} (e : PyException) : Py A := fun w => (Raises e, w).

Definition Py_bind {A B : Type} (m : Py A) (k : A -> Py B) : Py B :=
  fun w =>
    match m w with
    | (Returns a, w') => k a w'
    | (Raises e, w') => (Raises e, w')
    end.

Notation "x <~ m ;; k" := (Py_bind m (fun x => k))
  (at level 100, m at next level, right associativity, only parsing).

Definition Py_lift {A : Type} (o : Outcome A) : Py A := fun w => (o, w).

(** Reading the dataset: [df] inside a check is the object of the world. *)
Definition read_df : Py DataFrame := fun w => (Returns (w_df w), w).

(** [time.time()], [time.perf_counter()] and [datetime.now()] *)
Definition time_time : Py Q := fun w => (Returns (w_time w), w).
Definition time_perf_counter : Py Q := fun w => (Returns (w_perf_counter w), w).
Definition datetime_now : Py Q := fun w => (Returns (w_time w), w).

(** [for x in xs: body] for a body that may raise, threading an accumulator *)
Fixpoint Outcome_fold {A S : Type} (body : S -> A -> Outcome S) (xs : list A) (s : S)
  : Outcome S :=
  match xs with
  | [] => Returns s
  | x :: xs' => s' <- body s x ;; Outcome_fold body xs' s'
  end.

(** ** checks/base.py *)

Module BaseCheck.
(** A check class: the two abstract properties and the abstract [run].
    [run(self, df, config)] receives the dataset object of the world. *)
Record t : Type := mk {
  name : string;
  description : string;
  run : ManifestConfig.t -> Py ValidationResult.t
}.

(** [create_error]; [category] is [self.name]. *)
Definition create_error (self_name : string) (severity : Severity) (message : string)
    (row_indices : option (list Z)) (column : option string)
    (expected actual : option PyVal) (details : option (list (string * PyVal)))
  : ValidationError.t :=
  {| ValidationError.severity := severity;
     ValidationError.category := self_name;
     ValidationError.message := message;
     ValidationError.row_indices := row_indices;
     ValidationError.column := column;
     ValidationError.expected := expected;
     ValidationError.actual := actual;
     ValidationError.details := details |}.

(** The index labels of the rows on which [condition_func] is false:
    [df[~df.apply(condition_func, axis=1)].index.tolist()] *)
Definition invalid_rows (df : DataFrame) (condition_func : Row -> Outcome bool)
  : Outcome (list Z) :=
  Outcome_fold
    (fun acc r =>
       ok <- condition_func (df_row_series df r) ;;
       Returns (if ok then acc else acc ++ [fst r]))
    (df_rows df) [].

Definition validate_rows (self_name : string) (df : DataFrame)
    (condition_func : Row -> Outcome bool) (error_message : string)
    (severity : Severity) (column : option string) : Outcome (list ValidationError.t) :=
  invalid_indices <- invalid_rows df condition_func ;;
  match invalid_indices with
  | [] => Returns []
  | _ =>
      Returns [create_error self_name severity
                 (error_message +:+ " (" +:+ str_of_nat (length invalid_indices) +:+ " linhas)")
                 (Some (firstn 100 invalid_indices)) column None None None]
  end.

(** [timed_run]: the duration is stamped on the result [run] returned. *)
Definition timed_run (self : t) (config : ManifestConfig.t) : Py ValidationResult.t :=
  start <~ time_time ;;
  result <~ run self config ;;
  now <~ time_time ;;
  Py_ret (ValidationResult.set_duration_seconds result (now - start)%Q).
End BaseCheck.

(** ** checks/constraints.py *)

(** The three lists a check collects, and the dicts with the keys
    ['errors'], ['warnings'] and ['info'] its helpers return. *)
Record Buckets : Type := mkBuckets {
  b_errors : list Finding;
  b_warnings : list Finding;
  b_info : list Finding
}.

Definition no_findings : Buckets := mkBuckets [] [] [].

(** [errors.extend(r['errors']); warnings.extend(...); info.extend(...)] *)
Definition extend_all (acc r : Buckets) : Buckets :=
  mkBuckets (b_errors acc ++ b_errors r) (b_warnings acc ++ b_warnings r)
            (b_info acc ++ b_info r).

Definition extend_errors (acc : Buckets) (fs : list Finding) : Buckets :=
  mkBuckets (b_errors acc ++ fs) (b_warnings acc) (b_info acc).

Definition extend_warnings (acc : Buckets) (fs : list Finding) : Buckets :=
  mkBuckets (b_errors acc) (b_warnings acc ++ fs) (b_info acc).

Definition extend_info (acc : Buckets) (fs : list Finding) : Buckets :=
  mkBuckets (b_errors acc) (b_warnings acc) (b_info acc ++ fs).

(** The closing lines every [run] of the repository shares:
    [passed = len(errors) == 0] and the construction of the result. *)
Definition make_result (self_name : string) (b : Buckets) : ValidationResult.t :=
  let passed := length (b_errors b) =? 0 in
  {| ValidationResult.category := self_name;
     ValidationResult.passed := passed;
     ValidationResult.errors := b_errors b;
     ValidationResult.warnings := b_warnings b;
     ValidationResult.info := b_info b;
     ValidationResult.duration_seconds := 0%Q |}.

(** [[f(x) for x in xs]] for an [f] that may raise *)
Fixpoint Outcome_map {A B : Type} (f : A -> Outcome B) (xs : list A) : Outcome (list B) :=
  match xs with
  | [] => Returns []
  | x :: xs' => y <- f x ;; ys <- Outcome_map f xs' ;; Returns (y :: ys)
  end.

(** [re.match(pattern, s)] is not [None]; a pattern that is [None] is a
    [TypeError]. *)
Definition match_pattern `{PyRuntime} (pattern : option string) (s : string) : Outcome bool :=
  match pattern with
  | Some p => re_match p s
  | None => Raises (TypeError "first argument must be string or compiled pattern")
  end.

(** [x > max_rate] for a float [x] and a value read from the manifest *)
Definition float_gt (x : Q) (v : PyVal) : Outcome bool :=
  match v with
  | PInt z => Returns (negb (Qle_bool x (inject_Z z)))
  | PFloat q => Returns (negb (Qle_bool x q))
  | PBool b => Returns (negb (Qle_bool x (if b then 1 else 0)%Q))
  | PNaN => Returns false
  | _ => Raises (TypeError "'>' not supported between instances")
  end.

Definition as_number (v : PyVal) : Q :=
  match v with
  | PInt z => inject_Z z
  | PFloat q => q
  | PBool true => 1%Q
  | _ => 0%Q
  end.

Module ConstraintsCheck.
Definition name : string := "constraints".
Definition description : string :=
  "Valida formato de CNES, Telefone e outros campos com padrões".

(** The default ["\t \n"]: a tab, a space and a line feed. *)
Definition default_strip_chars : string :=
  String (Ascii.ascii_of_nat 9)
    (String (Ascii.ascii_of_nat 32) (String (Ascii.ascii_of_nat 10) EmptyString)).

Definition clean_cnes (value strip_chars : string) : string :=
  py_strip (fold_left remove_char (utf8_chars strip_chars) value).

(** [config.constraints.get(col)] under the guard
    [hasattr(config, 'constraints') and config.constraints] *)
Definition constraint_for (config : ManifestConfig.t) (col : string)
  : option ConstraintConfig.t :=
  match ManifestConfig.constraints config with
  | [] => None
  | cs => dict_lookup cs col
  end.

(** The resolution of the severity in [_validate_cnes]: the member named
    by the string when it names one, [MAJOR] otherwise. *)
Definition cnes_severity `{PyRuntime} (sev_str : string) : Severity :=
  if dict_contains Severity_members sev_str then
    match Severity_getitem sev_str with
    | Returns s => s
    | Raises _ => MAJOR
    end
  else MAJOR.

Definition _validate_cnes `{PyRuntime} (df : DataFrame) (config : ManifestConfig.t)
  : Outcome Buckets :=
  let cnes_config := constraint_for config "CNES" in
  (* a ConstraintConfig has no attribute special_values: the defaults *)
  let special_values := ["Not informed"; "Not informed1-4"] in
  let strip_chars :=
    match cnes_config with
    | Some c =>
        if truthy_str (ConstraintConfig.strip_chars c)
        then default EmptyString (ConstraintConfig.strip_chars c)
        else default_strip_chars
    | None => default_strip_chars
    end in
  let pattern :=
    match cnes_config with
    | Some c =>
        if truthy_str (ConstraintConfig.pattern c)
        then default EmptyString (ConstraintConfig.pattern c)
        else "^\d{6,8}$"
    | None => "^\d{6,8}$"
    end in
  items <- df_items df "CNES" ;;
  scan <- Outcome_fold
    (fun (acc : list Z * list Z) (item : Z * PyVal) =>
       let invalid_indices := fst acc in
       let special_value_indices := snd acc in
       let idx := fst item in
       let val := snd item in
       if pd_isna val then Returns acc
       else
         let cleaned := clean_cnes (py_str val) strip_chars in
         if str_in (py_str val) special_values || str_in cleaned special_values
         then Returns (invalid_indices, special_value_indices ++ [idx])
         else
           m <- re_match pattern cleaned ;;
           Returns (if m then acc
                    else (invalid_indices ++ [idx], special_value_indices)))
    items ([], []) ;;
  let invalid_indices := fst scan in
  let special_value_indices := snd scan in
  result <-
    match invalid_indices with
    | [] => Returns no_findings
    | _ =>
        let sev_str :=
          match cnes_config with
          | Some c => ConstraintConfig.severity c
          | None => "MAJOR"
          end in
        let severity := cnes_severity sev_str in
        sample <- Outcome_map
          (fun i => v <- df_loc df i "CNES" ;; Returns (PStr (py_str v)))
          (firstn 5 invalid_indices) ;;
        let error :=
          BaseCheck.create_error name severity
            ("CNES com formato inválido (" +:+ str_of_nat (length invalid_indices)
               +:+ " registros)")
            (Some (firstn 50 invalid_indices)) (Some "CNES") None None
            (Some [("pattern", PStr pattern); ("sample_invalid", PList sample)]) in
        if bool_decide (severity = BLOCKER) || bool_decide (severity = MAJOR)
        then Returns (extend_errors no_findings [FError error])
        else Returns (extend_warnings no_findings [FError error])
    end ;;
  match special_value_indices with
  | [] => Returns result
  | _ =>
      Returns (extend_info result
        [FError (BaseCheck.create_error name INFO
           ("CNES com valores especiais permitidos ("
              +:+ str_of_nat (length special_value_indices) +:+ " registros)")
           (Some (firstn 20 special_value_indices)) (Some "CNES") None None None)])
  end.

Definition _validate_telefone `{PyRuntime} (df : DataFrame) (config : ManifestConfig.t)
  : Outcome Buckets :=
  let tel_config := constraint_for config "Telefone" in
  let special_values :=
    match tel_config with
    | Some c => ConstraintConfig.allow_special_values c
    | None => ["Sem contato"]
    end in
  let pattern :=
    match tel_config with
    | Some c => ConstraintConfig.pattern c
    | None => Some "^[\d\s\-\(\)\/\+]+$"
    end in
  items <- df_items df "Telefone" ;;
  scan <- Outcome_fold
    (fun (acc : list Z * list Z) (item : Z * PyVal) =>
       let invalid_indices := fst acc in
       let empty_indices := snd acc in
       let idx := fst item in
       let val := snd item in
       if pd_isna val || String.eqb (py_strip (py_str val)) EmptyString
       then Returns (invalid_indices, empty_indices ++ [idx])
       else
         let val_str := py_strip (py_str val) in
         if str_in val_str special_values then Returns acc
         else
           m <- match_pattern pattern val_str ;;
           Returns (if m then acc else (invalid_indices ++ [idx], empty_indices)))
    items ([], []) ;;
  let invalid_indices := fst scan in
  let empty_indices := snd scan in
  result <-
    match invalid_indices with
    | [] => Returns no_findings
    | _ =>
        sample <- Outcome_map
          (fun i => v <- df_loc df i "Telefone" ;; Returns (PStr (py_str v)))
          (firstn 5 invalid_indices) ;;
        Returns (extend_warnings no_findings
          [FError (BaseCheck.create_error name MINOR
             ("Telefones com formato inválido (" +:+ str_of_nat (length invalid_indices)
                +:+ " registros)")
             (Some (firstn 30 invalid_indices)) (Some "Telefone") None None
             (Some [("sample_invalid", PList sample)]))])
    end ;;
  match empty_indices with
  | [] => Returns result
  | _ =>
      Returns (extend_info result
        [FError (BaseCheck.create_error name INFO
           ("Telefones vazios/nulos (" +:+ str_of_nat (length empty_indices)
              +:+ " registros)")
           (Some (firstn 20 empty_indices)) (Some "Telefone") None None None)])
  end.

Definition _validate_pattern `{PyRuntime} (df : DataFrame) (col_name : string)
    (constraint : ConstraintConfig.t) : Outcome (list ValidationError.t) :=
  items <- df_items df col_name ;;
  invalid_indices <- Outcome_fold
    (fun (invalid_indices : list Z) (item : Z * PyVal) =>
       let idx := fst item in
       let val := snd item in
       if pd_isna val then
         Returns (if ConstraintConfig.allow_empty constraint then invalid_indices
                  else invalid_indices ++ [idx])
       else
         let val_str :=
           if truthy_str (ConstraintConfig.strip_chars constraint)
           then py_strip_chars (py_str val)
                  (default EmptyString (ConstraintConfig.strip_chars constraint))
           else py_str val in
         m <- match_pattern (ConstraintConfig.pattern constraint) val_str ;;
         Returns (if m then invalid_indices else invalid_indices ++ [idx]))
    items [] ;;
  match invalid_indices with
  | [] => Returns []
  | _ =>
      severity <- Severity_getitem (ConstraintConfig.severity constraint) ;;
      Returns [BaseCheck.create_error name severity
                 ("'" +:+ col_name +:+ "' com formato inválido ("
                    +:+ str_of_nat (length invalid_indices) +:+ " registros)")
                 (Some (firstn 50 invalid_indices)) (Some col_name) None None
                 (Some [("pattern",
                         match ConstraintConfig.pattern constraint with
                         | Some p => PStr p
                         | None => PNone
                         end)])]
  end.

(** [severity in Severity.__members__] for a value read from the
    manifest: a list, a set or a dict cannot be hashed. *)
Definition in_members (severity : PyVal) : Outcome bool :=
  match severity with
  | PStr s => Returns (dict_contains Severity_members s)
  | PList _ | PSet _ | PDict _ => Raises (TypeError "unhashable type")
  | _ => Returns false
  end.

Definition is_str (v : PyVal) (s : string) : bool :=
  match v with
  | PStr s' => String.eqb s' s
  | _ => false
  end.

Definition _check_missingness `{PyRuntime} (df : DataFrame) (config : ManifestConfig.t)
  : Outcome Buckets :=
  let missingness_config := ManifestConfig.missingness config in
  Outcome_fold
    (fun (result : Buckets) (col : string) =>
       items <- df_items df col ;;
       let null_count :=
         length (filter (fun it : Z * PyVal => pd_isna (snd it) = true) items) in
       let null_rate :=
         if 0 <? df_len df
         then (Z.of_nat null_count # Pos.of_nat (df_len df))%Q
         else 0%Q in
       let miss_config := dict_get missingness_config col [] in
       let max_rate := dict_get miss_config "max_null_rate" (PFloat 1%Q) in
       let severity := dict_get miss_config "severity" (PStr "INFO") in
       exceeded <- float_gt null_rate max_rate ;;
       if exceeded then
         known <- in_members severity ;;
         sev_enum <-
           (if known then
              match Severity_getitem (py_str severity) with
              | Returns s => Returns s
              | Raises _ => Returns INFO
              end
            else Returns INFO) ;;
         let error :=
           BaseCheck.create_error name sev_enum
             ("'" +:+ col +:+ "' tem " +:+ format_percent null_rate 1
                +:+ " nulos (máximo: " +:+ format_percent (as_number max_rate) 1 +:+ ")")
             None (Some col) None None
             (Some [("null_count", PInt (Z.of_nat null_count));
                    ("null_rate", if 0 <? df_len df then PFloat null_rate else PInt 0);
                    ("max_rate", max_rate)]) in
         if is_str severity "BLOCKER" then Returns (extend_errors result [FError error])
         else if is_str severity "MAJOR" then Returns (extend_errors result [FError error])
         else if is_str severity "MINOR" then Returns (extend_warnings result [FError error])
         else Returns (extend_info result [FError error])
       else Returns result)
    (df_columns df) no_findings.

(** The loop of [run] over [config.constraints.items()] *)
Definition pattern_step `{PyRuntime} (df : DataFrame) (acc : Buckets)
    (item : string * ConstraintConfig.t) : Outcome Buckets :=
  let col_name := fst item in
  let constraint := snd item in
  if str_in col_name ["CNES"; "Telefone"] then Returns acc
  else if str_in col_name (df_columns df)
          && truthy_str (ConstraintConfig.pattern constraint) then
    pattern_result <- _validate_pattern df col_name constraint ;;
    let severity := ConstraintConfig.severity constraint in
    if String.eqb severity "BLOCKER" then Returns (extend_errors acc (map FError pattern_result))
    else if String.eqb severity "MAJOR" then Returns (extend_errors acc (map FError pattern_result))
    else if String.eqb severity "MINOR" then Returns (extend_warnings acc (map FError pattern_result))
    else Returns (extend_info acc (map FError pattern_result))
  else Returns acc.

Definition run_on `{PyRuntime} (df : DataFrame) (config : ManifestConfig.t)
  : Outcome ValidationResult.t :=
  let acc := no_findings in
  acc <- (if str_in "CNES" (df_columns df)
          then (cnes_result <- _validate_cnes df config ;;
                Returns (extend_all acc cnes_result))
          else Returns acc) ;;
  acc <- (if str_in "Telefone" (df_columns df)
          then (tel_result <- _validate_telefone df config ;;
                Returns (extend_info (extend_warnings acc (b_warnings tel_result))
                           (b_info tel_result)))
          else Returns acc) ;;
  acc <- Outcome_fold (pattern_step df) (ManifestConfig.constraints config) acc ;;
  missingness_result <- _check_missingness df config ;;
  let acc := extend_all acc missingness_result in
  Returns (make_result name acc).

Definition run `{PyRuntime} (config : ManifestConfig.t) : Py ValidationResult.t :=
  df <~ read_df ;;
  Py_lift (run_on df config).
End ConstraintsCheck.

(** ** The other registered checks

    The rule bodies of these checks (pandas selections, hashing, timing,
    coordinate arithmetic) are taken as given: the helper methods below are
    the fields of [RuleBodies], each a computation on the world that holds
    the dataset.  What is embedded of each class is its [run] method: how
    it calls the helpers, routes their findings into the three lists and
    builds its result. *)

Class RuleBodies : Type := {
  (* ParsingCheck *)
  _check_whitespace : Py (list string);
  _check_unicode : Py (list PyVal);
  _check_numeric_column : string -> Py (list Z);
  (* VocabCheck *)
  _check_vocabulary : string -> VocabConfig.t -> Py (list ValidationError.t);
  (* CoherenceCheck *)
  _validate_fu_state : ManifestConfig.t -> Py Buckets;
  _validate_region_fu : ManifestConfig.t -> Py Buckets;
  _validate_atendimento_count : ManifestConfig.t -> Py Buckets;
  (* GeospatialCheck *)
  _validate_bounds : string -> string -> list (string * PyVal) -> Py Buckets;
  _validate_nulls : string -> string -> Py Buckets;
  _detect_duplicate_coordinates : string -> string -> Py Buckets;
  _detect_outliers : string -> string -> Py Buckets;
  _detect_suspicious : string -> string -> Py Buckets;
  (* UniquenessCheck *)
  _validate_uniqueness : string -> ManifestConfig.t -> Py Buckets;
  _validate_composite_uniqueness : list string -> ManifestConfig.t -> Py Buckets;
  (* ReproducibilityCheck *)
  _compute_dataset_hash : Py string;
  _compute_stability_stats : Py (list (string * PyVal));
  (* PerfCheck *)
  _check_memory : ManifestConfig.t -> Py Buckets;
  _check_size : ManifestConfig.t -> Py Buckets;
  _benchmark_basic_ops : Py Buckets
}.

(** [for x in xs: body] in the world *)
Fixpoint Py_fold {A S : Type} (body : S -> A -> Py S) (xs : list A) (s : S) : Py S :=
  match xs with
  | [] => Py_ret s
  | x :: xs' => s' <~ body s x ;; Py_fold body xs' s'
  end.

(** [sorted(s)] for a set of strings: increasing, without repetition *)
Fixpoint insert_sorted (x : string) (l : list string) : list string :=
  match l with
  | [] => [x]
  | y :: l' =>
      match String.compare x y with
      | Lt => x :: l
      | Eq => l
      | Gt => y :: insert_sorted x l'
      end
  end.

Definition sorted_set (l : list string) : list string := fold_right insert_sorted [] l.

(** [set(a) - set(b)]; the elements are listed in the order of their first
    occurrence in [a] (the order Python iterates a set of strings in
    depends on the hash seed of the process). *)
Definition set_difference (a b : list string) : list string :=
  remove_dups (filter (fun x => str_in x b = false) a).

(** The label [col] is carried by more than one column. *)
Definition repeated_label (cols : list string) (col : string) : bool :=
  1 <? length (List.filter (String.eqb col) cols).

Module SchemaCheck.
Definition name : string := "schema".
Definition description : string := "Valida presença e tipos de colunas esperadas".

Fixpoint find_alias (aliases df_columns : list string) : option string :=
  match aliases with
  | [] => None
  | alias :: rest =>
      if str_in alias df_columns then Some alias else find_alias rest df_columns
  end.

Definition column_step (df_columns : list string) (acc : Buckets)
    (col_config : ColumnConfig.t) : Buckets :=
  let col_name := ColumnConfig.name col_config in
  let found_alias :=
    if str_in col_name df_columns then None
    else find_alias (ColumnConfig.aliases col_config) df_columns in
  let found :=
    str_in col_name df_columns
    || match found_alias with Some _ => true | None => false end in
  if negb found && ColumnConfig.required col_config then
    extend_errors acc
      [FError (BaseCheck.create_error name BLOCKER
         ("Coluna obrigatória '" +:+ col_name +:+ "' não encontrada")
         None (Some col_name) (Some (PStr col_name)) None
         (Some [("aliases_checked", PList (map PStr (ColumnConfig.aliases col_config)))]))]
  else if negb found && negb (ColumnConfig.required col_config) then
    extend_info acc
      [FError (BaseCheck.create_error name INFO
         ("Coluna opcional '" +:+ col_name +:+ "' não encontrada")
         None (Some col_name) None None None)]
  else if truthy_str found_alias then
    extend_info acc
      [FError (BaseCheck.create_error name INFO
         ("Coluna '" +:+ col_name +:+ "' encontrada via alias '"
            +:+ default EmptyString found_alias +:+ "'")
         None (Some col_name) None None
         (Some [("alias_used", PStr (default EmptyString found_alias))]))]
  else acc.

Definition type_mapping : list (string * list string) :=
  [("string", ["object"; "string"]);
   ("float", ["float64"; "float32"; "float"]);
   ("int", ["int64"; "int32"; "int"]);
   ("bool", ["bool"])].

(** [str(df[col].dtype)].  For a label that more than one column carries
    [df[col]] is a DataFrame, which has [dtypes] and no [dtype]:
    [AttributeError]; for a label that no column carries, [KeyError]. *)
Definition df_dtype `{PyRuntime} (df : DataFrame) (col : string) : Outcome string :=
  match column_position col (df_columns df) with
  | Some i =>
      if repeated_label (df_columns df) col
      then Raises (AttributeError "'DataFrame' object has no attribute 'dtype'")
      else Returns (nth i (df_dtypes df) "object")
  | None => Raises (KeyError col)
  end.

Definition type_step `{PyRuntime} (df : DataFrame) (type_errors : list ValidationError.t)
    (col_config : ColumnConfig.t) : Outcome (list ValidationError.t) :=
  let col := ColumnConfig.name col_config in
  if negb (str_in col (df_columns df)) then Returns type_errors
  else
    actual_type <- df_dtype df col ;;
    let expected_types :=
      dict_get type_mapping (ColumnConfig.type col_config)
               [ColumnConfig.type col_config] in
    if negb (str_in actual_type expected_types) then
      Returns (type_errors ++
        [BaseCheck.create_error name MINOR
           ("Tipo de '" +:+ col +:+ "' é '" +:+ actual_type +:+ "', esperado '"
              +:+ ColumnConfig.type col_config +:+ "'")
           None (Some col) (Some (PStr (ColumnConfig.type col_config)))
           (Some (PStr actual_type)) None])
    else Returns type_errors.

Definition _check_column_types `{PyRuntime} (df : DataFrame) (config : ManifestConfig.t)
  : Outcome (list ValidationError.t) :=
  Outcome_fold (type_step df) (ManifestConfig.columns config) [].

Definition run_on `{PyRuntime} (df : DataFrame) (config : ManifestConfig.t)
  : Outcome ValidationResult.t :=
  let acc :=
    fold_left (column_step (df_columns df)) (ManifestConfig.columns config) no_findings in
  let expected_names :=
    flat_map (fun c => ColumnConfig.name c :: ColumnConfig.aliases c)
             (ManifestConfig.columns config) in
  let unexpected := set_difference (df_columns df) expected_names in
  let acc :=
    match unexpected with
    | [] => acc
    | _ =>
        extend_info acc
          [FError (BaseCheck.create_error name INFO
             ("Colunas não documentadas encontradas: "
                +:+ py_str (PList (map PStr (sorted_set unexpected))))
             None None None None
             (Some [("unexpected_columns", PList (map PStr (sorted_set unexpected)))]))]
    end in
  type_errors <- _check_column_types df config ;;
  let acc := extend_warnings acc (map FError type_errors) in
  Returns (make_result name acc).

Definition run `{PyRuntime} (config : ManifestConfig.t) : Py ValidationResult.t :=
  df <~ read_df ;;
  Py_lift (run_on df config).
End SchemaCheck.

Module ParsingCheck.
Definition name : string := "parsing".
Definition description : string :=
  "Valida normalização de dados (whitespace, unicode, decimais)".

(** The block of [run] for one coordinate column *)
Definition numeric_block `{RuleBodies} (col : string) (acc : Buckets) : Py Buckets :=
  df <~ read_df ;;
  if str_in col (df_columns df) then
    issues <~ _check_numeric_column col ;;
    match issues with
    | [] => Py_ret acc
    | _ =>
        Py_ret (extend_errors acc
          [FError (BaseCheck.create_error name MAJOR
             ("Valores não numéricos em " +:+ col +:+ " ("
                +:+ str_of_nat (length issues) +:+ " linhas)")
             (Some (firstn 50 issues)) (Some col) None None None)])
    end
  else Py_ret acc.

Definition run `{RuleBodies} (config : ManifestConfig.t) : Py ValidationResult.t :=
  let acc := no_findings in
  whitespace_issues <~ _check_whitespace ;;
  let acc :=
    match whitespace_issues with
    | [] => acc
    | _ =>
        extend_warnings acc
          [FError (BaseCheck.create_error name MINOR
             ("Valores com whitespace extra em "
                +:+ str_of_nat (length whitespace_issues) +:+ " colunas")
             None None None None
             (Some [("columns", PList (map PStr whitespace_issues))]))]
    end in
  unicode_issues <~ _check_unicode ;;
  let acc :=
    match unicode_issues with
    | [] => acc
    | _ =>
        extend_info acc
          [FError (BaseCheck.create_error name INFO
             ("Caracteres Unicode especiais em "
                +:+ str_of_nat (length unicode_issues) +:+ " colunas")
             None None None None
             (Some [("columns", PList unicode_issues)]))]
    end in
  acc <~ numeric_block "Lat" acc ;;
  acc <~ numeric_block "Lon" acc ;;
  Py_ret (make_result name acc).
End ParsingCheck.

Module VocabCheck.
Definition name : string := "vocab".
Definition description : string :=
  "Valida Region, FU, Federal_Un contra vocabulários permitidos".

Definition vocab_step `{PyRuntime} `{RuleBodies} (acc : Buckets)
    (item : string * VocabConfig.t) : Py Buckets :=
  let col_name := fst item in
  let vocab_config := snd item in
  df <~ read_df ;;
  if negb (str_in col_name (df_columns df)) then Py_ret acc
  else
    result <~ _check_vocabulary col_name vocab_config ;;
    severity <~ Py_lift (Severity_getitem (VocabConfig.severity vocab_config)) ;;
    if bool_decide (severity = BLOCKER) then Py_ret (extend_errors acc (map FError result))
    else if bool_decide (severity = MAJOR) then Py_ret (extend_errors acc (map FError result))
    else if bool_decide (severity = MINOR) then Py_ret (extend_warnings acc (map FError result))
    else Py_ret (extend_info acc (map FError result)).

Definition run `{PyRuntime} `{RuleBodies} (config : ManifestConfig.t)
  : Py ValidationResult.t :=
  acc <~ Py_fold vocab_step (ManifestConfig.controlled_vocab config) no_findings ;;
  Py_ret (make_result name acc).
End VocabCheck.

Module CoherenceCheck.
Definition name : string := "coherence".
Definition description : string :=
  "Valida FU↔Federal_Un, Region↔FU, Atendiment↔Atendime_1".

Definition run `{RuleBodies} (config : ManifestConfig.t) : Py ValidationResult.t :=
  let acc := no_findings in
  df <~ read_df ;;
  acc <~ (if str_in "FU" (df_columns df) && str_in "Federal_Un" (df_columns df)
          then (fu_state_result <~ _validate_fu_state config ;;
                Py_ret (extend_warnings (extend_errors acc (b_errors fu_state_result))
                          (b_warnings fu_state_result)))
          else Py_ret acc) ;;
  df <~ read_df ;;
  acc <~ (if str_in "Region" (df_columns df) && str_in "FU" (df_columns df)
          then (region_fu_result <~ _validate_region_fu config ;;
                Py_ret (extend_warnings (extend_errors acc (b_errors region_fu_result))
                          (b_warnings region_fu_result)))
          else Py_ret acc) ;;
  df <~ read_df ;;
  acc <~ (if str_in "Atendiment" (df_columns df) && str_in "Atendime_1" (df_columns df)
          then (atend_result <~ _validate_atendimento_count config ;;
                Py_ret (extend_info (extend_warnings acc (b_warnings atend_result))
                          (b_info atend_result)))
          else Py_ret acc) ;;
  Py_ret (make_result name acc).
End CoherenceCheck.

Module GeospatialCheck.
Definition name : string := "geospatial".
Definition description : string :=
  "Valida coordenadas dentro do Brasil e detecta anomalias".

Definition BRAZIL_BOUNDS : list (string * PyVal) :=
  [("lat_min", PFloat (-3375 # 100)); ("lat_max", PFloat (527 # 100));
   ("lon_min", PFloat (-7399 # 100)); ("lon_max", PFloat (-3239 # 100))].

Fixpoint _find_column (df : DataFrame) (candidates : list string) : option string :=
  match candidates with
  | [] => None
  | col :: rest =>
      if str_in col (df_columns df) then Some col else _find_column df rest
  end.

(** [config.geo_config.bounds] is read when a geospatial section is
    configured; [GeoConfig] declares no such attribute. *)
Definition _get_bounds (config : ManifestConfig.t) : Outcome (list (string * PyVal)) :=
  match ManifestConfig.geo_config config with
  | Some _ => Raises (AttributeError "'GeoConfig' object has no attribute 'bounds'")
  | None => Returns BRAZIL_BOUNDS
  end.

Definition run `{RuleBodies} (config : ManifestConfig.t) : Py ValidationResult.t :=
  let acc := no_findings in
  df <~ read_df ;;
  let lat_col := _find_column df ["Lat"; "lat"; "latitude"; "Latitude"] in
  let lon_col :=
    _find_column df ["Lon"; "lon"; "longitude"; "Longitude"; "Lng"; "lng"] in
  if negb (truthy_str lat_col) || negb (truthy_str lon_col) then
    Py_ret {| ValidationResult.category := name;
              ValidationResult.passed := true;
              ValidationResult.errors := [];
              ValidationResult.warnings := [];
              ValidationResult.info :=
                [FError (BaseCheck.create_error name INFO
                   "Colunas de coordenadas não encontradas"
                   None None None None None)];
              ValidationResult.duration_seconds := 0%Q |}
  else
    let lat_col := default EmptyString lat_col in
    let lon_col := default EmptyString lon_col in
    bounds <~ Py_lift (_get_bounds config) ;;
    out_of_bounds_result <~ _validate_bounds lat_col lon_col bounds ;;
    let acc := extend_warnings (extend_errors acc (b_errors out_of_bounds_result))
                 (b_warnings out_of_bounds_result) in
    null_result <~ _validate_nulls lat_col lon_col ;;
    let acc := extend_info (extend_warnings acc (b_warnings null_result))
                 (b_info null_result) in
    duplicate_result <~ _detect_duplicate_coordinates lat_col lon_col ;;
    let acc := extend_info (extend_warnings acc (b_warnings duplicate_result))
                 (b_info duplicate_result) in
    outlier_result <~ _detect_outliers lat_col lon_col ;;
    let acc := extend_warnings acc (b_warnings outlier_result) in
    suspicious_result <~ _detect_suspicious lat_col lon_col ;;
    let acc := extend_errors acc (b_errors suspicious_result) in
    Py_ret (make_result name acc).
End GeospatialCheck.

Module UniquenessCheck.
Definition name : string := "uniqueness".
Definition description : string :=
  "Valida unicidade de CNES e outras chaves candidatas".

Definition _get_key_columns (df : DataFrame) (config : ManifestConfig.t) : list string :=
  match ManifestConfig.primary_keys config with
  | [] => filter (fun k => str_in k (df_columns df) = true) ["CNES"]
  | keys => keys
  end.

Definition key_step `{RuleBodies} (config : ManifestConfig.t) (acc : Buckets)
    (col : string) : Py Buckets :=
  df <~ read_df ;;
  if negb (str_in col (df_columns df)) then Py_ret acc
  else
    result <~ _validate_uniqueness col config ;;
    Py_ret (extend_all acc result).

Definition composite_step `{RuleBodies} (config : ManifestConfig.t) (acc : Buckets)
    (key_set : list string) : Py Buckets :=
  df <~ read_df ;;
  if forallb (fun k => str_in k (df_columns df)) key_set then
    result <~ _validate_composite_uniqueness key_set config ;;
    Py_ret (extend_warnings (extend_errors acc (b_errors result)) (b_warnings result))
  else Py_ret acc.

Definition run `{RuleBodies} (config : ManifestConfig.t) : Py ValidationResult.t :=
  df <~ read_df ;;
  let key_columns := _get_key_columns df config in
  acc <~ Py_fold (key_step config) key_columns no_findings ;;
  acc <~ Py_fold (composite_step config) (ManifestConfig.composite_keys config) acc ;;
  Py_ret (make_result name acc).
End UniquenessCheck.

Module ReproducibilityCheck.
Definition name : string := "reproducibility".
Definition description : string :=
  "Calcula hash do dataset e verifica estabilidade".

Definition run `{PyRuntime} `{RuleBodies} (config : ManifestConfig.t)
  : Py ValidationResult.t :=
  let acc := no_findings in
  dataset_hash <~ _compute_dataset_hash ;;
  df <~ read_df ;;
  computed_at <~ datetime_now ;;
  let acc :=
    extend_info acc
      [FError (BaseCheck.create_error name INFO
         ("Hash do dataset: " +:+ String.substring 0 16 dataset_hash +:+ "...")
         None None None None
         (Some [("full_hash", PStr dataset_hash);
                ("algorithm", PStr "sha256");
                ("rows", PInt (Z.of_nat (df_len df)));
                ("columns", PInt (Z.of_nat (df_ncols df)));
                ("computed_at", PStr (isoformat computed_at))]))] in
  let acc :=
    if truthy_str (ManifestConfig.expected_hash config) then
      if negb (String.eqb dataset_hash
                 (default EmptyString (ManifestConfig.expected_hash config))) then
        extend_errors acc
          [FError (BaseCheck.create_error name BLOCKER
             "Hash do dataset não corresponde ao esperado"
             None None None None
             (Some [("expected",
                     PStr (default EmptyString (ManifestConfig.expected_hash config)));
                    ("actual", PStr dataset_hash)]))]
      else acc
    else acc in
  let acc :=
    match ManifestConfig.expected_rows config with
    | Some (S n) =>
        let expected_rows := S n in
        if negb (df_len df =? expected_rows) then
          let difference := (Z.of_nat (df_len df) - Z.of_nat expected_rows)%Z in
          let severity := if (10 <? Z.abs difference)%Z then MAJOR else MINOR in
          extend_errors acc
            [FError (BaseCheck.create_error name severity
               ("Número de linhas (" +:+ str_of_nat (df_len df)
                  +:+ ") difere do esperado (" +:+ str_of_nat expected_rows +:+ ")")
               None None None None
               (Some [("expected_rows", PInt (Z.of_nat expected_rows));
                      ("actual_rows", PInt (Z.of_nat (df_len df)));
                      ("difference", PInt difference)]))]
        else acc
    | _ => acc
    end in
  let acc :=
    match ManifestConfig.expected_columns config with
    | Some (c :: cs) =>
        let expected_columns := c :: cs in
        let missing_cols := set_difference expected_columns (df_columns df) in
        let extra_cols := set_difference (df_columns df) expected_columns in
        let acc :=
          match missing_cols with
          | [] => acc
          | _ =>
              extend_errors acc
                [FError (BaseCheck.create_error name MAJOR
                   ("Colunas esperadas ausentes: " +:+ py_str (PSet (map PStr missing_cols)))
                   None None None None
                   (Some [("missing_columns", PList (map PStr missing_cols))]))]
          end in
        match extra_cols with
        | [] => acc
        | _ =>
            extend_warnings acc
              [FError (BaseCheck.create_error name MINOR
                 ("Colunas extras não esperadas: " +:+ py_str (PSet (map PStr extra_cols)))
                 None None None None
                 (Some [("extra_columns", PList (map PStr extra_cols))]))]
        end
    | _ => acc
    end in
  stability_info <~ _compute_stability_stats ;;
  let acc :=
    extend_info acc
      [FError (BaseCheck.create_error name INFO
         "Estatísticas de estabilidade calculadas"
         None None None None (Some stability_info))] in
  Py_ret (make_result name acc).
End ReproducibilityCheck.

Module PerfCheck.
Definition name : string := "perf".
Definition description : string := "Mede tempo de carregamento e uso de memória".

Definition run `{RuleBodies} (config : ManifestConfig.t) : Py ValidationResult.t :=
  let acc := no_findings in
  memory_result <~ _check_memory config ;;
  let acc := extend_all acc memory_result in
  size_result <~ _check_size config ;;
  let acc := extend_info (extend_warnings acc (b_warnings size_result))
               (b_info size_result) in
  ops_result <~ _benchmark_basic_ops ;;
  let acc := extend_info acc (b_info ops_result) in
  Py_ret (make_result name acc).
End PerfCheck.

(** ** checks/__init__.py *)

Definition check_class (name description : string)
    (run : ManifestConfig.t -> Py ValidationResult.t) : BaseCheck.t :=
  {| BaseCheck.name := name; BaseCheck.description := description; BaseCheck.run := run |}.

Definition ALL_CHECKS `{PyRuntime} `{RuleBodies} : list BaseCheck.t :=
  [check_class SchemaCheck.name SchemaCheck.description SchemaCheck.run;
   check_class ParsingCheck.name ParsingCheck.description ParsingCheck.run;
   check_class ConstraintsCheck.name ConstraintsCheck.description ConstraintsCheck.run;
   check_class VocabCheck.name VocabCheck.description VocabCheck.run;
   check_class CoherenceCheck.name CoherenceCheck.description CoherenceCheck.run;
   check_class GeospatialCheck.name GeospatialCheck.description GeospatialCheck.run;
   check_class UniquenessCheck.name UniquenessCheck.description UniquenessCheck.run;
   check_class ReproducibilityCheck.name ReproducibilityCheck.description
     ReproducibilityCheck.run;
   check_class PerfCheck.name PerfCheck.description PerfCheck.run].

(** ** runner.py *)

Module ValidationRunner.
Record t : Type := mk {
  config : ManifestConfig.t;
  checks : list BaseCheck.t;
  skip_checks : list string
}.

(** [__init__]: an argument that is [None] (or, for the two lists,
    empty) is replaced by its fallback; the fallback of [config] is the
    call [ManifestConfig()]. *)
Definition init `{PyRuntime} `{RuleBodies} (config : option ManifestConfig.t)
    (checks : option (list BaseCheck.t)) (skip_checks : option (list string))
  : Outcome t :=
  config <- match config with
            | Some c => Returns c
            | None => ManifestConfig.init None None None None
            end ;;
  let checks := match checks with
                | Some (c :: cs) => c :: cs
                | _ => ALL_CHECKS
                end in
  let skip_checks := default [] skip_checks in
  Returns {| config := config; checks := checks; skip_checks := skip_checks |}.

(** The dict the handler of [run] puts in the [errors] list *)
Definition fault_finding `{PyRuntime} (e : PyException) : Finding :=
  FDict [("severity", PStr (Severity_value BLOCKER));
         ("message", PStr ("Erro na execução do check: " +:+ exc_str e));
         ("details", PDict [("exception", PStr (exc_type e));
                            ("traceback", PStr (format_exc e))])].

(** The result the handler builds for a check that raised *)
Definition fault_result `{PyRuntime} (check : BaseCheck.t) (e : PyException)
  : ValidationResult.t :=
  {| ValidationResult.category := BaseCheck.name check;
     ValidationResult.passed := false;
     ValidationResult.errors := [fault_finding e];
     ValidationResult.warnings := [];
     ValidationResult.info := [];
     ValidationResult.duration_seconds := 0%Q |}.

(** The loop of [run] over [self.checks]; [results] is the list built so
    far.  [except Exception] does not catch an exception whose class is
    outside [Exception]: it leaves [run]. *)
Fixpoint run_checks `{PyRuntime} (self : t) (todo : list BaseCheck.t)
    (results : list ValidationResult.t) : Py (list ValidationResult.t) :=
  match todo with
  | [] => Py_ret results
  | check :: rest =>
      if str_in (BaseCheck.name check) (skip_checks self) then
        run_checks self rest results
      else
        fun w =>
          match BaseCheck.timed_run check (config self) w with
          | (Returns result, w') => run_checks self rest (results ++ [result]) w'
          | (Raises e, w') =>
              if exc_is_Exception e
              then run_checks self rest (results ++ [fault_result check e]) w'
              else (Raises e, w')
          end
  end.

Definition run `{PyRuntime} (self : t) : Py ValidationReport.t :=
  start_time <~ time_perf_counter ;;
  results <~ run_checks self (checks self) [] ;;
  now <~ time_perf_counter ;;
  let total_time := (now - start_time)%Q in
  timestamp <~ datetime_now ;;
  df <~ read_df ;;
  Py_ret {| ValidationReport.timestamp := timestamp;
            ValidationReport.manifest_path := EmptyString;
            ValidationReport.data_file :=
              match ManifestConfig.input_file (config self) with
              | EmptyString => "unknown"
              | f => f
              end;
            ValidationReport.row_count := df_len df;
            ValidationReport.column_count := df_ncols df;
            ValidationReport.results := results;
            ValidationReport.data_quality := [];
            ValidationReport.duration_seconds := py_round total_time 3 |}.
End ValidationRunner.

(** ** runner.py: the summary of a report *)

Module SummaryStats.
(** The dict [get_summary_stats] returns, one field per key *)
Record t : Type := mk {
  passed : bool;
  total_checks : nat;
  passed_checks : nat;
  failed_checks : nat;
  total_errors : nat;
  total_warnings : nat;
  total_info : nat;
  blocker_count : nat;
  major_count : nat;
  minor_count : nat;
  execution_time : Q
}.
End SummaryStats.

(** [severity == member or severity == name], where [severity] is the
    attribute of an object or the value under ['severity'] of a dict (with
    [''] for a dict without the key) *)
Definition severity_matches (member : Severity) (error : Finding) : bool :=
  match error with
  | FError e => bool_decide (ValidationError.severity e = member)
  | FDict d =>
      match dict_get d "severity" (PStr EmptyString) with
      | PStr s => String.eqb s (Severity_value member)
      | _ => false
      end
  end.

(** The counters of [get_summary_stats] while it walks the results *)
Record Tally : Type := mkTally {
  t_errors : nat;
  t_warnings : nat;
  t_info : nat;
  t_blocker : nat;
  t_major : nat;
  t_minor : nat
}.

(** The inner loop over [result.errors] *)
Definition tally_error (acc : Tally) (error : Finding) : Tally :=
  if severity_matches BLOCKER error then
    mkTally (t_errors acc) (t_warnings acc) (t_info acc)
            (t_blocker acc + 1) (t_major acc) (t_minor acc)
  else if severity_matches MAJOR error then
    mkTally (t_errors acc) (t_warnings acc) (t_info acc)
            (t_blocker acc) (t_major acc + 1) (t_minor acc)
  else if severity_matches MINOR error then
    mkTally (t_errors acc) (t_warnings acc) (t_info acc)
            (t_blocker acc) (t_major acc) (t_minor acc + 1)
  else acc.

(** The outer loop over [report.results] *)
Definition tally_result (acc : Tally) (result : ValidationResult.t) : Tally :=
  let acc :=
    mkTally (t_errors acc + length (ValidationResult.errors result))
            (t_warnings acc + length (ValidationResult.warnings result))
            (t_info acc + length (ValidationResult.info result))
            (t_blocker acc) (t_major acc) (t_minor acc) in
  fold_left tally_error (ValidationResult.errors result) acc.

Definition get_summary_stats (report : ValidationReport.t) : SummaryStats.t :=
  let tally :=
    fold_left tally_result (ValidationReport.results report) (mkTally 0 0 0 0 0 0) in
  let passed_checks :=
    length (List.filter ValidationResult.passed (ValidationReport.results report)) in
  let failed_checks := length (ValidationReport.results report) - passed_checks in
  {| SummaryStats.passed := ValidationReport.passed report;
     SummaryStats.total_checks := length (ValidationReport.results report);
     SummaryStats.passed_checks := passed_checks;
     SummaryStats.failed_checks := failed_checks;
     SummaryStats.total_errors := t_errors tally;
     SummaryStats.total_warnings := t_warnings tally;
     SummaryStats.total_info := t_info tally;
     SummaryStats.blocker_count := t_blocker tally;
     SummaryStats.major_count := t_major tally;
     SummaryStats.minor_count := t_minor tally;
     SummaryStats.execution_time := ValidationReport.duration_seconds report |}.

(** ** schema.py: the two utility functions *)

(** [validate_expected_columns]: the errors and the warnings of a run of
    [SchemaCheck] *)
Definition validate_expected_columns `{PyRuntime} (df : DataFrame)
    (config : ManifestConfig.t) : Outcome (list Finding) :=
  result <- SchemaCheck.run_on df config ;;
  Returns (ValidationResult.errors result ++ ValidationResult.warnings result).

(** [df.rename(columns={old: new})]: every label [old] becomes [new] *)
Definition rename_column (df : DataFrame) (old new : string) : DataFrame :=
  {| df_columns := map (fun c => if String.eqb c old then new else c) (df_columns df);
     df_dtypes := df_dtypes df;
     df_rows := df_rows df |}.

(** The inner loop of [resolve_aliases] for one configured column: the
    first alias that is a label, while the canonical name is not, is
    renamed, and the loop is left. *)
Fixpoint resolve_column (df : DataFrame) (name : string) (aliases : list string)
  : DataFrame :=
  match aliases with
  | [] => df
  | alias :: rest =>
      if str_in alias (df_columns df) && negb (str_in name (df_columns df))
      then rename_column df alias name
      else resolve_column df name rest
  end.

(** [resolve_aliases] works on [df.copy()] and returns it: the dataset it
    was given is not touched. *)
Definition resolve_aliases (df : DataFrame) (config : ManifestConfig.t) : DataFrame :=
  fold_left
    (fun df col_config =>
       resolve_column df (ColumnConfig.name col_config) (ColumnConfig.aliases col_config))
    (ManifestConfig.columns config) df.

(** ** coherence.py: counting the items of a cell *)

(** [s.split(sep)] for a separator of one ASCII character *)
Fixpoint split_on (sep : Ascii.ascii) (s : string) : list string :=
  match s with
  | EmptyString => [EmptyString]
  | String c s' =>
      if Ascii.eqb c sep then EmptyString :: split_on sep s'
      else
        match split_on sep s' with
        | item :: rest => String c item :: rest
        | [] => [String c EmptyString]
        end
  end.

Definition comma : Ascii.ascii := Ascii.ascii_of_nat 44.

(** [count_comma_separated(value)] for a text [value] *)
Definition count_comma_separated (value : string) : nat :=
  match value with
  | EmptyString => 0
  | _ =>
      length (filter (fun item => py_strip item <> EmptyString) (split_on comma value))
  end.

(** ** Notions used in the statements *)

(** The position of a severity in the [order] list of [Severity.__lt__] *)
Definition Severity_rank (s : Severity) : nat :=
  match s with
  | INFO => 0
  | MINOR => 1
  | MAJOR => 2
  | BLOCKER => 3
  end.

(** The invariant of a result: it passed exactly when it has no error. *)
Definition result_consistent (r : ValidationResult.t) : Prop :=
  ValidationResult.passed r = true <-> ValidationResult.errors r = [].

(** Whatever a computation returns is a consistent result. *)
Definition ends_consistent (m : Py ValidationResult.t) : Prop :=
  forall w r w', m w = (Returns r, w') -> result_consistent r.

(** A check whose [run] lets only exceptions of class [Exception] escape *)
Definition raises_only_Exception (check : BaseCheck.t) : Prop :=
  forall config w e w',
    BaseCheck.run check config w = (Raises e, w') -> exc_is_Exception e = true.

(** A check whose [run] leaves the numbers of rows and columns of the
    dataset as they are *)
Definition keeps_shape (check : BaseCheck.t) : Prop :=
  forall config w o w',
    BaseCheck.run check config w = (o, w') ->
    df_len (w_df w') = df_len (w_df w) /\ df_ncols (w_df w') = df_ncols (w_df w).

Definition skipped (self : ValidationRunner.t) (check : BaseCheck.t) : bool :=
  str_in (BaseCheck.name check) (ValidationRunner.skip_checks self).

(** The registered checks that are not skipped, in registration order *)
Definition selected (self : ValidationRunner.t) : list BaseCheck.t :=
  List.filter (fun check => negb (skipped self check)) (ValidationRunner.checks self).

(** [executed config w checks results w']: starting in [w], every check of
    [checks] was run once, in order, each in the world its predecessor
    left; [results] holds, in the same order, what the check returned or,
    for a check that raised, the result built by the handler; [w'] is the
    world after the last one. *)
Inductive executed `{PyRuntime} (config : ManifestConfig.t)
  : World -> list BaseCheck.t -> list ValidationResult.t -> World -> Prop :=
  | executed_none w :
      executed config w [] [] w
  | executed_returned check rest result results w w1 w2 :
      BaseCheck.timed_run check config w = (Returns result, w1) ->
      executed config w1 rest results w2 ->
      executed config w (check :: rest) (result :: results) w2
  | executed_raised check rest e results w w1 w2 :
      BaseCheck.timed_run check config w = (Raises e, w1) ->
      exc_is_Exception e = true ->
      executed config w1 rest results w2 ->
      executed config w (check :: rest)
        (ValidationRunner.fault_result check e :: results) w2.

(** The index labels of the rows of [df] on which [condition_func] returns
    [False], in the order of the dataset: the rows [validate_rows] is to
    report *)
Definition rows_failing (df : DataFrame) (condition_func : Row -> Outcome bool) : list Z :=
  map fst
    (List.filter
       (fun r => match condition_func (df_row_series df r) with
                 | Returns false => true
                 | _ => false
                 end)
       (df_rows df)).

(** The cells of the column [col], each with the index label of its row, in
    the order of the dataset (none for a label that is not a column) *)
Definition column_cells `{PyRuntime} (df : DataFrame) (col : string) : list (Z * PyVal) :=
  match df_items df col with
  | Returns items => items
  | Raises _ => []
  end.

(** The cells that satisfy [p], in the order they are given *)
Definition cells_where (p : PyVal -> bool) (cells : list (Z * PyVal)) : list (Z * PyVal) :=
  List.filter (fun it => p (snd it)) cells.

(** The texts [str(cell)] of a list of cells *)
Definition texts `{PyRuntime} (cells : list (Z * PyVal)) : list PyVal :=
  map (fun it => PStr (py_str (snd it))) cells.

(** [re.match(pattern, s)] returns [None]. *)
Definition no_match `{PyRuntime} (pattern : option string) (s : string) : bool :=
  match match_pattern pattern s with
  | Returns false => true
  | _ => false
  end.

(** The findings [fs] report the rows [affected]: nothing when there is no
    such row, and otherwise one [ValidationError], whose [row_indices] are
    the first [cap] of them, whose message is [message n] for the number
    [n] of all of them, on the column [column] and with the details
    [details]. *)
Definition reports (fs : list Finding) (affected : list Z) (cap : nat)
    (message : nat -> string) (column : option string)
    (details : option (list (string * PyVal))) : Prop :=
  match affected with
  | [] => fs = []
  | _ =>
      exists e : ValidationError.t,
        fs = [FError e] /\
        ValidationError.row_indices e = Some (firstn cap affected) /\
        ValidationError.message e = message (length affected) /\
        ValidationError.column e = column /\
        ValidationError.details e = details
  end.

(** What [_validate_cnes] works with: the pattern and the characters to
    strip of the constraint on [CNES], or their defaults, and the special
    values. *)
Definition cnes_pattern (config : ManifestConfig.t) : string :=
  match ConstraintsCheck.constraint_for config "CNES" with
  | Some c =>
      if truthy_str (ConstraintConfig.pattern c)
      then default EmptyString (ConstraintConfig.pattern c)
      else "^\d{6,8}$"
  | None => "^\d{6,8}$"
  end.

Definition cnes_strip_chars (config : ManifestConfig.t) : string :=
  match ConstraintsCheck.constraint_for config "CNES" with
  | Some c =>
      if truthy_str (ConstraintConfig.strip_chars c)
      then default EmptyString (ConstraintConfig.strip_chars c)
      else ConstraintsCheck.default_strip_chars
  | None => ConstraintsCheck.default_strip_chars
  end.

Definition cnes_special_values : list string := ["Not informed"; "Not informed1-4"].

(** A cell of the column [CNES] holds a special value: it is not null and
    its text, as it is or cleaned, is one of the special values. *)
Definition cnes_special_cell `{PyRuntime} (config : ManifestConfig.t) (v : PyVal) : bool :=
  negb (pd_isna v)
  && (str_in (py_str v) cnes_special_values
      || str_in (ConstraintsCheck.clean_cnes (py_str v) (cnes_strip_chars config))
           cnes_special_values).

(** A cell of the column [CNES] is invalid: it is not null, holds no
    special value, and its cleaned text does not match the pattern. *)
Definition cnes_invalid_cell `{PyRuntime} (config : ManifestConfig.t) (v : PyVal) : bool :=
  negb (pd_isna v)
  && negb (str_in (py_str v) cnes_special_values
           || str_in (ConstraintsCheck.clean_cnes (py_str v) (cnes_strip_chars config))
                cnes_special_values)
  && no_match (Some (cnes_pattern config))
       (ConstraintsCheck.clean_cnes (py_str v) (cnes_strip_chars config)).

(** The order of two elements by the rank of their keys *)
Definition key_le {A : Type} (key : A -> Severity) (x y : A) : Prop :=
  Severity_rank (key x) <= Severity_rank (key y).

(** Every member of the enumeration has an entry in the counts. *)
Definition counts_ok (m : gmap string nat) : Prop :=
  forall s : Severity, is_Some (m !! Severity_value s).

Definition blockers (m : gmap string nat) : nat := default 0 (m !! "BLOCKER").

(** The report [run] assembles from the results [rs] in the final world *)
Definition report_of `{PyRuntime} (self : ValidationRunner.t) (w w' : World)
    (rs : list ValidationResult.t) : ValidationReport.t :=
  {| ValidationReport.timestamp := w_time w';
     ValidationReport.manifest_path := EmptyString;
     ValidationReport.data_file :=
       match ManifestConfig.input_file (ValidationRunner.config self) with
       | EmptyString => "unknown"
       | f => f
       end;
     ValidationReport.row_count := df_len (w_df w');
     ValidationReport.column_count := df_ncols (w_df w');
     ValidationReport.results := rs;
     ValidationReport.data_quality := [];
     ValidationReport.duration_seconds :=
       py_round (w_perf_counter w' - w_perf_counter w)%Q 3 |}.


(** ** Concrete scenarios *)

Definition all_digits (s : string) : bool :=
  match s with
  | EmptyString => false
  | _ =>
      forallb (fun c => let n := Ascii.nat_of_ascii c in (48 <=? n) && (n <=? 57))
              (String.list_ascii_of_string s)
  end.

(** Stand-ins for the services of the interpreter, to run the model on
    concrete inputs: [repr] quotes a text as Python does when the text has
    no quote and needs no escape, and the matcher answers as the pattern
    [^\d+$] does on ASCII text. *)
Definition sample_runtime : PyRuntime :=
  {| py_repr := fun v =>
       match v with
       | PStr s => "'" +:+ s +:+ "'"
       | _ => "<repr>"
       end;
     format_exc := fun e =>
       "Traceback (most recent call last): " +:+ exc_type e +:+ ": " +:+ exc_str e;
     re_match := fun _ s => Returns (all_digits s);
     format_percent := fun _ _ => "<percent>";
     isoformat := fun _ => "<isoformat>";
     py_round := fun q _ => q |}.

(** Rule bodies that find nothing *)
Definition silent_rules : RuleBodies :=
  {| _check_whitespace := Py_ret [];
     _check_unicode := Py_ret [];
     _check_numeric_column := fun _ => Py_ret [];
     _check_vocabulary := fun _ _ => Py_ret [];
     _validate_fu_state := fun _ => Py_ret no_findings;
     _validate_region_fu := fun _ => Py_ret no_findings;
     _validate_atendimento_count := fun _ => Py_ret no_findings;
     _validate_bounds := fun _ _ _ => Py_ret no_findings;
     _validate_nulls := fun _ _ => Py_ret no_findings;
     _detect_duplicate_coordinates := fun _ _ => Py_ret no_findings;
     _detect_outliers := fun _ _ => Py_ret no_findings;
     _detect_suspicious := fun _ _ => Py_ret no_findings;
     _validate_uniqueness := fun _ _ => Py_ret no_findings;
     _validate_composite_uniqueness := fun _ _ => Py_ret no_findings;
     _compute_dataset_hash := Py_ret "0123456789abcdef0123456789abcdef";
     _compute_stability_stats := Py_ret [];
     _check_memory := fun _ => Py_ret no_findings;
     _check_size := fun _ => Py_ret no_findings;
     _benchmark_basic_ops := Py_ret no_findings |}.

Definition plain_config : ManifestConfig.t :=
  {| ManifestConfig.input_file := "data.xlsx";
     ManifestConfig.source_type := "excel";
     ManifestConfig.sheet_name := None;
     ManifestConfig.columns := [];
     ManifestConfig.constraints := [];
     ManifestConfig.controlled_vocab := [];
     ManifestConfig.geospatial := None;
     ManifestConfig.cross_field := [];
     ManifestConfig.uniqueness_columns := [];
     ManifestConfig.missingness := [];
     ManifestConfig.reports_dir := "reports";
     ManifestConfig.fu_to_state := [];
     ManifestConfig.fu_to_region := [] |}.

(** Two facilities, two columns *)
Definition two_rows : DataFrame :=
  {| df_columns := ["CNES"; "Nome"];
     df_dtypes := ["object"; "object"];
     df_rows := [(0%Z, [PStr "1234567"; PStr "abc"]);
                 (1%Z, [PStr "7654321"; PStr "def"])] |}.

Definition world_of (df : DataFrame) : World :=
  {| w_df := df; w_time := 0%Q; w_perf_counter := 0%Q |}.

(** A check that finds nothing *)
Definition quiet_check (name : string) : BaseCheck.t :=
  check_class name "finds nothing" (fun _ => Py_ret (make_result name no_findings)).

(** A check whose [run] raises [ZeroDivisionError] *)
Definition broken_check (name : string) : BaseCheck.t :=
  check_class name "raises"
    (fun _ => Py_raise {| exc_type := "ZeroDivisionError";
                          exc_str := "division by zero";
                          exc_is_Exception := true |}).

(** A check that empties the dataset in place
    ([df.drop(df.index, inplace=True)]) and finds nothing *)
Definition dropping_check : BaseCheck.t :=
  check_class "dropping" "drops every row in place"
    (fun _ w =>
       (Returns (make_result "dropping" no_findings),
        {| w_df := {| df_columns := df_columns (w_df w);
                      df_dtypes := df_dtypes (w_df w);
                      df_rows := [] |};
           w_time := w_time w;
           w_perf_counter := w_perf_counter w |})).

Definition runner_of (checks : list BaseCheck.t) (skip : list string) : ValidationRunner.t :=
  {| ValidationRunner.config := plain_config;
     ValidationRunner.checks := checks;
     ValidationRunner.skip_checks := skip |}.

(** A manifest constraint on the column [Nome] whose severity is not one of
    the four names *)
Definition critical_constraint : ConstraintConfig.t :=
  {| ConstraintConfig.type := "string";
     ConstraintConfig.pattern := Some "^\d+$";
     ConstraintConfig.min_length := None;
     ConstraintConfig.max_length := None;
     ConstraintConfig.strip_chars := None;
     ConstraintConfig.allow_empty := false;
     ConstraintConfig.allow_special_values := [];
     ConstraintConfig.severity := "CRITICAL" |}.

Definition config_with_constraint (col : string) (c : ConstraintConfig.t)
  : ManifestConfig.t :=
  {| ManifestConfig.input_file := "data.xlsx";
     ManifestConfig.source_type := "excel";
     ManifestConfig.sheet_name := None;
     ManifestConfig.columns := [];
     ManifestConfig.constraints := [(col, c)];
     ManifestConfig.controlled_vocab := [];
     ManifestConfig.geospatial := None;
     ManifestConfig.cross_field := [];
     ManifestConfig.uniqueness_columns := [];
     ManifestConfig.missingness := [];
     ManifestConfig.reports_dir := "reports";
     ManifestConfig.fu_to_state := [];
     ManifestConfig.fu_to_region := [] |}.

(** One facility whose name is not a number *)
Definition names_frame : DataFrame :=
  {| df_columns := ["Nome"];
     df_dtypes := ["object"];
     df_rows := [(0%Z, [PStr "abc"])] |}.

(** A dataset of [n] rows, indexed from 0, with the single column [CNES]
    holding the text [x] in every row *)
Definition uniform_frame (n : nat) (x : string) : DataFrame :=
  {| df_columns := ["CNES"];
     df_dtypes := ["object"];
     df_rows := map (fun i => (Z.of_nat i, [PStr x])) (seq 0 n) |}.

(** ** Notions used in the further statements *)

(** The key under which [count_by_severity] counts a finding *)
Definition finding_key `{PyRuntime} (f : Finding) : string :=
  match f with
  | FError e => Severity_value (ValidationError.severity e)
  | FDict d => py_str (dict_get d "severity" (PStr "UNKNOWN"))
  end.

(** All findings of a result and of a report, in the order they are
    counted *)
Definition result_findings (r : ValidationResult.t) : list Finding :=
  ValidationResult.errors r ++ ValidationResult.warnings r ++ ValidationResult.info r.

Definition report_findings (rep : ValidationReport.t) : list Finding :=
  flat_map result_findings (ValidationReport.results rep).

(** How many findings of a list are counted under [key] *)
Definition occurrences `{PyRuntime} (key : string) (fs : list Finding) : nat :=
  length (List.filter (fun f => String.eqb (finding_key f) key) fs).

(** What counting a finding under [key] adds to the entry of [k] *)
Definition tick (key k : string) : nat := if String.eqb key k then 1 else 0.

(** The sum of all entries of a table of counts *)
Definition counts_total (m : gmap string nat) : nat :=
  map_fold (fun _ n acc => n + acc) 0 m.

(** The severity of a finding that is a [ValidationError] *)
Definition error_severity (f : Finding) : option Severity :=
  match f with
  | FError e => Some (ValidationError.severity e)
  | FDict _ => None
  end.

(** Whatever a computation returns satisfies [P]. *)
Definition returns_only {A : Type} (P : A -> Prop) (m : Py A) : Prop :=
  forall w a w', m w = (Returns a, w') -> P a.

(** A check that puts its own name on the results it returns *)
Definition names_its_results (check : BaseCheck.t) : Prop :=
  forall config w r w',
    BaseCheck.run check config w = (Returns r, w') ->
    ValidationResult.category r = BaseCheck.name check.

(** The index labels of the rows on which the condition [p] is false *)
Definition failing_rows (df : DataFrame) (p : Row -> bool) : list Z :=
  map fst (List.filter (fun r => negb (p (df_row_series df r))) (df_rows df)).

(** A configured column is found in the labels [cols] by its name or by
    one of its aliases. *)
Definition column_found (cols : list string) (c : ColumnConfig.t) : bool :=
  str_in (ColumnConfig.name c) cols
  || existsb (fun alias => str_in alias cols) (ColumnConfig.aliases c).

Definition missing_required (cols : list string) (c : ColumnConfig.t) : bool :=
  ColumnConfig.required c && negb (column_found cols c).

(** The finding of [SchemaCheck] for a required column that is missing *)
Definition missing_column_error (c : ColumnConfig.t) : Finding :=
  FError (BaseCheck.create_error SchemaCheck.name BLOCKER
    ("Coluna obrigatória '" +:+ ColumnConfig.name c +:+ "' não encontrada")
    None (Some (ColumnConfig.name c)) (Some (PStr (ColumnConfig.name c))) None
    (Some [("aliases_checked", PList (map PStr (ColumnConfig.aliases c)))])).


(** The labels under which [GeospatialCheck.run] looks for the latitude
    and for the longitude *)
Definition lat_candidates : list string := ["Lat"; "lat"; "latitude"; "Latitude"].
Definition lon_candidates : list string :=
  ["Lon"; "lon"; "longitude"; "Longitude"; "Lng"; "lng"].

(** The result of [GeospatialCheck.run] for a dataset without coordinates *)
Definition no_coordinates_result : ValidationResult.t :=
  {| ValidationResult.category := GeospatialCheck.name;
     ValidationResult.passed := true;
     ValidationResult.errors := [];
     ValidationResult.warnings := [];
     ValidationResult.info :=
       [FError (BaseCheck.create_error GeospatialCheck.name INFO
          "Colunas de coordenadas não encontradas" None None None None None)];
     ValidationResult.duration_seconds := 0%Q |}.

(** A finding that is a [ValidationError] with one of the severities
    [allowed] *)
Definition severity_among (allowed : list Severity) (f : Finding) : Prop :=
  exists e, f = FError e /\ In (ValidationError.severity e) allowed.

(** The three lists hold what their names say: errors are BLOCKER or MAJOR,
    warnings MINOR or INFO, info INFO. *)
Definition routed (errors warnings info : list Finding) : Prop :=
  Forall (severity_among [BLOCKER; MAJOR]) errors /\
  Forall (severity_among [MINOR; INFO]) warnings /\
  Forall (severity_among [INFO]) info.

Definition routed_buckets (b : Buckets) : Prop :=
  routed (b_errors b) (b_warnings b) (b_info b).

(** Two facilities whose CNES and telephone are both malformed in the
    first row *)
Definition contacts_frame : DataFrame :=
  {| df_columns := ["CNES"; "Telefone"];
     df_dtypes := ["object"; "object"];
     df_rows := [(0%Z, [PStr "abc"; PStr "x"]);
                 (1%Z, [PStr "1234567"; PNaN])] |}.

(** A manifest with one controlled vocabulary *)
Definition config_with_vocab (col : string) (v : VocabConfig.t) : ManifestConfig.t :=
  {| ManifestConfig.input_file := "data.xlsx";
     ManifestConfig.source_type := "excel";
     ManifestConfig.sheet_name := None;
     ManifestConfig.columns := [];
     ManifestConfig.constraints := [];
     ManifestConfig.controlled_vocab := [(col, v)];
     ManifestConfig.geospatial := None;
     ManifestConfig.cross_field := [];
     ManifestConfig.uniqueness_columns := [];
     ManifestConfig.missingness := [];
     ManifestConfig.reports_dir := "reports";
     ManifestConfig.fu_to_state := [];
     ManifestConfig.fu_to_region := [] |}.

(** A vocabulary whose severity is not one of the four names *)
Definition critical_vocab : VocabConfig.t :=
  {| VocabConfig.values := ["abc"];
     VocabConfig.case_sensitive := true;
     VocabConfig.allow_null := true;
     VocabConfig.severity := "CRITICAL" |}.

(** The entries of the [errors] lists of a report, in the order of its
    results, and likewise for the two other lists *)
Definition report_errors (report : ValidationReport.t) : list Finding :=
  concat (map ValidationResult.errors (ValidationReport.results report)).
Definition report_warnings (report : ValidationReport.t) : list Finding :=
  concat (map ValidationResult.warnings (ValidationReport.results report)).
Definition report_info (report : ValidationReport.t) : list Finding :=
  concat (map ValidationResult.info (ValidationReport.results report)).

(** How many entries of [fs] have the severity [member] *)
Definition with_severity (member : Severity) (fs : list Finding) : nat :=
  length (List.filter (severity_matches member) fs).

(** A text without a comma *)
Definition comma_free (s : string) : Prop :=
  ~ In comma (String.list_ascii_of_string s).

(** ** Further concrete data *)

(** A manifest that declares the columns [cols] and nothing else *)
Definition config_with_columns (cols : list ColumnConfig.t) : ManifestConfig.t :=
  {| ManifestConfig.input_file := "data.xlsx";
     ManifestConfig.source_type := "excel";
     ManifestConfig.sheet_name := None;
     ManifestConfig.columns := cols;
     ManifestConfig.constraints := [];
     ManifestConfig.controlled_vocab := [];
     ManifestConfig.geospatial := None;
     ManifestConfig.cross_field := [];
     ManifestConfig.uniqueness_columns := [];
     ManifestConfig.missingness := [];
     ManifestConfig.reports_dir := "reports";
     ManifestConfig.fu_to_state := [];
     ManifestConfig.fu_to_region := [] |}.

(** A required column [Name] that the dataset may carry as [Nombre] or
    [Nome] *)
Definition name_column : ColumnConfig.t :=
  {| ColumnConfig.name := "Name";
     ColumnConfig.required := true;
     ColumnConfig.type := "string";
     ColumnConfig.aliases := ["Nombre"; "Nome"] |}.

(** A required column [Nome] without aliases *)
Definition nome_column : ColumnConfig.t :=
  {| ColumnConfig.name := "Nome";
     ColumnConfig.required := true;
     ColumnConfig.type := "string";
     ColumnConfig.aliases := [] |}.

(** A check interrupted from the keyboard: [KeyboardInterrupt] is not
    derived from [Exception]. *)
Definition KeyboardInterrupt : PyException :=
  {| exc_type := "KeyboardInterrupt";
     exc_str := EmptyString;
     exc_is_Exception := false |}.

Definition interrupted_check : BaseCheck.t :=
  check_class "interrupted" "interrupted from the keyboard"
    (fun _ => Py_raise KeyboardInterrupt).

(** One facility with its coordinates *)
Definition coordinates_frame : DataFrame :=
  {| df_columns := ["Lat"; "Lon"];
     df_dtypes := ["float64"; "float64"];
     df_rows := [(0%Z, [PFloat (-2355 # 100); PFloat (-4663 # 100)])] |}.

(** A report of two results that passed *)
Definition passing_report : ValidationReport.t :=
  {| ValidationReport.timestamp := 0%Q;
     ValidationReport.manifest_path := "manifest.yaml";
     ValidationReport.data_file := "data.xlsx";
     ValidationReport.row_count := 2;
     ValidationReport.column_count := 2;
     ValidationReport.results :=
       [make_result "schema" no_findings; make_result "parsing" no_findings];
     ValidationReport.data_quality := [];
     ValidationReport.duration_seconds := 0%Q |}.

(** What [_validate_telefone] works with: the special values and the
    pattern of the constraint on [Telefone], or their defaults. *)
Definition telefone_special_values (config : ManifestConfig.t) : list string :=
  match ConstraintsCheck.constraint_for config "Telefone" with
  | Some c => ConstraintConfig.allow_special_values c
  | None => ["Sem contato"]
  end.

Definition telefone_pattern (config : ManifestConfig.t) : option string :=
  match ConstraintsCheck.constraint_for config "Telefone" with
  | Some c => ConstraintConfig.pattern c
  | None => Some "^[\d\s\-\(\)\/\+]+$"
  end.

(** A telephone cell is empty: it is null or its text is blank. *)
Definition telefone_empty_cell `{PyRuntime} (v : PyVal) : bool :=
  pd_isna v || String.eqb (py_strip (py_str v)) EmptyString.

(** A telephone cell is malformed: it is not empty, and its stripped text
    is no special value and does not match the pattern. *)
Definition telefone_invalid_cell `{PyRuntime} (config : ManifestConfig.t) (v : PyVal) : bool :=
  negb (telefone_empty_cell v)
  && negb (str_in (py_strip (py_str v)) (telefone_special_values config))
  && no_match (telefone_pattern config) (py_strip (py_str v)).

(** The text [_validate_pattern] matches against the pattern *)
Definition pattern_text `{PyRuntime} (constraint : ConstraintConfig.t) (v : PyVal) : string :=
  if truthy_str (ConstraintConfig.strip_chars constraint)
  then py_strip_chars (py_str v) (default EmptyString (ConstraintConfig.strip_chars constraint))
  else py_str v.

(** A cell fails a constraint: it is null where empty cells are not
    allowed, or its text does not match the pattern. *)
Definition pattern_invalid_cell `{PyRuntime} (constraint : ConstraintConfig.t) (v : PyVal)
  : bool :=
  if pd_isna v then negb (ConstraintConfig.allow_empty constraint)
  else no_match (ConstraintConfig.pattern constraint) (pattern_text constraint v).

(** The value kept under [pattern] in the details of a finding *)
Definition pattern_value (constraint : ConstraintConfig.t) : PyVal :=
  match ConstraintConfig.pattern constraint with
  | Some p => PStr p
  | None => PNone
  end.

(** Five facilities: two malformed telephones, one well-formed, two empty *)
Definition telephones_frame : DataFrame :=
  {| df_columns := ["Telefone"];
     df_dtypes := ["object"];
     df_rows := [(0%Z, [PStr "x"]); (1%Z, [PNaN]); (2%Z, [PStr "123"]);
                 (3%Z, [PStr "y"]); (4%Z, [PStr " "])] |}.

(** Two columns under the same label *)
Definition twin_frame : DataFrame :=
  {| df_columns := ["Nome"; "Nome"];
     df_dtypes := ["object"; "object"];
     df_rows := [(0%Z, [PStr "abc"; PStr "def"])] |}.

(** * Properties *)

(** ** The severity order *)

Lemma Severity_lt_rank (a b : Severity) :
  Severity_lt a b = Returns (Severity_rank a <? Severity_rank b).
Proof. destruct a, b; reflexivity. Qed.

Lemma Severity_rank_inj (a b : Severity) : Severity_rank a = Severity_rank b -> a = b.
Proof. destruct a, b; simpl; congruence. Qed.

Section Sorting.
Context {A : Type} (key : A -> Severity).

Lemma sort_insert_spec (x : A) (placed : list A) :
  exists out, sort_insert key x placed = Returns out /\
              Permutation (x :: placed) out /\
              (StronglySorted (key_le key) placed -> StronglySorted (key_le key) out).
Proof.
  induction placed as [|y rest IH]; simpl.
  - exists [x]. repeat split; auto. intros _. repeat constructor.
  - rewrite Severity_lt_rank. simpl.
    destruct (Severity_rank (key x) <? Severity_rank (key y)) eqn:Hlt.
    + exists (x :: y :: rest). repeat split; auto.
      intros Hs. constructor; [exact Hs|].
      apply Nat.ltb_lt in Hlt.
      inversion Hs as [|? ? Hrest Hall]; subst.
      constructor; [unfold key_le; lia|].
      eapply Forall_impl; [exact Hall|]. unfold key_le. intros z Hz. simpl in *. lia.
    + destruct IH as (out & Hout & Hperm & Hsorted).
      rewrite Hout. simpl. exists (y :: out). repeat split.
      * rewrite perm_swap. now constructor.
      * intros Hs. inversion Hs as [|? ? Hrest Hall]; subst.
        constructor; [auto|].
        apply Nat.ltb_ge in Hlt.
        rewrite <- Hperm. constructor; [exact Hlt | exact Hall].
Qed.

Lemma sort_loop_spec (todo placed : list A) :
  StronglySorted (key_le key) placed ->
  exists out, sort_loop key todo placed = Returns out /\
              Permutation (todo ++ placed) out /\
              StronglySorted (key_le key) out.
Proof.
  revert placed. induction todo as [|x todo IH]; intros placed Hs; simpl.
  - exists placed. auto.
  - destruct (sort_insert_spec x placed) as (p' & Hp' & Hperm & Hsorted).
    rewrite Hp'. simpl.
    destruct (IH p' (Hsorted Hs)) as (out & Hout & Hperm' & Hs').
    exists out. repeat split; auto.
    rewrite <- Hperm', <- Hperm. apply Permutation_middle.
Qed.

Lemma sorted_lookup (l : list A) (i j : nat) (x y : A) :
  StronglySorted (key_le key) l -> l !! i = Some x -> l !! j = Some y -> i < j -> (key_le key) x y.
Proof.
  intros Hs. revert i j. induction Hs as [|a l Hs IH Hall]; intros i j Hi Hj Hlt.
  - rewrite lookup_nil in Hi. discriminate.
  - destruct j as [|j]; [lia|]. simpl in Hj.
    destruct i as [|i]; simpl in Hi.
    + injection Hi as <-. rewrite Forall_forall in Hall.
      apply Hall. eapply list_elem_of_lookup_2. exact Hj.
    + eapply IH; eauto. lia.
Qed.
End Sorting.

(** ** Counting by severity *)

Section Counting.
Context `{PyRuntime}.

Lemma initial_counts_ok : counts_ok ValidationReport.initial_counts.
Proof. intros []; vm_compute; eauto. Qed.

Lemma counts_ok_insert (m : gmap string nat) (k : string) (n : nat) :
  counts_ok m -> counts_ok (<[k := n]> m).
Proof.
  intros Hm s. destruct (decide (k = Severity_value s)) as [->|Hne].
  - rewrite lookup_insert_eq. eauto.
  - rewrite lookup_insert_ne by exact Hne. apply Hm.
Qed.

Lemma blockers_insert (m : gmap string nat) (k : string) :
  blockers m <= blockers (<[k := default 0 (m !! k) + 1]> m).
Proof.
  unfold blockers. destruct (decide (k = "BLOCKER")) as [->|Hne].
  - rewrite lookup_insert_eq. simpl. lia.
  - rewrite lookup_insert_ne by exact Hne. lia.
Qed.

Lemma count_finding_ok (m : gmap string nat) (f : Finding) :
  counts_ok m ->
  exists m', ValidationReport.count_finding m f = Returns m' /\
             counts_ok m' /\ blockers m <= blockers m'.
Proof.
  intros Hm. destruct f as [e|d]; simpl.
  - destruct (Hm (ValidationError.severity e)) as [n Hn]. rewrite Hn.
    eexists. split; [reflexivity|]. split; [now apply counts_ok_insert|].
    replace n with (default 0 (m !! Severity_value (ValidationError.severity e)))
      by now rewrite Hn.
    apply blockers_insert.
  - eexists. split; [reflexivity|]. split; [now apply counts_ok_insert|].
    apply blockers_insert.
Qed.

Lemma count_fault_finding (m : gmap string nat) (e : PyException) :
  counts_ok m ->
  exists m', ValidationReport.count_finding m (ValidationRunner.fault_finding e) = Returns m' /\
             counts_ok m' /\ blockers m < blockers m'.
Proof.
  intros Hm. eexists. split; [reflexivity|]. split.
  - now apply counts_ok_insert.
  - unfold blockers. cbn. rewrite lookup_insert_eq. simpl. lia.
Qed.

Lemma count_findings_ok (fs : list Finding) (m : gmap string nat) :
  counts_ok m ->
  exists m', ValidationReport.count_findings m fs = Returns m' /\
             counts_ok m' /\ blockers m <= blockers m'.
Proof.
  revert m. induction fs as [|f fs IH]; intros m Hm; simpl.
  - exists m. auto.
  - destruct (count_finding_ok m f Hm) as (m1 & -> & Hm1 & Hle). simpl.
    destruct (IH m1 Hm1) as (m2 & -> & Hm2 & Hle2).
    exists m2. repeat split; auto. lia.
Qed.

Lemma count_findings_fault (fs : list Finding) (m : gmap string nat) (e : PyException) :
  counts_ok m -> In (ValidationRunner.fault_finding e) fs ->
  exists m', ValidationReport.count_findings m fs = Returns m' /\
             counts_ok m' /\ blockers m < blockers m'.
Proof.
  revert m. induction fs as [|f fs IH]; intros m Hm Hin; [destruct Hin|].
  destruct Hin as [->|Hin]; cbn [ValidationReport.count_findings].
  - destruct (count_fault_finding m e Hm) as (m1 & -> & Hm1 & Hlt). simpl.
    destruct (count_findings_ok fs m1 Hm1) as (m2 & -> & Hm2 & Hle).
    exists m2. repeat split; auto. lia.
  - destruct (count_finding_ok m f Hm) as (m1 & -> & Hm1 & Hle). simpl.
    destruct (IH m1 Hm1 Hin) as (m2 & -> & Hm2 & Hlt).
    exists m2. repeat split; auto. lia.
Qed.

Lemma count_results_ok (rs : list ValidationResult.t) (m : gmap string nat) :
  counts_ok m ->
  exists m', ValidationReport.count_results m rs = Returns m' /\
             counts_ok m' /\ blockers m <= blockers m'.
Proof.
  revert m. induction rs as [|r rs IH]; intros m Hm; simpl.
  - exists m. auto.
  - destruct (count_findings_ok (ValidationResult.errors r) m Hm) as (m1 & -> & Hm1 & H1).
    simpl.
    destruct (count_findings_ok (ValidationResult.warnings r) m1 Hm1) as (m2 & -> & Hm2 & H2).
    simpl.
    destruct (count_findings_ok (ValidationResult.info r) m2 Hm2) as (m3 & -> & Hm3 & H3).
    simpl.
    destruct (IH m3 Hm3) as (m4 & -> & Hm4 & H4).
    exists m4. repeat split; auto. lia.
Qed.

Lemma count_results_fault (rs : list ValidationResult.t) (m : gmap string nat)
    (check : BaseCheck.t) (e : PyException) :
  counts_ok m -> In (ValidationRunner.fault_result check e) rs ->
  exists m', ValidationReport.count_results m rs = Returns m' /\
             counts_ok m' /\ blockers m < blockers m'.
Proof.
  revert m. induction rs as [|r rs IH]; intros m Hm Hin; [destruct Hin|].
  destruct Hin as [->|Hin]; cbn [ValidationReport.count_results].
  - change (ValidationResult.errors (ValidationRunner.fault_result check e))
      with [ValidationRunner.fault_finding e].
    change (ValidationResult.warnings (ValidationRunner.fault_result check e))
      with (@nil Finding).
    change (ValidationResult.info (ValidationRunner.fault_result check e))
      with (@nil Finding).
    destruct (count_findings_fault [ValidationRunner.fault_finding e] m e Hm)
      as (m1 & -> & Hm1 & H1); [now left|].
    cbn [Outcome_bind ValidationReport.count_findings].
    destruct (count_results_ok rs m1 Hm1) as (m2 & -> & Hm2 & H2).
    exists m2. repeat split; auto. lia.
  - destruct (count_findings_ok (ValidationResult.errors r) m Hm) as (m1 & -> & Hm1 & H1).
    simpl.
    destruct (count_findings_ok (ValidationResult.warnings r) m1 Hm1) as (m2 & -> & Hm2 & H2).
    simpl.
    destruct (count_findings_ok (ValidationResult.info r) m2 Hm2) as (m3 & -> & Hm3 & H3).
    simpl.
    destruct (IH m3 Hm3 Hin) as (m4 & -> & Hm4 & H4).
    exists m4. repeat split; auto. lia.
Qed.

Lemma has_blockers_of_fault (rep : ValidationReport.t) (check : BaseCheck.t)
    (e : PyException) :
  In (ValidationRunner.fault_result check e) (ValidationReport.results rep) ->
  ValidationReport.has_blockers rep = Returns true.
Proof.
  intros Hin.
  unfold ValidationReport.has_blockers, ValidationReport.has_severity,
    ValidationReport.count_by_severity.
  destruct (count_results_fault _ _ check e initial_counts_ok Hin) as (m & -> & Hm & Hlt).
  simpl. destruct (Hm BLOCKER) as [n Hn]. simpl in Hn.
  unfold blockers in Hlt. rewrite Hn in Hlt. rewrite Hn. simpl in Hlt.
  f_equal. apply Nat.ltb_lt. lia.
Qed.
End Counting.

(** ** The loop of the runner *)

Section Runner.
Context `{PyRuntime}.

Lemma timed_run_unfold (check : BaseCheck.t) (config : ManifestConfig.t) (w : World) :
  BaseCheck.timed_run check config w =
  match BaseCheck.run check config w with
  | (Returns r, w') =>
      (Returns (ValidationResult.set_duration_seconds r (w_time w' - w_time w)%Q), w')
  | (Raises e, w') => (Raises e, w')
  end.
Proof.
  unfold BaseCheck.timed_run, Py_bind, time_time, Py_ret.
  destruct (BaseCheck.run check config w) as [[r|e] w']; reflexivity.
Qed.

Lemma timed_run_raises (check : BaseCheck.t) (config : ManifestConfig.t)
    (w w' : World) (e : PyException) :
  BaseCheck.timed_run check config w = (Raises e, w') <->
  BaseCheck.run check config w = (Raises e, w').
Proof.
  rewrite timed_run_unfold.
  destruct (BaseCheck.run check config w) as [[r|e0] w0]; split; congruence.
Qed.

Lemma run_checks_app (self : ValidationRunner.t) (l1 l2 : list BaseCheck.t)
    (results : list ValidationResult.t) (w : World) :
  ValidationRunner.run_checks self (l1 ++ l2) results w =
  match ValidationRunner.run_checks self l1 results w with
  | (Returns rs, w1) => ValidationRunner.run_checks self l2 rs w1
  | (Raises e, w1) => (Raises e, w1)
  end.
Proof.
  revert results w. induction l1 as [|check l1 IH]; intros results w; simpl.
  - reflexivity.
  - destruct (str_in _ _); [apply IH|].
    destruct (BaseCheck.timed_run check _ w) as [[r|e] w1].
    + apply IH.
    + destruct (exc_is_Exception e); [apply IH | reflexivity].
Qed.

Lemma run_checks_executes (self : ValidationRunner.t) (todo : list BaseCheck.t)
    (results : list ValidationResult.t) (w : World) :
  Forall raises_only_Exception todo ->
  exists rs w',
    ValidationRunner.run_checks self todo results w = (Returns (results ++ rs), w') /\
    executed (ValidationRunner.config self) w
      (List.filter (fun check => negb (skipped self check)) todo) rs w'.
Proof.
  intros Hall. revert results w.
  induction Hall as [|check todo Hcheck Hall IH]; intros results w; simpl.
  - exists [], w. rewrite app_nil_r. split; [reflexivity | constructor].
  - unfold skipped at 1.
    destruct (str_in (BaseCheck.name check) (ValidationRunner.skip_checks self)); simpl.
    + apply IH.
    + destruct (BaseCheck.timed_run check (ValidationRunner.config self) w)
        as [[r|e] w1] eqn:Hrun.
      * destruct (IH (results ++ [r]) w1) as (rs & w' & Hrs & Hex).
        exists (r :: rs), w'. rewrite Hrs, <- app_assoc. split; [reflexivity|].
        econstructor; eauto.
      * assert (He : exc_is_Exception e = true).
        { apply timed_run_raises in Hrun. eapply Hcheck. exact Hrun. }
        rewrite He.
        destruct (IH (results ++ [ValidationRunner.fault_result check e]) w1)
          as (rs & w' & Hrs & Hex).
        exists (ValidationRunner.fault_result check e :: rs), w'.
        rewrite Hrs, <- app_assoc. split; [reflexivity|].
        eapply executed_raised; eauto.
Qed.

Lemma run_unfold (self : ValidationRunner.t) (w : World) :
  ValidationRunner.run self w =
  match ValidationRunner.run_checks self (ValidationRunner.checks self) [] w with
  | (Returns rs, w') => (Returns (report_of self w w' rs), w')
  | (Raises e, w') => (Raises e, w')
  end.
Proof.
  unfold ValidationRunner.run, Py_bind, time_perf_counter, datetime_now, read_df, Py_ret.
  destruct (ValidationRunner.run_checks self _ [] w) as [[rs|e] w']; reflexivity.
Qed.

Lemma run_executes (self : ValidationRunner.t) (w : World) :
  Forall raises_only_Exception (ValidationRunner.checks self) ->
  exists rs w',
    ValidationRunner.run self w = (Returns (report_of self w w' rs), w') /\
    executed (ValidationRunner.config self) w (selected self) rs w'.
Proof.
  intros Hall.
  destruct (run_checks_executes self _ [] w Hall) as (rs & w' & Hrs & Hex).
  exists rs, w'. rewrite run_unfold, Hrs. split; [reflexivity | exact Hex].
Qed.

Lemma executed_length (config : ManifestConfig.t) (w w' : World)
    (cs : list BaseCheck.t) (rs : list ValidationResult.t) :
  executed config w cs rs w' -> length rs = length cs.
Proof. induction 1; simpl; congruence. Qed.

Lemma executed_shape (config : ManifestConfig.t) (w w' : World)
    (cs : list BaseCheck.t) (rs : list ValidationResult.t) :
  executed config w cs rs w' ->
  Forall keeps_shape cs ->
  df_len (w_df w') = df_len (w_df w) /\ df_ncols (w_df w') = df_ncols (w_df w).
Proof.
  induction 1 as [w | check rest result results w w1 w2 Hrun Hex IH
                    | check rest e results w w1 w2 Hrun He Hex IH];
    intros Hall.
  - auto.
  - inversion Hall as [|? ? Hk Hrest]; subst.
    rewrite timed_run_unfold in Hrun.
    destruct (BaseCheck.run check config w) as [[r|e0] w0] eqn:Hr; [|discriminate].
    injection Hrun as _ ->.
    destruct (Hk _ _ _ _ Hr) as [H1 H2]. destruct (IH Hrest) as [H3 H4].
    split; congruence.
  - inversion Hall as [|? ? Hk Hrest]; subst.
    apply timed_run_raises in Hrun.
    destruct (Hk _ _ _ _ Hrun) as [H1 H2]. destruct (IH Hrest) as [H3 H4].
    split; congruence.
Qed.

Lemma filter_length_complement {X : Type} (p : X -> bool) (l : list X) :
  length (List.filter (fun x => negb (p x)) l) = length l - length (List.filter p l).
Proof.
  induction l as [|x l IH]; simpl; [reflexivity|].
  assert (Hle : length (List.filter p l) <= length l) by apply List.filter_length_le.
  destruct (p x); simpl; lia.
Qed.
End Runner.

(** ** The results of the registered checks *)

Section CheckResults.
Context `{PyRuntime} `{RuleBodies}.

Lemma make_result_consistent (name : string) (b : Buckets) :
  result_consistent (make_result name b).
Proof.
  unfold result_consistent, make_result. simpl.
  destruct (b_errors b); simpl; split; congruence.
Qed.

Lemma ends_ret (r : ValidationResult.t) :
  result_consistent r -> ends_consistent (Py_ret r).
Proof. intros Hr w r' w' Heq. injection Heq as <- _. exact Hr. Qed.

Lemma ends_bind {A : Type} (m : Py A) (k : A -> Py ValidationResult.t) :
  (forall a, ends_consistent (k a)) -> ends_consistent (Py_bind m k).
Proof.
  intros Hk w r w' Heq. unfold Py_bind in Heq.
  destruct (m w) as [[a|e] w1]; [|discriminate].
  exact (Hk a w1 r w' Heq).
Qed.

Lemma ends_lift (o : Outcome ValidationResult.t) :
  (forall r, o = Returns r -> result_consistent r) -> ends_consistent (Py_lift o).
Proof. intros Ho w r w' Heq. injection Heq as Heq _. exact (Ho r Heq). Qed.

Lemma Outcome_bind_returns {A B : Type} (m : Outcome A) (k : A -> Outcome B) (b : B) :
  Outcome_bind m k = Returns b -> exists a, m = Returns a /\ k a = Returns b.
Proof. destruct m as [a|e]; simpl; [eauto | discriminate]. Qed.

Ltac peel :=
  repeat (cbv beta zeta;
          first [ apply ends_ret; apply make_result_consistent
                | apply ends_bind; intros ? ]).

Lemma SchemaCheck_consistent (config : ManifestConfig.t) :
  ends_consistent (SchemaCheck.run config).
Proof.
  unfold SchemaCheck.run. apply ends_bind. intros df. apply ends_lift.
  intros r Hr. unfold SchemaCheck.run_on in Hr. cbv zeta in Hr.
  apply Outcome_bind_returns in Hr. destruct Hr as (type_errors & _ & Hr).
  injection Hr as <-. apply make_result_consistent.
Qed.

Lemma ParsingCheck_consistent (config : ManifestConfig.t) :
  ends_consistent (ParsingCheck.run config).
Proof. unfold ParsingCheck.run. peel. Qed.

Lemma ConstraintsCheck_consistent (config : ManifestConfig.t) :
  ends_consistent (ConstraintsCheck.run config).
Proof.
  unfold ConstraintsCheck.run. apply ends_bind. intros df. apply ends_lift.
  intros r Hr. unfold ConstraintsCheck.run_on in Hr.
  repeat (apply Outcome_bind_returns in Hr; destruct Hr as (? & _ & Hr)).
  injection Hr as <-. apply make_result_consistent.
Qed.

Lemma VocabCheck_consistent (config : ManifestConfig.t) :
  ends_consistent (VocabCheck.run config).
Proof. unfold VocabCheck.run. peel. Qed.

Lemma CoherenceCheck_consistent (config : ManifestConfig.t) :
  ends_consistent (CoherenceCheck.run config).
Proof. unfold CoherenceCheck.run. peel. Qed.

Lemma GeospatialCheck_consistent (config : ManifestConfig.t) :
  ends_consistent (GeospatialCheck.run config).
Proof.
  unfold GeospatialCheck.run. cbv zeta. apply ends_bind. intros df.
  match goal with |- ends_consistent (if ?c then _ else _) => destruct c end.
  - apply ends_ret. split; reflexivity.
  - peel.
Qed.

Lemma UniquenessCheck_consistent (config : ManifestConfig.t) :
  ends_consistent (UniquenessCheck.run config).
Proof. unfold UniquenessCheck.run. peel. Qed.

Lemma ReproducibilityCheck_consistent (config : ManifestConfig.t) :
  ends_consistent (ReproducibilityCheck.run config).
Proof. unfold ReproducibilityCheck.run. peel. Qed.

Lemma PerfCheck_consistent (config : ManifestConfig.t) :
  ends_consistent (PerfCheck.run config).
Proof. unfold PerfCheck.run. peel. Qed.

Lemma ALL_CHECKS_consistent (check : BaseCheck.t) (config : ManifestConfig.t) :
  In check ALL_CHECKS -> ends_consistent (BaseCheck.run check config).
Proof.
  unfold ALL_CHECKS. simpl.
  intros [<-|[<-|[<-|[<-|[<-|[<-|[<-|[<-|[<-|[]]]]]]]]]]; simpl.
  - apply SchemaCheck_consistent.
  - apply ParsingCheck_consistent.
  - apply ConstraintsCheck_consistent.
  - apply VocabCheck_consistent.
  - apply CoherenceCheck_consistent.
  - apply GeospatialCheck_consistent.
  - apply UniquenessCheck_consistent.
  - apply ReproducibilityCheck_consistent.
  - apply PerfCheck_consistent.
Qed.
End CheckResults.

(** ** Findings that list rows *)

Lemma append_assoc (a b c : string) : (a +:+ b) +:+ c = a +:+ (b +:+ c).
Proof.
  induction a as [|x a IH]; [reflexivity|].
  change (String x ((a +:+ b) +:+ c) = String x (a +:+ (b +:+ c))).
  f_equal. exact IH.
Qed.

Section Samples.
Context `{PyRuntime}.

Lemma cnes_severity_fallback (sev_str : string) :
  dict_lookup Severity_members sev_str = None ->
  ConstraintsCheck.cnes_severity sev_str = MAJOR.
Proof.
  intros Hnone. unfold ConstraintsCheck.cnes_severity, dict_contains.
  now rewrite Hnone.
Qed.

Lemma invalid_rows_spec (df : DataFrame) (condition_func : Row -> Outcome bool)
    (rows : list (Z * list PyVal)) (acc invalid : list Z) :
  Outcome_fold
    (fun acc r =>
       ok <- condition_func (df_row_series df r) ;;
       Returns (if ok then acc else acc ++ [fst r]))
    rows acc = Returns invalid ->
  invalid = acc ++ map fst
    (List.filter
       (fun r => match condition_func (df_row_series df r) with
                 | Returns false => true
                 | _ => false
                 end)
       rows).
Proof.
  revert acc. induction rows as [|r rows IH]; intros acc Hfold; simpl in *.
  - injection Hfold as <-. now rewrite app_nil_r.
  - apply Outcome_bind_returns in Hfold. destruct Hfold as (acc1 & Hstep & Hfold).
    apply Outcome_bind_returns in Hstep. destruct Hstep as (ok & Hok & Hstep).
    injection Hstep as <-. rewrite Hok. apply IH in Hfold. rewrite Hfold.
    destruct ok; simpl; [reflexivity | now rewrite <- app_assoc].
Qed.

Lemma validate_rows_reports (name : string) (df : DataFrame)
    (condition_func : Row -> Outcome bool) (error_message : string)
    (severity : Severity) (column : option string) (errors : list ValidationError.t) :
  BaseCheck.validate_rows name df condition_func error_message severity column
    = Returns errors ->
  reports (map FError errors) (rows_failing df condition_func) 100
    (fun n => error_message +:+ " (" +:+ str_of_nat n +:+ " linhas)") column None.
Proof.
  unfold BaseCheck.validate_rows, BaseCheck.invalid_rows. intros Hr.
  apply Outcome_bind_returns in Hr. destruct Hr as (invalid & Hinvalid & Hr).
  apply invalid_rows_spec in Hinvalid. simpl in Hinvalid.
  fold (rows_failing df condition_func) in Hinvalid. subst invalid.
  unfold reports. destruct (rows_failing df condition_func) as [|i rest];
    injection Hr as <-; [reflexivity|].
  eexists. repeat split.
Qed.

(** *** Reading cells back by their index label *)

Lemma df_items_labels (df : DataFrame) (col : string) (items : list (Z * PyVal)) :
  df_items df col = Returns items -> map fst items = map fst (df_rows df).
Proof.
  unfold df_items. destruct (column_position col (df_columns df)); [|discriminate].
  intros [= <-]. rewrite map_map. reflexivity.
Qed.

Lemma column_cells_items (df : DataFrame) (col : string) (items : list (Z * PyVal)) :
  df_items df col = Returns items -> column_cells df col = items.
Proof. unfold column_cells. now intros ->. Qed.

Lemma find_by_unique_label (items : list (Z * PyVal)) (it : Z * PyVal) :
  NoDup (map fst items) -> In it items ->
  List.find (fun r : Z * PyVal => Z.eqb (fst r) (fst it)) items = Some it.
Proof.
  induction items as [|x items IH]; intros Hnodup Hin; [destruct Hin|].
  simpl in Hnodup. apply NoDup_cons in Hnodup. destruct Hnodup as [Hfresh Hnodup].
  simpl. destruct (Z.eqb_spec (fst x) (fst it)) as [Heq|Hne].
  - destruct Hin as [->|Hin]; [reflexivity|]. exfalso. apply Hfresh.
    rewrite Heq. apply list_elem_of_In, in_map, Hin.
  - destruct Hin as [->|Hin]; [congruence|]. now apply IH.
Qed.

Lemma df_loc_cell (df : DataFrame) (col : string) (items : list (Z * PyVal))
    (it : Z * PyVal) :
  NoDup (map fst (df_rows df)) ->
  df_items df col = Returns items -> In it items ->
  df_loc df (fst it) col = Returns (snd it).
Proof.
  intros Hnodup Hitems Hin. unfold df_loc. rewrite Hitems. simpl.
  rewrite find_by_unique_label; [reflexivity | | exact Hin].
  now rewrite (df_items_labels df col items Hitems).
Qed.

Lemma sample_texts (df : DataFrame) (col : string) (items sample : list (Z * PyVal)) :
  NoDup (map fst (df_rows df)) ->
  df_items df col = Returns items ->
  (forall it, In it sample -> In it items) ->
  Outcome_map (fun i => v <- df_loc df i col ;; Returns (PStr (py_str v)))
    (map fst sample)
  = Returns (texts sample).
Proof.
  intros Hnodup Hitems. induction sample as [|it sample IH]; intros Hsub; [reflexivity|].
  simpl. rewrite (df_loc_cell df col items it Hnodup Hitems) by (apply Hsub; now left).
  simpl. rewrite IH by (intros it' Hit'; apply Hsub; now right). reflexivity.
Qed.

Lemma firstn_cells_where (n : nat) (p : PyVal -> bool) (items : list (Z * PyVal))
    (it : Z * PyVal) :
  In it (firstn n (cells_where p items)) -> In it items.
Proof.
  intros Hin. unfold cells_where in Hin.
  assert (Hall : In it (List.filter (fun it => p (snd it)) items)).
  { rewrite <- (firstn_skipn n). apply in_or_app. now left. }
  apply List.filter_In in Hall. tauto.
Qed.

(** *** The scan of [_validate_cnes] *)

Lemma cnes_scan_spec (config : ManifestConfig.t) (items : list (Z * PyVal))
    (acc scan : list Z * list Z) :
  Outcome_fold
    (fun (acc : list Z * list Z) (item : Z * PyVal) =>
       if pd_isna (snd item) then Returns acc
       else
         if str_in (py_str (snd item)) cnes_special_values
            || str_in (ConstraintsCheck.clean_cnes (py_str (snd item))
                         (cnes_strip_chars config)) cnes_special_values
         then Returns (fst acc, snd acc ++ [fst item])
         else
           m <- re_match (cnes_pattern config)
                  (ConstraintsCheck.clean_cnes (py_str (snd item))
                     (cnes_strip_chars config)) ;;
           Returns (if m then acc else (fst acc ++ [fst item], snd acc)))
    items acc = Returns scan ->
  fst scan = fst acc ++ map fst (cells_where (cnes_invalid_cell config) items) /\
  snd scan = snd acc ++ map fst (cells_where (cnes_special_cell config) items).
Proof.
  revert acc. induction items as [|item items IH]; intros acc Hfold;
    cbn [Outcome_fold] in Hfold.
  - injection Hfold as <-. unfold cells_where. cbn [List.filter map].
    now rewrite !app_nil_r.
  - apply Outcome_bind_returns in Hfold. destruct Hfold as (acc1 & Hstep & Hfold).
    apply IH in Hfold. destruct Hfold as [Hinvalid Hspecial].
    rewrite Hinvalid, Hspecial. clear IH Hinvalid Hspecial.
    unfold cells_where. cbn [List.filter].
    unfold cnes_invalid_cell, cnes_special_cell, no_match, match_pattern.
    cbv beta in Hstep.
    destruct (pd_isna (snd item)); cbn [negb andb].
    { injection Hstep as <-. split; reflexivity. }
    destruct (str_in (py_str (snd item)) cnes_special_values
              || str_in (ConstraintsCheck.clean_cnes (py_str (snd item))
                           (cnes_strip_chars config)) cnes_special_values);
      cbn [negb andb map fst].
    { injection Hstep as <-. cbn [fst snd].
      split; [reflexivity | now rewrite <- app_assoc]. }
    apply Outcome_bind_returns in Hstep. destruct Hstep as (m & Hm & Hstep).
    injection Hstep as <-. rewrite Hm.
    destruct m; cbn [map fst snd]; split; try reflexivity. now rewrite <- app_assoc.
Qed.

Lemma validate_cnes_reports (df : DataFrame) (config : ManifestConfig.t) (b : Buckets) :
  NoDup (map fst (df_rows df)) ->
  ConstraintsCheck._validate_cnes df config = Returns b ->
  reports (b_errors b ++ b_warnings b)
    (map fst (cells_where (cnes_invalid_cell config) (column_cells df "CNES"))) 50
    (fun n => "CNES com formato inválido (" +:+ str_of_nat n +:+ " registros)")
    (Some "CNES")
    (Some [("pattern", PStr (cnes_pattern config));
           ("sample_invalid",
            PList (texts (firstn 5 (cells_where (cnes_invalid_cell config)
                                      (column_cells df "CNES")))))]) /\
  reports (b_info b)
    (map fst (cells_where (cnes_special_cell config) (column_cells df "CNES"))) 20
    (fun n => "CNES com valores especiais permitidos (" +:+ str_of_nat n +:+ " registros)")
    (Some "CNES") None.
Proof.
  intros Hnodup. unfold ConstraintsCheck._validate_cnes. cbv zeta. intros Hr.
  apply Outcome_bind_returns in Hr. destruct Hr as (items & Hitems & Hr).
  apply Outcome_bind_returns in Hr. destruct Hr as (scan & Hscan & Hr).
  apply Outcome_bind_returns in Hr. destruct Hr as (result & Hres & Hr).
  rewrite (column_cells_items df "CNES" items Hitems).
  pose proof (cnes_scan_spec config items ([], []) scan Hscan) as [Hinvalid Hspecial].
  cbn [fst snd app] in Hinvalid, Hspecial. rewrite Hinvalid in Hres. rewrite Hspecial in Hr.
  clear Hscan Hinvalid Hspecial.
  set (invalid := cells_where (cnes_invalid_cell config) items) in *.
  set (special := cells_where (cnes_special_cell config) items) in *.
  assert (Hresult :
    reports (b_errors result ++ b_warnings result) (map fst invalid) 50
      (fun n => "CNES com formato inválido (" +:+ str_of_nat n +:+ " registros)")
      (Some "CNES")
      (Some [("pattern", PStr (cnes_pattern config));
             ("sample_invalid", PList (texts (firstn 5 invalid)))]) /\
    b_info result = []).
  { unfold reports. destruct (map fst invalid) as [|i labels] eqn:Hlabels.
    - injection Hres as <-. split; reflexivity.
    - apply Outcome_bind_returns in Hres. destruct Hres as (sample & Hsample & Hres).
      rewrite <- Hlabels, firstn_map in Hsample.
      rewrite (sample_texts df "CNES" items (firstn 5 invalid) Hnodup Hitems) in Hsample
        by (intros it; apply firstn_cells_where).
      injection Hsample as <-.
      destruct (bool_decide _ || bool_decide _); injection Hres as <-;
        (split; [|reflexivity]); eexists; repeat split. }
  destruct Hresult as [Hreported Hinfo].
  unfold reports at 2. destruct (map fst special) as [|i labels] eqn:Hlabels;
    injection Hr as <-.
  - split; [exact Hreported | exact Hinfo].
  - split; [exact Hreported|]. cbn [extend_info b_info]. rewrite Hinfo.
    eexists. repeat split.
Qed.
End Samples.

(** ** Worked examples *)

(** [pass, pass, fail] fails as a whole; [pass, pass] passes. *)
Example report_of_pass_pass_fail :
  let pass := make_result "ok" no_findings in
  let fail := @ValidationRunner.fault_result sample_runtime (quiet_check "ko")
                (ValueError "boom") in
  ValidationReport.passed
    (@report_of sample_runtime (runner_of [] []) (world_of two_rows) (world_of two_rows)
       [pass; pass; fail]) = false /\
  ValidationReport.passed
    (@report_of sample_runtime (runner_of [] []) (world_of two_rows) (world_of two_rows)
       [pass; pass]) = true.
Proof. split; reflexivity. Qed.

(** Of three checks the second raises: three results, the second failed. *)
Example second_of_three_raises :
  match @ValidationRunner.run sample_runtime
          (runner_of [quiet_check "first"; broken_check "second"; quiet_check "third"] [])
          (world_of two_rows) with
  | (Returns rep, _) =>
      map (fun r => (ValidationResult.category r, ValidationResult.passed r))
          (ValidationReport.results rep)
      = [("first", true); ("second", false); ("third", true)]
  | (Raises _, _) => False
  end.
Proof. vm_compute. reflexivity. Qed.

(** With ["second"] in the skip list only the other two leave a result. *)
Example second_of_three_skipped :
  match @ValidationRunner.run sample_runtime
          (runner_of [quiet_check "first"; broken_check "second"; quiet_check "third"]
             ["second"])
          (world_of two_rows) with
  | (Returns rep, _) =>
      map ValidationResult.category (ValidationReport.results rep) = ["first"; "third"]
  | (Raises _, _) => False
  end.
Proof. vm_compute. reflexivity. Qed.

(** The same unknown severity on the CNES constraint is resolved to MAJOR:
    the check returns a failed result instead of raising. *)
Example unknown_severity_on_cnes_is_major :
  match @ConstraintsCheck.run_on sample_runtime (uniform_frame 1 "abc")
          (config_with_constraint "CNES" critical_constraint) with
  | Returns r =>
      ValidationResult.passed r = false /\
      map (fun f => match f with
                    | FError e => Some (ValidationError.severity e)
                    | FDict _ => None
                    end) (ValidationResult.errors r) = [Some MAJOR]
  | Raises _ => False
  end.
Proof. vm_compute. split; reflexivity. Qed.

(** * The claims *)

(** C5. [Severity.__lt__] is a strict total order with
    INFO < MINOR < MAJOR < BLOCKER: the chain holds, no severity is less
    than itself, of two distinct severities exactly one is less than the
    other, and sorting a list of findings by severity yields a permutation
    in which every finding of a lower severity stands before every finding
    of a higher one. *)
Theorem severity_strict_total_order {A : Type} (key : A -> Severity) (xs : list A)
    (a b : Severity) :
  (Severity_lt INFO MINOR = Returns true /\
   Severity_lt MINOR MAJOR = Returns true /\
   Severity_lt MAJOR BLOCKER = Returns true) /\
  Severity_lt a a = Returns false /\
  (a <> b ->
   (Severity_lt a b = Returns true /\ Severity_lt b a = Returns false) \/
   (Severity_lt a b = Returns false /\ Severity_lt b a = Returns true)) /\
  exists out,
    sorted_by_severity key xs = Returns out /\
    Permutation xs out /\
    forall i j x y,
      out !! i = Some x -> out !! j = Some y ->
      Severity_lt (key x) (key y) = Returns true -> i < j.
Proof.
  split; [repeat split; reflexivity|].
  split; [destruct a; reflexivity|].
  split.
  - intros Hne. destruct a, b; try congruence; (left; split; reflexivity) || (right; split; reflexivity).
  - destruct (sort_loop_spec key xs []) as (out & Hout & Hperm & Hsorted); [constructor|].
    exists out. split; [exact Hout|]. split; [now rewrite app_nil_r in Hperm|].
    intros i j x y Hi Hj Hlt.
    rewrite Severity_lt_rank in Hlt. injection Hlt as Hlt. apply Nat.ltb_lt in Hlt.
    destruct (Nat.lt_trichotomy i j) as [Hij|[Hij|Hij]]; [exact Hij| |].
    + subst j. rewrite Hi in Hj. injection Hj as ->. lia.
    + pose proof (sorted_lookup key out j i y x Hsorted Hj Hi Hij) as Hle.
      unfold key_le in Hle. lia.
Qed.

Lemma severity_strict_total_order_witness :
  (Severity_lt INFO MINOR = Returns true /\
   Severity_lt MINOR MAJOR = Returns true /\
   Severity_lt MAJOR BLOCKER = Returns true) /\
  Severity_lt MAJOR MAJOR = Returns false /\
  (MAJOR <> INFO ->
   (Severity_lt MAJOR INFO = Returns true /\ Severity_lt INFO MAJOR = Returns false) \/
   (Severity_lt MAJOR INFO = Returns false /\ Severity_lt INFO MAJOR = Returns true)) /\
  exists out,
    sorted_by_severity (fun s : Severity => s) [BLOCKER; INFO; MAJOR; INFO; MINOR]
      = Returns out /\
    Permutation [BLOCKER; INFO; MAJOR; INFO; MINOR] out /\
    forall i j x y,
      out !! i = Some x -> out !! j = Some y ->
      Severity_lt x y = Returns true -> i < j.
Proof.
  exact (severity_strict_total_order (fun s : Severity => s)
           [BLOCKER; INFO; MAJOR; INFO; MINOR] MAJOR INFO).
Defined.

(** C2. The [passed] flag of a report is the conjunction of the [passed]
    flags of its results: one failing result makes it false, and a report
    without results passes. *)
Theorem report_passed_is_conjunction (rep : ValidationReport.t) :
  (ValidationReport.passed rep = true <->
   forall r, In r (ValidationReport.results rep) -> ValidationResult.passed r = true) /\
  (forall r, In r (ValidationReport.results rep) -> ValidationResult.passed r = false ->
             ValidationReport.passed rep = false) /\
  (ValidationReport.results rep = [] -> ValidationReport.passed rep = true).
Proof.
  unfold ValidationReport.passed. split; [|split].
  - apply List.forallb_forall.
  - intros r Hin Hr.
    destruct (forallb ValidationResult.passed (ValidationReport.results rep)) eqn:Hall;
      [|reflexivity].
    rewrite List.forallb_forall in Hall. rewrite (Hall r Hin) in Hr. discriminate.
  - intros ->. reflexivity.
Qed.

Lemma report_passed_is_conjunction_witness :
  let fail := @ValidationRunner.fault_result sample_runtime (quiet_check "b")
                {| exc_type := "KeyError"; exc_str := "x"; exc_is_Exception := true |} in
  let rep := @report_of sample_runtime (runner_of [] []) (world_of two_rows) (world_of two_rows)
               [make_result "a" no_findings; make_result "c" no_findings; fail] in
  In fail (ValidationReport.results rep) /\
  ValidationResult.passed fail = false /\
  ValidationReport.passed rep = false.
Proof.
  intros fail rep.
  assert (Hin : In fail (ValidationReport.results rep)) by (simpl; auto).
  split; [exact Hin|]. split; [reflexivity|].
  exact (proj1 (proj2 (@report_passed_is_conjunction rep)) fail Hin eq_refl).
Defined.

(** C1. Fault isolation.  When the only exceptions the registered checks
    let escape are of class [Exception], [run] returns a report: in
    registration order every check that is not skipped was run, each after
    its predecessor, and the report holds one result for each; for a check
    that raised it is the result of the handler, which has [passed] false,
    one finding in [errors] (the dict with severity BLOCKER whose details
    carry the name of the exception type and the traceback) and empty
    [warnings] and [info]. *)
Theorem fault_isolation `{PyRuntime} (self : ValidationRunner.t) (w : World) :
  Forall raises_only_Exception (ValidationRunner.checks self) ->
  exists rep w',
    ValidationRunner.run self w = (Returns rep, w') /\
    executed (ValidationRunner.config self) w (selected self)
             (ValidationReport.results rep) w' /\
    length (ValidationReport.results rep) = length (selected self) /\
    forall check e,
      let r := ValidationRunner.fault_result check e in
      ValidationResult.category r = BaseCheck.name check /\
      ValidationResult.passed r = false /\
      ValidationResult.warnings r = [] /\
      ValidationResult.info r = [] /\
      exists d details,
        ValidationResult.errors r = [FDict d] /\
        dict_lookup d "severity" = Some (PStr "BLOCKER") /\
        dict_lookup d "details" = Some (PDict details) /\
        dict_lookup details "exception" = Some (PStr (exc_type e)) /\
        dict_lookup details "traceback" = Some (PStr (format_exc e)).
Proof.
  intros Hall.
  destruct (run_executes self w Hall) as (rs & w' & Hrun & Hex).
  exists (report_of self w w' rs), w'.
  split; [exact Hrun|]. split; [exact Hex|].
  split; [exact (executed_length _ _ _ _ _ Hex)|].
  intros check e. simpl. repeat split.
  eexists _, _. repeat split; reflexivity.
Qed.

Lemma quiet_check_raises_only_Exception (name : string) :
  raises_only_Exception (quiet_check name).
Proof. intros config w e w' Hrun. discriminate Hrun. Defined.

Lemma broken_check_raises_only_Exception (name : string) :
  raises_only_Exception (broken_check name).
Proof. intros config w e w' Hrun. injection Hrun as <- _. reflexivity. Defined.

Lemma dropping_check_raises_only_Exception : raises_only_Exception dropping_check.
Proof. intros config w e w' Hrun. discriminate Hrun. Defined.

Lemma fault_isolation_witness :
  let self := runner_of [quiet_check "first"; broken_check "second"; quiet_check "third"] [] in
  exists rep w',
    @ValidationRunner.run sample_runtime self (world_of two_rows) = (Returns rep, w') /\
    length (ValidationReport.results rep) = 3.
Proof.
  intros self.
  destruct (@fault_isolation sample_runtime self (world_of two_rows)) as (rep & w' & Hrun & _ & Hlen & _).
  - repeat constructor.
    + apply quiet_check_raises_only_Exception.
    + apply broken_check_raises_only_Exception.
    + apply quiet_check_raises_only_Exception.
  - exists rep, w'. split; [exact Hrun | exact Hlen].
Defined.

(** C4. Skip semantics.  A registered check whose name is in the skip list
    is not run and leaves no entry: the results are those of the other
    checks, one each, so their number is the number of registered checks
    minus the number of registered checks whose name is in the skip
    list. *)
Theorem skipped_checks_leave_no_entry `{PyRuntime} (self : ValidationRunner.t) (w : World) :
  Forall raises_only_Exception (ValidationRunner.checks self) ->
  exists rep w',
    ValidationRunner.run self w = (Returns rep, w') /\
    executed (ValidationRunner.config self) w
      (List.filter (fun check => negb (skipped self check)) (ValidationRunner.checks self))
      (ValidationReport.results rep) w' /\
    length (ValidationReport.results rep) =
      length (ValidationRunner.checks self)
      - length (List.filter (skipped self) (ValidationRunner.checks self)).
Proof.
  intros Hall.
  destruct (run_executes self w Hall) as (rs & w' & Hrun & Hex).
  exists (report_of self w w' rs), w'.
  split; [exact Hrun|]. split; [exact Hex|].
  simpl. rewrite (executed_length _ _ _ _ _ Hex). unfold selected.
  apply filter_length_complement.
Qed.

Lemma skipped_checks_leave_no_entry_witness :
  let self := runner_of [quiet_check "first"; quiet_check "second"; quiet_check "third"]
                ["second"] in
  exists rep w',
    @ValidationRunner.run sample_runtime self (world_of two_rows) = (Returns rep, w') /\
    length (ValidationReport.results rep) = 2.
Proof.
  intros self.
  destruct (@skipped_checks_leave_no_entry sample_runtime self (world_of two_rows))
    as (rep & w' & Hrun & _ & Hlen).
  - repeat constructor; apply quiet_check_raises_only_Exception.
  - exists rep, w'. split; [exact Hrun | exact Hlen].
Defined.

(** C8, as the code has it.  The row and column counts of the report are
    read from the dataset object when the report is assembled, after the
    loop over the checks: they are the counts of the dataset as the last
    check left it, and they are the counts from before the run when no
    check that ran changed the numbers of rows and columns. *)
Theorem report_counts_read_after_checks `{PyRuntime} (self : ValidationRunner.t) (w : World) :
  Forall raises_only_Exception (ValidationRunner.checks self) ->
  exists rep w',
    ValidationRunner.run self w = (Returns rep, w') /\
    executed (ValidationRunner.config self) w (selected self)
             (ValidationReport.results rep) w' /\
    ValidationReport.row_count rep = df_len (w_df w') /\
    ValidationReport.column_count rep = df_ncols (w_df w') /\
    (Forall keeps_shape (selected self) ->
     ValidationReport.row_count rep = df_len (w_df w) /\
     ValidationReport.column_count rep = df_ncols (w_df w)).
Proof.
  intros Hall.
  destruct (run_executes self w Hall) as (rs & w' & Hrun & Hex).
  exists (report_of self w w' rs), w'.
  split; [exact Hrun|]. split; [exact Hex|].
  split; [reflexivity|]. split; [reflexivity|].
  intros Hshape. simpl. exact (executed_shape _ _ _ _ _ Hex Hshape).
Qed.

Lemma report_counts_read_after_checks_witness :
  let self := runner_of [dropping_check] [] in
  exists rep w',
    @ValidationRunner.run sample_runtime self (world_of two_rows) = (Returns rep, w') /\
    ValidationReport.row_count rep = df_len (w_df w').
Proof.
  intros self.
  destruct (@report_counts_read_after_checks sample_runtime self (world_of two_rows))
    as (rep & w' & Hrun & _ & Hrows & _).
  - repeat constructor. apply dropping_check_raises_only_Exception.
  - exists rep, w'. split; [exact Hrun | exact Hrows].
Defined.

(** C8, as stated, fails: a check that drops the rows of the dataset in
    place changes the row count the report stores.  The dataset had two
    rows when validation began; the report says none. *)
Lemma report_counts_follow_mutation :
  exists rep w',
    @ValidationRunner.run sample_runtime (runner_of [dropping_check] [])
      (world_of two_rows) = (Returns rep, w') /\
    df_len (w_df (world_of two_rows)) = 2 /\
    ValidationReport.row_count rep = 0 /\
    ValidationReport.row_count rep <> df_len (w_df (world_of two_rows)).
Proof.
  eexists _, _. split; [rewrite run_unfold; cbn; reflexivity|].
  repeat split. discriminate.
Qed.

(** C10. When a check that is not skipped raises during [run], the report
    has [has_blockers] true: [count_by_severity] counts the dict of the
    handler under the key BLOCKER. *)
Theorem fault_makes_has_blockers `{PyRuntime} (self : ValidationRunner.t) (w : World)
    (before after : list BaseCheck.t) (check : BaseCheck.t)
    (earlier : list ValidationResult.t) (w1 w2 : World) (e : PyException) :
  Forall raises_only_Exception (ValidationRunner.checks self) ->
  ValidationRunner.checks self = before ++ check :: after ->
  skipped self check = false ->
  ValidationRunner.run_checks self before [] w = (Returns earlier, w1) ->
  BaseCheck.run check (ValidationRunner.config self) w1 = (Raises e, w2) ->
  exists rep w',
    ValidationRunner.run self w = (Returns rep, w') /\
    In (ValidationRunner.fault_result check e) (ValidationReport.results rep) /\
    ValidationReport.has_blockers rep = Returns true.
Proof.
  intros Hall Hsplit Hskip Hbefore Hraise.
  assert (Hall' : Forall raises_only_Exception (before ++ check :: after))
    by now rewrite <- Hsplit.
  apply Forall_app in Hall'. destruct Hall' as [_ Hall'].
  inversion Hall' as [|? ? Hcheck Hafter]; subst.
  assert (He : exc_is_Exception e = true) by (eapply Hcheck; exact Hraise).
  destruct (run_checks_executes self after
              (earlier ++ [ValidationRunner.fault_result check e]) w2 Hafter)
    as (rs & w' & Hrs & _).
  assert (Hloop : ValidationRunner.run_checks self (ValidationRunner.checks self) [] w
                  = (Returns ((earlier ++ [ValidationRunner.fault_result check e]) ++ rs), w')).
  { rewrite Hsplit, run_checks_app, Hbefore. simpl.
    unfold skipped in Hskip. rewrite Hskip.
    apply timed_run_raises in Hraise. rewrite Hraise, He. exact Hrs. }
  eexists _, w'. rewrite run_unfold, Hloop.
  split; [reflexivity|].
  assert (Hin : In (ValidationRunner.fault_result check e)
                   ((earlier ++ [ValidationRunner.fault_result check e]) ++ rs)).
  { apply in_or_app. left. apply in_or_app. right. now left. }
  split; [exact Hin|].
  eapply has_blockers_of_fault. exact Hin.
Qed.

Lemma fault_makes_has_blockers_witness :
  let self := runner_of [quiet_check "first"; broken_check "second"; quiet_check "third"] [] in
  exists rep w',
    @ValidationRunner.run sample_runtime self (world_of two_rows) = (Returns rep, w') /\
    @ValidationReport.has_blockers sample_runtime rep = Returns true.
Proof.
  intros self.
  destruct (@fault_makes_has_blockers sample_runtime self (world_of two_rows)
              [quiet_check "first"] [quiet_check "third"] (broken_check "second")
              [ValidationResult.set_duration_seconds (make_result "first" no_findings) (0 - 0)%Q]
              (world_of two_rows) (world_of two_rows)
              {| exc_type := "ZeroDivisionError"; exc_str := "division by zero";
                 exc_is_Exception := true |})
    as (rep & w' & Hrun & _ & Hblockers).
  - repeat constructor.
    + apply quiet_check_raises_only_Exception.
    + apply broken_check_raises_only_Exception.
    + apply quiet_check_raises_only_Exception.
  - reflexivity.
  - reflexivity.
  - reflexivity.
  - reflexivity.
  - exists rep, w'. split; [exact Hrun | exact Hblockers].
Defined.

(** C3. Every result returned by the [run] method of a registered check,
    with or without the duration stamped by [timed_run], and every result
    built by the handler of the runner has [passed] true exactly when its
    [errors] list is empty. *)
Theorem passed_iff_no_errors `{PyRuntime} `{RuleBodies} :
  (forall check config w r w',
     In check ALL_CHECKS ->
     BaseCheck.run check config w = (Returns r, w') ->
     (ValidationResult.passed r = true <-> ValidationResult.errors r = [])) /\
  (forall check config w r w',
     In check ALL_CHECKS ->
     BaseCheck.timed_run check config w = (Returns r, w') ->
     (ValidationResult.passed r = true <-> ValidationResult.errors r = [])) /\
  (forall check e,
     ValidationResult.passed (ValidationRunner.fault_result check e) = true <->
     ValidationResult.errors (ValidationRunner.fault_result check e) = []).
Proof.
  split; [|split].
  - intros check config w r w' Hin Hrun.
    exact (ALL_CHECKS_consistent check config Hin w r w' Hrun).
  - intros check config w r w' Hin Hrun.
    rewrite timed_run_unfold in Hrun.
    destruct (BaseCheck.run check config w) as [[r0|e] w0] eqn:Hr; [|discriminate].
    injection Hrun as <- _.
    exact (ALL_CHECKS_consistent check config Hin w r0 w0 Hr).
  - intros check e. simpl. split; discriminate.
Qed.

Lemma passed_iff_no_errors_witness :
  let check := check_class ConstraintsCheck.name ConstraintsCheck.description
                 (@ConstraintsCheck.run sample_runtime) in
  let r := make_result "constraints" no_findings in
  In check (@ALL_CHECKS sample_runtime silent_rules) /\
  BaseCheck.run check plain_config (world_of two_rows) = (Returns r, world_of two_rows) /\
  (ValidationResult.passed r = true <-> ValidationResult.errors r = []).
Proof.
  intros check r.
  assert (Hin : In check (@ALL_CHECKS sample_runtime silent_rules))
    by (right; right; left; reflexivity).
  assert (Hrun : BaseCheck.run check plain_config (world_of two_rows)
                 = (Returns r, world_of two_rows)) by reflexivity.
  split; [exact Hin|]. split; [exact Hrun|].
  exact (proj1 (@passed_iff_no_errors sample_runtime silent_rules)
           check plain_config (world_of two_rows) r (world_of two_rows) Hin Hrun).
Defined.

(** C7, on the code.  Building a runner without a configuration fails:
    [ManifestConfig()] lacks the required argument [input_file], so
    [__init__] raises [TypeError] and no runner exists on which [run]
    could be called. *)
Theorem runner_without_config_raises `{PyRuntime} `{RuleBodies}
    (checks : option (list BaseCheck.t)) (skip_checks : option (list string)) :
  ManifestConfig.init None None None None =
    Raises (TypeError
      "ManifestConfig.__init__() missing 1 required positional argument: 'input_file'") /\
  ValidationRunner.init None checks skip_checks =
    Raises (TypeError
      "ManifestConfig.__init__() missing 1 required positional argument: 'input_file'").
Proof. split; reflexivity. Qed.

(** C6, on the code.  A constraint on a column other than CNES and Telefone
    whose severity is not one of the four names does not fall back to
    MAJOR: as soon as one cell fails the pattern, [_validate_pattern]
    evaluates [Severity[constraint.severity]] and the check raises
    [KeyError]. *)
Theorem unknown_severity_raises_in_pattern `{PyRuntime} :
  re_match "^\d+$" "abc" = Returns false ->
  ConstraintsCheck._validate_pattern names_frame "Nome" critical_constraint
    = Raises (KeyError "CRITICAL") /\
  ConstraintsCheck.run_on names_frame (config_with_constraint "Nome" critical_constraint)
    = Raises (KeyError "CRITICAL").
Proof.
  intros Hmatch.
  assert (Hpattern : ConstraintsCheck._validate_pattern names_frame "Nome" critical_constraint
                     = Raises (KeyError "CRITICAL")).
  { unfold ConstraintsCheck._validate_pattern. cbn. rewrite Hmatch. reflexivity. }
  split; [exact Hpattern|].
  unfold ConstraintsCheck.run_on. cbn.
  unfold ConstraintsCheck._validate_pattern. cbn. rewrite Hmatch. reflexivity.
Qed.

Lemma unknown_severity_raises_in_pattern_witness :
  @re_match sample_runtime "^\d+$" "abc" = Returns false /\
  @ConstraintsCheck.run_on sample_runtime names_frame
     (config_with_constraint "Nome" critical_constraint)
    = Raises (@KeyError sample_runtime "CRITICAL").
Proof.
  assert (Hmatch : @re_match sample_runtime "^\d+$" "abc" = Returns false) by reflexivity.
  split; [exact Hmatch|].
  exact (proj2 (@unknown_severity_raises_in_pattern sample_runtime Hmatch)).
Defined.

(** C9, on the code.  A finding of [validate_rows] or of [_validate_cnes]
    that lists rows keeps the first rows only (100 for [validate_rows]; 50
    for the invalid and 20 for the special CNES values, in the order of the
    dataset), and the number of all affected rows is printed in its message
    and kept nowhere else: [validate_rows] sets no [details], the [details]
    of an invalid-CNES finding hold the pattern and the texts of the first
    five invalid cells, and a special-value finding has no [details].  The
    rows of [validate_rows] are those on which the condition returns
    [False]; for [_validate_cnes] the column labels and the index labels
    are taken to be distinct, as [df['CNES']] and [df.loc[i, 'CNES']] need
    them to read one column and one cell. *)
Theorem capped_findings_leave_total_out_of_details `{PyRuntime} :
  (forall name df condition_func error_message severity column errors,
     BaseCheck.validate_rows name df condition_func error_message severity column
       = Returns errors ->
     reports (map FError errors) (rows_failing df condition_func) 100
       (fun n => error_message +:+ " (" +:+ str_of_nat n +:+ " linhas)") column None) /\
  (forall df config b,
     NoDup (df_columns df) ->
     NoDup (map fst (df_rows df)) ->
     ConstraintsCheck._validate_cnes df config = Returns b ->
     let invalid := cells_where (cnes_invalid_cell config) (column_cells df "CNES") in
     let special := cells_where (cnes_special_cell config) (column_cells df "CNES") in
     reports (b_errors b ++ b_warnings b) (map fst invalid) 50
       (fun n => "CNES com formato inválido (" +:+ str_of_nat n +:+ " registros)")
       (Some "CNES")
       (Some [("pattern", PStr (cnes_pattern config));
              ("sample_invalid", PList (texts (firstn 5 invalid)))]) /\
     reports (b_info b) (map fst special) 20
       (fun n => "CNES com valores especiais permitidos (" +:+ str_of_nat n
                   +:+ " registros)")
       (Some "CNES") None).
Proof.
  split.
  - intros name df condition_func error_message severity column errors.
    apply validate_rows_reports.
  - intros df config b _ Hlabels Hrun. cbv zeta.
    exact (validate_cnes_reports df config b Hlabels Hrun).
Qed.

(** Sixty facilities whose CNES is [abc]: the finding lists the first fifty
    rows, prints [60] in its message, and its details hold the pattern and
    five texts. *)
Lemma capped_findings_leave_total_out_of_details_witness :
  let df := uniform_frame 60 "abc" in
  NoDup (df_columns df) /\
  NoDup (map fst (df_rows df)) /\
  exists b e,
    @ConstraintsCheck._validate_cnes sample_runtime df plain_config = Returns b /\
    b_errors b ++ b_warnings b = [FError e] /\
    ValidationError.row_indices e = Some (map Z.of_nat (seq 0 50)) /\
    ValidationError.message e = "CNES com formato inválido (60 registros)" /\
    ValidationError.details e
      = Some [("pattern", PStr "^\d{6,8}$");
              ("sample_invalid",
               PList [PStr "abc"; PStr "abc"; PStr "abc"; PStr "abc"; PStr "abc"])].
Proof.
  intros df.
  assert (Hlabels : NoDup (map fst (df_rows df))).
  { apply (bool_decide_unpack _). vm_compute. reflexivity. }
  assert (Hcols : NoDup (df_columns df)).
  { apply (bool_decide_unpack _). vm_compute. reflexivity. }
  split; [exact Hcols|]. split; [exact Hlabels|].
  destruct (@ConstraintsCheck._validate_cnes sample_runtime df plain_config)
    as [b|e] eqn:Hrun; [|vm_compute in Hrun; discriminate Hrun].
  pose proof (proj1 (proj2 (@capped_findings_leave_total_out_of_details sample_runtime)
                       df plain_config b Hcols Hlabels Hrun)) as Hreported.
  vm_compute in Hreported. destruct Hreported as (e & Hfs & Hrows & Hmsg & _ & Hdetails).
  exists b, e. split; [reflexivity|]. split; [exact Hfs|].
  split; [exact Hrows|]. split; [exact Hmsg | exact Hdetails].
Defined.

(** [validate_rows] on 120 rows that all fail: the finding lists the first
    100, prints the total in its message and has no [details]. *)
Example validate_rows_of_120_rows :
  exists e,
    BaseCheck.validate_rows "demo" (uniform_frame 120 "x") (fun _ => Returns false)
      "Valor inválido" MAJOR (Some "CNES") = Returns [e] /\
    ValidationError.row_indices e = Some (map Z.of_nat (seq 0 100)) /\
    ValidationError.message e = "Valor inválido (120 linhas)" /\
    ValidationError.details e = None.
Proof.
  eexists. split; [vm_compute; reflexivity|]. repeat split.
Qed.

(** * Further properties of the code *)

(** ** Counting by severity, exactly *)

Section CountingExactly.
Context `{PyRuntime}.

Lemma count_finding_exact (m : gmap string nat) (f : Finding) :
  counts_ok m ->
  exists m', ValidationReport.count_finding m f = Returns m' /\
             counts_ok m' /\
             m' = <[finding_key f := default 0 (m !! finding_key f) + 1]> m.
Proof.
  intros Hm. destruct f as [e|d]; simpl.
  - destruct (Hm (ValidationError.severity e)) as [n Hn]. rewrite Hn. simpl.
    eexists. split; [reflexivity|]. split; [now apply counts_ok_insert | reflexivity].
  - eexists. split; [reflexivity|]. split; [now apply counts_ok_insert | reflexivity].
Qed.

Lemma lookup_after_count (m : gmap string nat) (key k : string) :
  default 0 (<[key := default 0 (m !! key) + 1]> m !! k) = default 0 (m !! k) + tick key k.
Proof.
  unfold tick. destruct (String.eqb_spec key k) as [->|Hne].
  - rewrite lookup_insert_eq. reflexivity.
  - rewrite lookup_insert_ne by exact Hne. lia.
Qed.

Lemma count_findings_exact (fs : list Finding) (m : gmap string nat) :
  counts_ok m ->
  exists m', ValidationReport.count_findings m fs = Returns m' /\
             counts_ok m' /\
             forall k, default 0 (m' !! k) = default 0 (m !! k) + occurrences k fs.
Proof.
  revert m. induction fs as [|f fs IH]; intros m Hm; simpl.
  - exists m. split; [reflexivity|]. split; [exact Hm|].
    intros k. unfold occurrences. simpl. lia.
  - destruct (count_finding_exact m f Hm) as (m1 & -> & Hm1 & Heq). simpl.
    destruct (IH m1 Hm1) as (m2 & -> & Hm2 & Hk).
    exists m2. repeat split; auto. intros k.
    rewrite Hk, Heq, lookup_after_count. unfold occurrences, tick. simpl.
    destruct (String.eqb (finding_key f) k); simpl; lia.
Qed.

Lemma occurrences_app (k : string) (fs gs : list Finding) :
  occurrences k (fs ++ gs) = occurrences k fs + occurrences k gs.
Proof. unfold occurrences. now rewrite List.filter_app, length_app. Qed.

Lemma count_results_exact (rs : list ValidationResult.t) (m : gmap string nat) :
  counts_ok m ->
  exists m', ValidationReport.count_results m rs = Returns m' /\
             counts_ok m' /\
             forall k, default 0 (m' !! k)
                       = default 0 (m !! k) + occurrences k (flat_map result_findings rs).
Proof.
  revert m. induction rs as [|r rs IH]; intros m Hm; simpl.
  - exists m. split; [reflexivity|]. split; [exact Hm|].
    intros k. unfold occurrences. simpl. lia.
  - destruct (count_findings_exact (ValidationResult.errors r) m Hm) as (m1 & -> & Hm1 & H1).
    simpl.
    destruct (count_findings_exact (ValidationResult.warnings r) m1 Hm1)
      as (m2 & -> & Hm2 & H2).
    simpl.
    destruct (count_findings_exact (ValidationResult.info r) m2 Hm2) as (m3 & -> & Hm3 & H3).
    simpl.
    destruct (IH m3 Hm3) as (m4 & -> & Hm4 & H4).
    exists m4. repeat split; auto. intros k.
    rewrite H4, H3, H2, H1. unfold result_findings.
    rewrite !occurrences_app. lia.
Qed.

Lemma initial_counts_zero (k : string) :
  default 0 (ValidationReport.initial_counts !! k) = 0.
Proof.
  unfold ValidationReport.initial_counts.
  repeat (rewrite lookup_insert; case_decide; [reflexivity|]).
  now rewrite lookup_empty.
Qed.

Lemma count_by_severity_exact (rep : ValidationReport.t) :
  exists counts,
    ValidationReport.count_by_severity rep = Returns counts /\
    counts_ok counts /\
    forall k, default 0 (counts !! k) = occurrences k (report_findings rep).
Proof.
  destruct (count_results_exact (ValidationReport.results rep) _ initial_counts_ok)
    as (m & Hm & Hok & Hk).
  exists m. split; [exact Hm|]. split; [exact Hok|].
  intros k. rewrite Hk, initial_counts_zero. reflexivity.
Qed.
End CountingExactly.

(** X1. [count_by_severity] never raises.  The table it returns has an
    entry for each of the four severities, and under every key the number
    of findings of the report (of the three lists of all results) whose
    severity has that name; a key without an entry stands for none. *)
Theorem count_by_severity_counts_every_finding `{PyRuntime} (rep : ValidationReport.t) :
  exists counts,
    ValidationReport.count_by_severity rep = Returns counts /\
    (forall s : Severity,
       counts !! Severity_value s = Some (occurrences (Severity_value s) (report_findings rep))) /\
    (forall k, default 0 (counts !! k) = occurrences k (report_findings rep)).
Proof.
  destruct (count_by_severity_exact rep) as (counts & Hc & Hok & Hk).
  exists counts. split; [exact Hc|]. split; [|exact Hk].
  intros s. destruct (Hok s) as [n Hn].
  specialize (Hk (Severity_value s)). rewrite Hn in Hk. simpl in Hk. now rewrite Hn, Hk.
Qed.

Section CountingTotals.
Context `{PyRuntime}.

Lemma add_comm_acc (j1 j2 : string) (z1 z2 y : nat) :
  z1 + (z2 + y) = z2 + (z1 + y).
Proof. lia. Qed.

Lemma counts_total_insert (m : gmap string nat) (k : string) (v : nat) :
  counts_total (<[k := v]> m) + default 0 (m !! k) = v + counts_total m.
Proof.
  unfold counts_total. destruct (m !! k) as [x|] eqn:Hk; simpl.
  - rewrite <- (insert_delete_eq m k v).
    rewrite map_fold_insert_L;
      [| intros; apply add_comm_acc; assumption | apply lookup_delete_eq].
    rewrite (map_fold_delete_L _ 0 k x m); [lia | intros; apply add_comm_acc; assumption | exact Hk].
  - rewrite map_fold_insert_L; [lia | intros; apply add_comm_acc; assumption | exact Hk].
Qed.

Lemma counts_total_initial : counts_total ValidationReport.initial_counts = 0.
Proof.
  unfold ValidationReport.initial_counts.
  pose proof (counts_total_insert ∅ "BLOCKER" 0) as H1.
  pose proof (counts_total_insert (<["BLOCKER" := 0]> ∅) "MAJOR" 0) as H2.
  pose proof (counts_total_insert (<["MAJOR" := 0]> (<["BLOCKER" := 0]> ∅)) "MINOR" 0) as H3.
  pose proof (counts_total_insert
                (<["MINOR" := 0]> (<["MAJOR" := 0]> (<["BLOCKER" := 0]> ∅))) "INFO" 0) as H4.
  assert (H0 : counts_total (∅ : gmap string nat) = 0)
    by (unfold counts_total; apply map_fold_empty).
  lia.
Qed.

Lemma count_findings_total (fs : list Finding) (m m' : gmap string nat) :
  counts_ok m ->
  ValidationReport.count_findings m fs = Returns m' ->
  counts_ok m' /\ counts_total m' = counts_total m + length fs.
Proof.
  revert m. induction fs as [|f fs IH]; intros m Hm Hc; simpl in Hc.
  - injection Hc as <-. split; [exact Hm | simpl; lia].
  - destruct (count_finding_exact m f Hm) as (m1 & Hf & Hm1 & Heq).
    rewrite Hf in Hc. simpl in Hc.
    destruct (IH m1 Hm1 Hc) as [Hok Ht]. split; [exact Hok|].
    rewrite Ht, Heq.
    pose proof (counts_total_insert m (finding_key f)
                  (default 0 (m !! finding_key f) + 1)) as Hins.
    simpl. lia.
Qed.

Lemma count_results_total (rs : list ValidationResult.t) (m m' : gmap string nat) :
  counts_ok m ->
  ValidationReport.count_results m rs = Returns m' ->
  counts_total m' = counts_total m + length (flat_map result_findings rs).
Proof.
  revert m. induction rs as [|r rs IH]; intros m Hm Hc; simpl in Hc.
  - injection Hc as <-. simpl. lia.
  - apply Outcome_bind_returns in Hc. destruct Hc as (m1 & H1 & Hc).
    apply Outcome_bind_returns in Hc. destruct Hc as (m2 & H2 & Hc).
    apply Outcome_bind_returns in Hc. destruct Hc as (m3 & H3 & Hc).
    destruct (count_findings_total _ _ _ Hm H1) as [Hm1 T1].
    destruct (count_findings_total _ _ _ Hm1 H2) as [Hm2 T2].
    destruct (count_findings_total _ _ _ Hm2 H3) as [Hm3 T3].
    rewrite (IH m3 Hm3 Hc), T3, T2, T1. simpl.
    unfold result_findings. rewrite !length_app. lia.
Qed.

Lemma positive_filter_existsb {X : Type} (p : X -> bool) (l : list X) :
  (0 <? length (List.filter p l)) = existsb p l.
Proof.
  induction l as [|x l IH]; simpl; [reflexivity|].
  destruct (p x); simpl; [reflexivity | exact IH].
Qed.

Lemma has_severity_exact (key : string) (rep : ValidationReport.t) :
  (exists s : Severity, Severity_value s = key) ->
  ValidationReport.has_severity key rep =
  Returns (existsb (fun f => String.eqb (finding_key f) key) (report_findings rep)).
Proof.
  intros [s <-]. unfold ValidationReport.has_severity.
  destruct (count_by_severity_exact rep) as (counts & -> & Hok & Hk). simpl.
  destruct (Hok s) as [n Hn]. rewrite Hn.
  specialize (Hk (Severity_value s)). rewrite Hn in Hk. simpl in Hk.
  rewrite Hk. unfold occurrences. now rewrite positive_filter_existsb.
Qed.
End CountingTotals.

(** X2. Nothing is lost or counted twice: the entries of the table of
    [count_by_severity] add up to the number of findings of the report,
    which is the sum of [total_issues] over its results. *)
Theorem count_by_severity_adds_up `{PyRuntime} (rep : ValidationReport.t) :
  exists counts,
    ValidationReport.count_by_severity rep = Returns counts /\
    counts_total counts = length (report_findings rep) /\
    length (report_findings rep)
      = list_sum (map ValidationResult.total_issues (ValidationReport.results rep)).
Proof.
  destruct (count_by_severity_exact rep) as (counts & Hc & _ & _).
  exists counts. split; [exact Hc|]. split.
  - unfold ValidationReport.count_by_severity in Hc.
    rewrite (count_results_total _ _ _ initial_counts_ok Hc), counts_total_initial.
    reflexivity.
  - unfold report_findings.
    induction (ValidationReport.results rep) as [|r rs IH]; simpl; [reflexivity|].
    rewrite length_app, IH. unfold result_findings, ValidationResult.total_issues.
    rewrite !length_app. lia.
Qed.

(** X3. [has_blockers] and [has_majors] never raise, and each is true
    exactly when some finding of the report, in the errors, the warnings
    or the info of any result, is counted under that severity. *)
Theorem has_blockers_and_majors_look_at_every_list `{PyRuntime} (rep : ValidationReport.t) :
  ValidationReport.has_blockers rep =
    Returns (existsb (fun f => String.eqb (finding_key f) "BLOCKER") (report_findings rep)) /\
  ValidationReport.has_majors rep =
    Returns (existsb (fun f => String.eqb (finding_key f) "MAJOR") (report_findings rep)).
Proof.
  split.
  - apply has_severity_exact. exists BLOCKER. reflexivity.
  - apply has_severity_exact. exists MAJOR. reflexivity.
Qed.

(** ** The counters of a report *)

Lemma filter_passed_length (rs : list ValidationResult.t) :
  length (filter (fun r : ValidationResult.t => ValidationResult.passed r = true) rs)
  = length (List.filter ValidationResult.passed rs).
Proof.
  induction rs as [|r rs IH]; [reflexivity|].
  rewrite filter_cons. simpl. destruct (ValidationResult.passed r) eqn:Hr.
  - rewrite decide_True by reflexivity. simpl. now rewrite IH.
  - rewrite decide_False by discriminate. exact IH.
Qed.

Lemma all_passed_length (rs : list ValidationResult.t) :
  forallb ValidationResult.passed rs = true <->
  length (List.filter ValidationResult.passed rs) = length rs.
Proof.
  induction rs as [|r rs IH]; simpl; [tauto|].
  pose proof (List.filter_length_le ValidationResult.passed rs) as Hle.
  destruct (ValidationResult.passed r); simpl.
  - rewrite IH. lia.
  - split; [discriminate | lia].
Qed.

(** X4. In every report [passed_checks + failed_checks = total_checks], and
    the report passed exactly when no check failed. *)
Theorem report_counters_agree (rep : ValidationReport.t) :
  ValidationReport.passed_checks rep + ValidationReport.failed_checks rep
    = ValidationReport.total_checks rep /\
  (ValidationReport.passed rep = true <-> ValidationReport.failed_checks rep = 0) /\
  (ValidationReport.passed rep = true <->
   ValidationReport.passed_checks rep = ValidationReport.total_checks rep).
Proof.
  unfold ValidationReport.failed_checks, ValidationReport.passed_checks,
    ValidationReport.total_checks, ValidationReport.passed.
  rewrite filter_passed_length.
  pose proof (List.filter_length_le ValidationResult.passed (ValidationReport.results rep)) as Hle.
  pose proof (all_passed_length (ValidationReport.results rep)) as Hall.
  split; [lia|]. split; rewrite Hall; lia.
Qed.

(** ** Names of severities *)

(** X5. Looking a severity up by its name is the inverse of taking its
    value: [Severity[s.value]] is [s], and [Severity[name]] returns a
    member only for its own value and raises [KeyError] for every other
    name. *)
Theorem severity_name_round_trip `{PyRuntime} (s : Severity) (name : string) :
  Severity_getitem (Severity_value s) = Returns s /\
  (Severity_getitem name = Returns s <-> Severity_value s = name) /\
  ((forall s', Severity_value s' <> name) -> Severity_getitem name = Raises (KeyError name)).
Proof.
  split; [destruct s; reflexivity|]. split.
  - split.
    + unfold Severity_getitem, Severity_members. cbn [dict_lookup].
      destruct (String.eqb_spec "BLOCKER" name) as [<-|_]; [intros [= <-]; reflexivity|].
      destruct (String.eqb_spec "MAJOR" name) as [<-|_]; [intros [= <-]; reflexivity|].
      destruct (String.eqb_spec "MINOR" name) as [<-|_]; [intros [= <-]; reflexivity|].
      destruct (String.eqb_spec "INFO" name) as [<-|_]; [intros [= <-]; reflexivity|].
      intros Habs. discriminate Habs.
    + intros <-. destruct s; reflexivity.
  - intros Hnone. unfold Severity_getitem, Severity_members. cbn [dict_lookup].
    destruct (String.eqb_spec "BLOCKER" name) as [<-|_];
      [exfalso; apply (Hnone BLOCKER); reflexivity|].
    destruct (String.eqb_spec "MAJOR" name) as [<-|_];
      [exfalso; apply (Hnone MAJOR); reflexivity|].
    destruct (String.eqb_spec "MINOR" name) as [<-|_];
      [exfalso; apply (Hnone MINOR); reflexivity|].
    destruct (String.eqb_spec "INFO" name) as [<-|_];
      [exfalso; apply (Hnone INFO); reflexivity|].
    reflexivity.
Qed.

(** ** The check contract *)

(** X6. [timed_run] changes nothing but the duration: it raises exactly
    when [run] raises, with the same exception, and a result it returns is
    the result of [run] (same category, flag and lists, same world left
    behind) stamped with the time that passed on the clock. *)
Theorem timed_run_only_stamps_duration (check : BaseCheck.t) (config : ManifestConfig.t)
    (w w' : World) :
  (forall e, BaseCheck.timed_run check config w = (Raises e, w') <->
             BaseCheck.run check config w = (Raises e, w')) /\
  (forall r', BaseCheck.timed_run check config w = (Returns r', w') <->
     exists r,
       BaseCheck.run check config w = (Returns r, w') /\
       r' = ValidationResult.set_duration_seconds r (w_time w' - w_time w)%Q) /\
  (forall r d,
     ValidationResult.category (ValidationResult.set_duration_seconds r d)
       = ValidationResult.category r /\
     ValidationResult.passed (ValidationResult.set_duration_seconds r d)
       = ValidationResult.passed r /\
     ValidationResult.errors (ValidationResult.set_duration_seconds r d)
       = ValidationResult.errors r /\
     ValidationResult.warnings (ValidationResult.set_duration_seconds r d)
       = ValidationResult.warnings r /\
     ValidationResult.info (ValidationResult.set_duration_seconds r d)
       = ValidationResult.info r).
Proof.
  split; [|split].
  - intros e. apply timed_run_raises.
  - intros r'. rewrite timed_run_unfold.
    destruct (BaseCheck.run check config w) as [[r|e] w0]; split.
    + intros [= <- <-]. exists r. split; reflexivity.
    + intros (r0 & [= -> ->] & ->). reflexivity.
    + discriminate.
    + intros (r0 & Habs & _). discriminate Habs.
  - intros r d. repeat split.
Qed.

Section ValidateRows.

Lemma invalid_rows_fold (df : DataFrame) (p : Row -> bool) (rows : list (Z * list PyVal))
    (acc : list Z) :
  Outcome_fold
    (fun acc r =>
       ok <- Returns (p (df_row_series df r)) ;;
       Returns (if ok then acc else acc ++ [fst r]))
    rows acc
  = Returns (acc ++ map fst (List.filter (fun r => negb (p (df_row_series df r))) rows)).
Proof.
  revert acc. induction rows as [|r rows IH]; intros acc; simpl.
  - now rewrite app_nil_r.
  - destruct (p (df_row_series df r)); simpl; rewrite IH; [reflexivity|].
    now rewrite <- app_assoc.
Qed.

Lemma invalid_rows_pure (df : DataFrame) (p : Row -> bool) :
  BaseCheck.invalid_rows df (fun row => Returns (p row)) = Returns (failing_rows df p).
Proof. unfold BaseCheck.invalid_rows. now rewrite invalid_rows_fold. Qed.

Lemma failing_rows_nil (df : DataFrame) (p : Row -> bool) :
  failing_rows df p = [] <->
  forall r, In r (df_rows df) -> p (df_row_series df r) = true.
Proof.
  unfold failing_rows. induction (df_rows df) as [|r rows IH]; simpl.
  - split; [intros _ r [] | reflexivity].
  - destruct (p (df_row_series df r)) eqn:Hp; simpl.
    + rewrite IH. split.
      * intros Hall r' [<-|Hin]; [exact Hp | now apply Hall].
      * intros Hall r' Hin. apply Hall. now right.
    + split; [discriminate|]. intros Hall.
      rewrite (Hall r) in Hp by now left. discriminate.
Qed.
End ValidateRows.

(** X7. For a condition that does not raise, [validate_rows] returns no
    finding exactly when the condition holds on every row (so on a dataset
    without rows), and otherwise one finding: it has the severity and the
    column it was given and the name of the check as category, and lists
    the first hundred rows that fail, in the order of the dataset. *)
Theorem validate_rows_reports_failing_rows (name : string) (df : DataFrame)
    (p : Row -> bool) (error_message : string) (severity : Severity)
    (column : option string) :
  exists errors,
    BaseCheck.validate_rows name df (fun row => Returns (p row)) error_message severity column
      = Returns errors /\
    (errors = [] <-> forall r, In r (df_rows df) -> p (df_row_series df r) = true) /\
    (forall e, In e errors ->
       errors = [e] /\
       ValidationError.severity e = severity /\
       ValidationError.column e = column /\
       ValidationError.category e = name /\
       ValidationError.row_indices e = Some (firstn 100 (failing_rows df p))).
Proof.
  unfold BaseCheck.validate_rows. rewrite invalid_rows_pure. simpl.
  destruct (failing_rows df p) as [|i rest] eqn:Hf.
  - exists []. split; [reflexivity|]. split.
    + rewrite <- failing_rows_nil. tauto.
    + intros e [].
  - eexists. split; [reflexivity|]. split.
    + rewrite <- failing_rows_nil, Hf. split; discriminate.
    + intros e [<-|[]]. repeat split.
Qed.

(** ** The runner, further *)

(** X8. An exception whose class is not derived from [Exception] is not
    turned into a finding: when a check that is not skipped raises one,
    [run] raises it, in the world that check left; no report is built and
    the checks after it are not run. *)
Theorem run_lets_other_exceptions_through `{PyRuntime} (self : ValidationRunner.t)
    (w : World) (before after : list BaseCheck.t) (check : BaseCheck.t)
    (earlier : list ValidationResult.t) (w1 w2 : World) (e : PyException) :
  ValidationRunner.checks self = before ++ check :: after ->
  skipped self check = false ->
  ValidationRunner.run_checks self before [] w = (Returns earlier, w1) ->
  BaseCheck.run check (ValidationRunner.config self) w1 = (Raises e, w2) ->
  exc_is_Exception e = false ->
  ValidationRunner.run self w = (Raises e, w2).
Proof.
  intros Hsplit Hskip Hbefore Hraise He.
  rewrite run_unfold, Hsplit, run_checks_app, Hbefore. simpl.
  unfold skipped in Hskip. rewrite Hskip.
  apply timed_run_raises in Hraise. rewrite Hraise, He. reflexivity.
Qed.

Section Categories.
Context `{PyRuntime} `{RuleBodies}.

Lemma returns_ret {A : Type} (P : A -> Prop) (a : A) : P a -> returns_only P (Py_ret a).
Proof. intros Ha w a' w' Heq. injection Heq as <- _. exact Ha. Qed.

Lemma returns_bind {A B : Type} (P : B -> Prop) (m : Py A) (k : A -> Py B) :
  (forall a, returns_only P (k a)) -> returns_only P (Py_bind m k).
Proof.
  intros Hk w b w' Heq. unfold Py_bind in Heq.
  destruct (m w) as [[a|e] w1]; [|discriminate].
  exact (Hk a w1 b w' Heq).
Qed.

Ltac peel_category :=
  repeat (cbv beta zeta;
          first [ apply returns_ret; reflexivity
                | apply returns_bind; intros ? ]).

Lemma names_check_class (name description : string)
    (run : ManifestConfig.t -> Py ValidationResult.t) :
  (forall config, returns_only (fun r => ValidationResult.category r = name) (run config)) ->
  names_its_results (check_class name description run).
Proof. intros Hrun config w r w' Hr. exact (Hrun config w r w' Hr). Qed.

Lemma ALL_CHECKS_name_results (check : BaseCheck.t) :
  In check ALL_CHECKS -> names_its_results check.
Proof.
  unfold ALL_CHECKS. simpl.
  intros [<-|[<-|[<-|[<-|[<-|[<-|[<-|[<-|[<-|[]]]]]]]]]];
    apply names_check_class; intros config.
  - unfold SchemaCheck.run. apply returns_bind. intros df w r w' Heq.
    injection Heq as Heq _. unfold SchemaCheck.run_on in Heq. cbv zeta in Heq.
    apply Outcome_bind_returns in Heq. destruct Heq as (type_errors & _ & Heq).
    injection Heq as <-. reflexivity.
  - unfold ParsingCheck.run. peel_category.
  - unfold ConstraintsCheck.run. apply returns_bind. intros df w r w' Heq.
    injection Heq as Heq _. unfold ConstraintsCheck.run_on in Heq.
    repeat (apply Outcome_bind_returns in Heq; destruct Heq as (? & _ & Heq)).
    injection Heq as <-. reflexivity.
  - unfold VocabCheck.run. peel_category.
  - unfold CoherenceCheck.run. peel_category.
  - unfold GeospatialCheck.run. cbv zeta. apply returns_bind. intros df.
    match goal with |- returns_only _ (if ?c then _ else _) => destruct c end;
      peel_category.
  - unfold UniquenessCheck.run. peel_category.
  - unfold ReproducibilityCheck.run. peel_category.
  - unfold PerfCheck.run. peel_category.
Qed.

Lemma executed_categories (config : ManifestConfig.t) (w w' : World)
    (cs : list BaseCheck.t) (rs : list ValidationResult.t) :
  executed config w cs rs w' ->
  Forall names_its_results cs ->
  map ValidationResult.category rs = map BaseCheck.name cs.
Proof.
  induction 1 as [w | check rest result results w w1 w2 Hrun Hex IH
                    | check rest e results w w1 w2 Hrun He Hex IH];
    intros Hall; [reflexivity| |];
    inversion Hall as [|? ? Hn Hrest]; subst; simpl; rewrite (IH Hrest); f_equal.
  rewrite timed_run_unfold in Hrun.
  destruct (BaseCheck.run check config w) as [[r|e0] w0] eqn:Hr; [|discriminate].
  injection Hrun as <- _. simpl. exact (Hn _ _ _ _ Hr).
Qed.
End Categories.

(** X9. Every registered check puts its own name on the result it returns,
    and so does the handler of the runner; hence the categories of a report
    are the names of the checks that were not skipped, in registration
    order (for registered checks, or any checks that name their results,
    which let only exceptions of class [Exception] escape). *)
Theorem report_categories_are_check_names `{PyRuntime} `{RuleBodies}
    (self : ValidationRunner.t) (w : World) :
  (forall check, In check ALL_CHECKS -> names_its_results check) /\
  (Forall names_its_results (ValidationRunner.checks self) ->
   Forall raises_only_Exception (ValidationRunner.checks self) ->
   exists rep w',
     ValidationRunner.run self w = (Returns rep, w') /\
     map ValidationResult.category (ValidationReport.results rep)
       = map BaseCheck.name (selected self)).
Proof.
  split; [exact ALL_CHECKS_name_results|].
  intros Hnames Hexc.
  destruct (run_executes self w Hexc) as (rs & w' & Hrun & Hex).
  exists (report_of self w w' rs), w'. split; [exact Hrun|]. simpl.
  eapply executed_categories; [exact Hex|].
  unfold selected. rewrite Forall_forall in Hnames |- *.
  intros c Hc. apply Hnames. apply list_elem_of_In in Hc.
  apply List.filter_In in Hc. apply list_elem_of_In. tauto.
Qed.

(** ** The schema check *)

Section Schema.

Lemma find_alias_existsb (aliases cols : list string) :
  match SchemaCheck.find_alias aliases cols with Some _ => true | None => false end
  = existsb (fun alias => str_in alias cols) aliases.
Proof.
  induction aliases as [|a rest IH]; simpl; [reflexivity|].
  destruct (str_in a cols); [reflexivity | exact IH].
Qed.


Lemma found_as_in_source (cols : list string) (c : ColumnConfig.t) :
  str_in (ColumnConfig.name c) cols
  || match (if str_in (ColumnConfig.name c) cols then None
            else SchemaCheck.find_alias (ColumnConfig.aliases c) cols)
     with Some _ => true | None => false end
  = column_found cols c.
Proof.
  unfold column_found. destruct (str_in (ColumnConfig.name c) cols); [reflexivity|].
  simpl. apply find_alias_existsb.
Qed.

Lemma column_step_errors (cols : list string) (acc : Buckets) (c : ColumnConfig.t) :
  b_errors (SchemaCheck.column_step cols acc c)
  = b_errors acc ++ (if missing_required cols c then [missing_column_error c] else []).
Proof.
  unfold SchemaCheck.column_step. cbv zeta. rewrite found_as_in_source.
  unfold missing_required.
  destruct (column_found cols c), (ColumnConfig.required c); simpl;
    try (now rewrite app_nil_r);
    try reflexivity;
    destruct (truthy_str _); simpl; now rewrite app_nil_r.
Qed.

Lemma schema_fold_errors (cols : list string) (cs : list ColumnConfig.t) (acc : Buckets) :
  b_errors (fold_left (SchemaCheck.column_step cols) cs acc)
  = b_errors acc ++ map missing_column_error (List.filter (missing_required cols) cs).
Proof.
  revert acc. induction cs as [|c cs IH]; intros acc; simpl.
  - now rewrite app_nil_r.
  - rewrite IH, column_step_errors.
    destruct (missing_required cols c); simpl; [now rewrite <- app_assoc|].
    now rewrite app_nil_r.
Qed.



Lemma column_position_present (col : string) (cols : list string) :
  str_in col cols = true -> exists i, column_position col cols = Some i.
Proof.
  induction cols as [|c cols IH]; simpl; [discriminate|].
  destruct (String.eqb c col); [eauto|].
  intros Hin. destruct (IH Hin) as (i & ->). simpl. eauto.
Qed.

Lemma repeated_label_present (cols : list string) (col : string) :
  repeated_label cols col = true -> str_in col cols = true.
Proof.
  unfold repeated_label. intros Hrep. apply Nat.ltb_lt in Hrep.
  destruct (str_in col cols) eqn:Hin; [reflexivity|]. exfalso.
  assert (Hnone : List.filter (String.eqb col) cols = []).
  { clear Hrep. induction cols as [|c cols IH]; [reflexivity|]. simpl in *.
    rewrite String.eqb_sym.
    destruct (String.eqb c col); [discriminate|]. now apply IH. }
  rewrite Hnone in Hrep. simpl in Hrep. lia.
Qed.

Lemma repeated_label_NoDup (cols : list string) (col : string) :
  NoDup cols -> repeated_label cols col = false.
Proof.
  intros Hnodup. unfold repeated_label. apply Nat.ltb_ge.
  induction Hnodup as [|c cols Hnotin Hnodup IH]; simpl; [lia|].
  destruct (String.eqb_spec col c) as [->|Hne]; [|lia]. simpl.
  assert (Hnone : List.filter (String.eqb c) cols = []).
  { clear IH Hnodup. induction cols as [|x cols IH]; [reflexivity|]. simpl.
    destruct (String.eqb_spec c x) as [->|Hne].
    - exfalso. apply Hnotin. left.
    - apply IH. intros Hin. apply Hnotin. now right. }
  rewrite Hnone. simpl. lia.
Qed.

Context `{PyRuntime}.

Lemma type_step_outcome (df : DataFrame) (type_errors : list ValidationError.t)
    (c : ColumnConfig.t) :
  if repeated_label (df_columns df) (ColumnConfig.name c)
  then SchemaCheck.type_step df type_errors c
       = Raises (AttributeError "'DataFrame' object has no attribute 'dtype'")
  else exists type_errors', SchemaCheck.type_step df type_errors c = Returns type_errors'.
Proof.
  unfold SchemaCheck.type_step. cbv zeta.
  destruct (repeated_label (df_columns df) (ColumnConfig.name c)) eqn:Hrep.
  - pose proof (repeated_label_present _ _ Hrep) as Hin. rewrite Hin. cbn [negb].
    unfold SchemaCheck.df_dtype.
    destruct (column_position_present _ _ Hin) as (i & ->). now rewrite Hrep.
  - destruct (str_in (ColumnConfig.name c) (df_columns df)) eqn:Hin; cbn [negb]; [|eauto].
    unfold SchemaCheck.df_dtype.
    destruct (column_position_present _ _ Hin) as (i & ->). rewrite Hrep. simpl.
    destruct (negb _); eauto.
Qed.

Lemma check_types_fold_returns (df : DataFrame) (cs : list ColumnConfig.t)
    (type_errors : list ValidationError.t) :
  (forall c, In c cs -> repeated_label (df_columns df) (ColumnConfig.name c) = false) ->
  exists type_errors',
    Outcome_fold (SchemaCheck.type_step df) cs type_errors = Returns type_errors'.
Proof.
  revert type_errors. induction cs as [|c cs IH]; intros type_errors Hnone; simpl; [eauto|].
  pose proof (type_step_outcome df type_errors c) as Hstep.
  rewrite (Hnone c) in Hstep by now left. destruct Hstep as (t1 & ->). simpl.
  apply IH. intros c' Hc'. apply Hnone. now right.
Qed.

Lemma check_types_fold_raises (df : DataFrame) (cs : list ColumnConfig.t)
    (type_errors : list ValidationError.t) :
  (exists c, In c cs /\ repeated_label (df_columns df) (ColumnConfig.name c) = true) ->
  Outcome_fold (SchemaCheck.type_step df) cs type_errors
  = Raises (AttributeError "'DataFrame' object has no attribute 'dtype'").
Proof.
  revert type_errors. induction cs as [|c cs IH]; intros type_errors (c0 & Hin & Hrep);
    [destruct Hin|]. simpl.
  pose proof (type_step_outcome df type_errors c) as Hstep.
  destruct (repeated_label (df_columns df) (ColumnConfig.name c)) eqn:Hc.
  - now rewrite Hstep.
  - destruct Hstep as (t1 & ->). simpl. apply IH. exists c0. split; [|exact Hrep].
    destruct Hin as [->|Hin]; [congruence | exact Hin].
Qed.

Lemma run_on_returns_inv (df : DataFrame) (config : ManifestConfig.t)
    (r : ValidationResult.t) :
  SchemaCheck.run_on df config = Returns r ->
  exists (type_errors : list ValidationError.t) (undocumented : list Finding),
    ValidationResult.errors r
      = b_errors (fold_left (SchemaCheck.column_step (df_columns df))
                    (ManifestConfig.columns config) no_findings) /\
    ValidationResult.info r
      = b_info (fold_left (SchemaCheck.column_step (df_columns df))
                  (ManifestConfig.columns config) no_findings) ++ undocumented /\
    ValidationResult.passed r = (length (ValidationResult.errors r) =? 0).
Proof.
  unfold SchemaCheck.run_on. cbv zeta. intros Hr.
  apply Outcome_bind_returns in Hr. destruct Hr as (type_errors & _ & Hr).
  injection Hr as <-. exists type_errors.
  match goal with |- context [match ?u with [] => _ | _ :: _ => _ end] => destruct u end.
  - exists []. simpl. rewrite app_nil_r. repeat split.
  - eexists. simpl. repeat split.
Qed.
End Schema.

(** X10. [SchemaCheck.run] returns exactly when no configured column name
    is the label of more than one column of the dataset; for such a name
    [_check_column_types] reads [df[name].dtype] on a DataFrame and the
    check raises [AttributeError].  The errors of a result it returns are
    one BLOCKER finding for each required column that is found neither
    under its name nor under one of its aliases, in the order of the
    configuration, and nothing else: the result passed exactly when every
    required column is found, whatever the dtypes and the undeclared
    columns. *)
Theorem schema_passes_iff_required_columns_found `{PyRuntime} (df : DataFrame)
    (config : ManifestConfig.t) :
  ((forall c, In c (ManifestConfig.columns config) ->
              repeated_label (df_columns df) (ColumnConfig.name c) = false) ->
   exists r, SchemaCheck.run_on df config = Returns r) /\
  ((exists c, In c (ManifestConfig.columns config) /\
              repeated_label (df_columns df) (ColumnConfig.name c) = true) ->
   SchemaCheck.run_on df config
   = Raises (AttributeError "'DataFrame' object has no attribute 'dtype'")) /\
  (forall r,
     SchemaCheck.run_on df config = Returns r ->
     ValidationResult.errors r
       = map missing_column_error
           (List.filter (missing_required (df_columns df)) (ManifestConfig.columns config)) /\
     (ValidationResult.passed r = true <->
      forall c, In c (ManifestConfig.columns config) ->
                ColumnConfig.required c = true -> column_found (df_columns df) c = true)).
Proof.
  split; [|split].
  - intros Hnone. unfold SchemaCheck.run_on, SchemaCheck._check_column_types. cbv zeta.
    destruct (check_types_fold_returns df _ [] Hnone) as (type_errors & ->). simpl. eauto.
  - intros Hsome. unfold SchemaCheck.run_on, SchemaCheck._check_column_types. cbv zeta.
    now rewrite (check_types_fold_raises df _ [] Hsome).
  - intros r Hr.
    destruct (run_on_returns_inv df config r Hr) as (type_errors & more & Herr & _ & Hpassed).
    rewrite schema_fold_errors in Herr. simpl in Herr. split; [exact Herr|].
    rewrite Hpassed, Herr, length_map, Nat.eqb_eq, length_zero_iff_nil.
    split.
    + intros Hnil c Hin Hreq.
      destruct (column_found (df_columns df) c) eqn:Hfound; [reflexivity|].
      assert (Hc : In c (List.filter (missing_required (df_columns df))
                           (ManifestConfig.columns config))).
      { apply List.filter_In. split; [exact Hin|].
        unfold missing_required. now rewrite Hreq, Hfound. }
      rewrite Hnil in Hc. destruct Hc.
    + intros Hall.
      destruct (List.filter _ _) as [|c rest] eqn:Hf; [reflexivity|].
      assert (Hc : In c (List.filter (missing_required (df_columns df))
                           (ManifestConfig.columns config))) by (rewrite Hf; now left).
      apply List.filter_In in Hc. destruct Hc as [Hin Hmiss].
      unfold missing_required in Hmiss. apply andb_prop in Hmiss.
      destruct Hmiss as [Hreq Hnf].
      rewrite (Hall c Hin Hreq) in Hnf. discriminate.
Qed.


Section ResolveAliases.

Lemma rename_column_labels (df : DataFrame) (old new : string) (x : string) :
  In x (df_columns (rename_column df old new)) -> In x (df_columns df) \/ x = new.
Proof.
  unfold rename_column. simpl. intros Hx. apply in_map_iff in Hx.
  destruct Hx as (c & Hc & Hin). destruct (String.eqb c old); subst; auto.
Qed.

Lemma resolve_column_cases (df : DataFrame) (name : string) (aliases : list string) :
  resolve_column df name aliases = df \/
  exists alias, str_in name (df_columns df) = false /\
                resolve_column df name aliases = rename_column df alias name.
Proof.
  induction aliases as [|alias rest IH]; simpl; [now left|].
  destruct (str_in alias (df_columns df)); simpl; [|exact IH].
  destruct (str_in name (df_columns df)) eqn:Hn; simpl; [exact IH|].
  right. exists alias. split; reflexivity.
Qed.

Lemma resolve_aliases_keeps (cs : list ColumnConfig.t) (df : DataFrame) :
  let out := fold_left
               (fun df c => resolve_column df (ColumnConfig.name c) (ColumnConfig.aliases c))
               cs df in
  df_rows out = df_rows df /\
  df_dtypes out = df_dtypes df /\
  length (df_columns out) = length (df_columns df) /\
  (forall x, In x (df_columns out) ->
             In x (df_columns df) \/ exists c, In c cs /\ ColumnConfig.name c = x).
Proof.
  revert df. induction cs as [|c cs IH]; intros df; simpl.
  - repeat split; auto.
  - destruct (IH (resolve_column df (ColumnConfig.name c) (ColumnConfig.aliases c)))
      as (Hrows & Hdt & Hlen & Hlab).
    destruct (resolve_column_cases df (ColumnConfig.name c) (ColumnConfig.aliases c))
      as [Heq | (alias & _ & Heq)]; rewrite Heq in *.
    + repeat split; auto. intros x Hx.
      destruct (Hlab x Hx) as [|(c' & Hc' & Hn)]; [now left|]. right. exists c'. auto.
    + split; [exact Hrows|]. split; [exact Hdt|]. split.
      * rewrite Hlen. unfold rename_column. simpl. apply length_map.
      * intros x Hx. destruct (Hlab x Hx) as [Hin|(c' & Hc' & Hn)].
        -- apply rename_column_labels in Hin. destruct Hin as [Hin | ->]; [now left|].
           right. exists c. auto.
        -- right. exists c'. auto.
Qed.

Lemma str_in_In (x : string) (l : list string) : str_in x l = true <-> In x l.
Proof.
  induction l as [|y l IH]; simpl; [split; [discriminate | tauto]|].
  destruct (String.eqb_spec y x) as [->|Hne]; [tauto|].
  rewrite IH. split; [tauto|]. intros [Habs|Hin]; [congruence | exact Hin].
Qed.

Lemma resolve_column_present (df : DataFrame) (name : string) (aliases : list string) :
  str_in name (df_columns df) = true -> resolve_column df name aliases = df.
Proof.
  intros Hn. induction aliases as [|alias rest IH]; simpl; [reflexivity|].
  rewrite Hn. simpl. rewrite Bool.andb_false_r. exact IH.
Qed.
End ResolveAliases.

(** X12. [resolve_aliases] only relabels: the result has the rows, the
    dtypes and the number of columns of the dataset it was given, and every
    label of the result is a label of that dataset or the canonical name of
    a configured column.  A dataset in which every configured column is
    already present under its canonical name is returned as it is. *)
Theorem resolve_aliases_only_relabels (df : DataFrame) (config : ManifestConfig.t) :
  df_rows (resolve_aliases df config) = df_rows df /\
  df_dtypes (resolve_aliases df config) = df_dtypes df /\
  df_ncols (resolve_aliases df config) = df_ncols df /\
  df_len (resolve_aliases df config) = df_len df /\
  (forall x, In x (df_columns (resolve_aliases df config)) ->
     In x (df_columns df) \/
     exists c, In c (ManifestConfig.columns config) /\ ColumnConfig.name c = x) /\
  ((forall c, In c (ManifestConfig.columns config) ->
              In (ColumnConfig.name c) (df_columns df)) ->
   resolve_aliases df config = df).
Proof.
  destruct (resolve_aliases_keeps (ManifestConfig.columns config) df)
    as (Hrows & Hdt & Hlen & Hlab).
  unfold resolve_aliases, df_ncols, df_len.
  split; [exact Hrows|]. split; [exact Hdt|]. split; [exact Hlen|].
  split; [now rewrite Hrows|]. split; [exact Hlab|].
  intros Hall. induction (ManifestConfig.columns config) as [|c cs IH]; [reflexivity|].
  simpl. rewrite resolve_column_present.
  - apply IH.
    + apply (resolve_aliases_keeps cs df).
    + apply (resolve_aliases_keeps cs df).
    + apply (resolve_aliases_keeps cs df).
    + apply (resolve_aliases_keeps cs df).
    + intros c' Hc'. apply Hall. now right.
  - apply str_in_In. apply Hall. now left.
Qed.

(** ** The geospatial check *)

Section Geospatial.
Context `{RuleBodies}.

Lemma find_column_first (df : DataFrame) (candidates : list string) (c : string) :
  GeospatialCheck._find_column df candidates = Some c <->
  exists before after,
    candidates = before ++ c :: after /\
    str_in c (df_columns df) = true /\
    forall x, In x before -> str_in x (df_columns df) = false.
Proof.
  induction candidates as [|x rest IH]; simpl.
  - split; [discriminate|]. intros (before & after & Habs & _).
    destruct before; discriminate.
  - destruct (str_in x (df_columns df)) eqn:Hx.
    + split.
      * intros [= <-]. exists [], rest. repeat split; auto. intros y [].
      * intros (before & after & Hsplit & Hc & Hbefore).
        destruct before as [|y before]; simpl in Hsplit; injection Hsplit as -> _;
          [reflexivity|].
        rewrite (Hbefore y) in Hx by now left. discriminate.
    + rewrite IH. split.
      * intros (before & after & -> & Hc & Hbefore).
        exists (x :: before), after. repeat split; auto.
        intros y [<-|Hy]; [exact Hx | now apply Hbefore].
      * intros (before & after & Hsplit & Hc & Hbefore).
        destruct before as [|y before]; simpl in Hsplit; injection Hsplit as -> ->.
        -- rewrite Hc in Hx. discriminate.
        -- exists before, after. repeat split; auto.
           intros z Hz. apply Hbefore. now right.
Qed.

Lemma find_column_none (df : DataFrame) (candidates : list string) :
  GeospatialCheck._find_column df candidates = None <->
  forall x, In x candidates -> str_in x (df_columns df) = false.
Proof.
  induction candidates as [|x rest IH]; simpl.
  - split; [intros _ y [] | reflexivity].
  - destruct (str_in x (df_columns df)) eqn:Hx.
    + split; [discriminate|]. intros Hall. rewrite (Hall x) in Hx by now left. discriminate.
    + rewrite IH. split.
      * intros Hall y [<-|Hy]; [exact Hx | now apply Hall].
      * intros Hall y Hy. apply Hall. now right.
Qed.
End Geospatial.

(** X13. [_find_column] returns the first candidate, in the order given,
    that is a label of the dataset, and [None] exactly when no candidate
    is one. *)
Theorem find_column_returns_first_candidate (df : DataFrame) (candidates : list string) :
  (forall c,
     GeospatialCheck._find_column df candidates = Some c <->
     exists before after,
       candidates = before ++ c :: after /\
       str_in c (df_columns df) = true /\
       forall x, In x before -> str_in x (df_columns df) = false) /\
  (GeospatialCheck._find_column df candidates = None <->
   forall x, In x candidates -> str_in x (df_columns df) = false).
Proof.
  split; [intros c; apply find_column_first | apply find_column_none].
Qed.

(** X14. Without a latitude or without a longitude column under the names
    it knows, [GeospatialCheck.run] returns a result that passed, with one
    INFO finding, whatever the configuration, and leaves the world alone.
    With both columns and a geospatial section in the configuration it
    raises [AttributeError] before any rule runs: [_get_bounds] reads
    [config.geo_config.bounds], an attribute [GeoConfig] does not have. *)
Theorem geospatial_without_columns_or_with_section `{RuleBodies}
    (config : ManifestConfig.t) (w : World) :
  ((forall x, In x lat_candidates -> str_in x (df_columns (w_df w)) = false) \/
   (forall x, In x lon_candidates -> str_in x (df_columns (w_df w)) = false) ->
   GeospatialCheck.run config w = (Returns no_coordinates_result, w)) /\
  (forall geo lat lon,
     ManifestConfig.geospatial config = Some geo ->
     In lat lat_candidates -> str_in lat (df_columns (w_df w)) = true ->
     In lon lon_candidates -> str_in lon (df_columns (w_df w)) = true ->
     GeospatialCheck.run config w
       = (Raises (AttributeError "'GeoConfig' object has no attribute 'bounds'"), w)).
Proof.
  split.
  - intros Hnone. unfold GeospatialCheck.run, Py_bind, read_df. cbv zeta beta.
    fold lat_candidates lon_candidates.
    destruct Hnone as [Hlat|Hlon].
    + apply find_column_none in Hlat. rewrite Hlat. reflexivity.
    + apply find_column_none in Hlon. rewrite Hlon. simpl.
      rewrite Bool.orb_true_r. reflexivity.
  - intros geo lat lon Hgeo Hlat Hlatin Hlon Hlonin.
    assert (Hfl : exists c, GeospatialCheck._find_column (w_df w) lat_candidates = Some c
                            /\ c <> EmptyString).
    { destruct (GeospatialCheck._find_column (w_df w) lat_candidates) as [c|] eqn:Hf.
      - exists c. split; [reflexivity|].
        apply find_column_first in Hf. destruct Hf as (b & a & Hsplit & _ & _).
        assert (Hc : In c lat_candidates) by (rewrite Hsplit; apply in_elt).
        simpl in Hc. intuition (subst; discriminate).
      - rewrite find_column_none in Hf. rewrite (Hf lat Hlat) in Hlatin. discriminate. }
    assert (Hfn : exists c, GeospatialCheck._find_column (w_df w) lon_candidates = Some c
                            /\ c <> EmptyString).
    { destruct (GeospatialCheck._find_column (w_df w) lon_candidates) as [c|] eqn:Hf.
      - exists c. split; [reflexivity|].
        apply find_column_first in Hf. destruct Hf as (b & a & Hsplit & _ & _).
        assert (Hc : In c lon_candidates) by (rewrite Hsplit; apply in_elt).
        simpl in Hc. intuition (subst; discriminate).
      - rewrite find_column_none in Hf. rewrite (Hf lon Hlon) in Hlonin. discriminate. }
    destruct Hfl as (cl & Hcl & Hnel). destruct Hfn as (cn & Hcn & Hnen).
    unfold GeospatialCheck.run, Py_bind, read_df. cbv zeta beta.
    fold lat_candidates lon_candidates. rewrite Hcl, Hcn.
    destruct cl as [|? ?]; [congruence|]. destruct cn as [|? ?]; [congruence|].
    simpl. unfold GeospatialCheck._get_bounds, ManifestConfig.geo_config.
    rewrite Hgeo. reflexivity.
Qed.

(** ** The constraints check, further *)

Section Missingness.
Context `{PyRuntime}.

Lemma column_position_In (col : string) (cols : list string) :
  In col cols -> exists i, column_position col cols = Some i.
Proof.
  induction cols as [|c cols IH]; simpl; [tauto|].
  destruct (String.eqb_spec c col) as [->|Hne]; [eauto|].
  intros [Habs|Hin]; [congruence|]. destruct (IH Hin) as (i & ->). simpl. eauto.
Qed.

Lemma null_rate_at_most_one (count n : nat) :
  count <= n ->
  Qle_bool (if 0 <? n then (Z.of_nat count # Pos.of_nat n)%Q else 0%Q) 1 = true.
Proof.
  intros Hle. destruct (0 <? n) eqn:Hn; [|reflexivity].
  apply Nat.ltb_lt in Hn. unfold Qle_bool. simpl.
  apply Z.leb_le. rewrite Z.mul_1_r.
  assert (Hpos : Z.pos (Pos.of_nat n) = Z.of_nat n).
  { rewrite <- positive_nat_Z. rewrite Nat2Pos.id by lia. reflexivity. }
  destruct (Pos.of_nat n) eqn:Hp; lia.
Qed.

Lemma missingness_step_silent (df : DataFrame) (config : ManifestConfig.t)
    (cols : list string) (acc : Buckets) :
  (forall col, In col cols -> In col (df_columns df)) ->
  (forall col, In col cols -> dict_lookup (ManifestConfig.missingness config) col = None) ->
  Outcome_fold
    (fun (result : Buckets) (col : string) =>
       items <- df_items df col ;;
       let null_count :=
         length (filter (fun it : Z * PyVal => pd_isna (snd it) = true) items) in
       let null_rate :=
         if 0 <? df_len df
         then (Z.of_nat null_count # Pos.of_nat (df_len df))%Q
         else 0%Q in
       let miss_config := dict_get (ManifestConfig.missingness config) col [] in
       let max_rate := dict_get miss_config "max_null_rate" (PFloat 1%Q) in
       let severity := dict_get miss_config "severity" (PStr "INFO") in
       exceeded <- float_gt null_rate max_rate ;;
       if exceeded then
         known <- ConstraintsCheck.in_members severity ;;
         sev_enum <-
           (if known then
              match Severity_getitem (py_str severity) with
              | Returns s => Returns s
              | Raises _ => Returns INFO
              end
            else Returns INFO) ;;
         let error :=
           BaseCheck.create_error ConstraintsCheck.name sev_enum
             ("'" +:+ col +:+ "' tem " +:+ format_percent null_rate 1
                +:+ " nulos (máximo: " +:+ format_percent (as_number max_rate) 1 +:+ ")")
             None (Some col) None None
             (Some [("null_count", PInt (Z.of_nat null_count));
                    ("null_rate", if 0 <? df_len df then PFloat null_rate else PInt 0);
                    ("max_rate", max_rate)]) in
         if ConstraintsCheck.is_str severity "BLOCKER"
         then Returns (extend_errors result [FError error])
         else if ConstraintsCheck.is_str severity "MAJOR"
         then Returns (extend_errors result [FError error])
         else if ConstraintsCheck.is_str severity "MINOR"
         then Returns (extend_warnings result [FError error])
         else Returns (extend_info result [FError error])
       else Returns result)
    cols acc = Returns acc.
Proof.
  intros Hin Hnone. revert acc. induction cols as [|col cols IH]; intros acc; [reflexivity|].
  cbn [Outcome_fold].
  destruct (column_position_In col (df_columns df)) as (i & Hi); [apply Hin; now left|].
  unfold df_items at 1. rewrite Hi. cbn [Outcome_bind]. cbv zeta.
  assert (Hmc : dict_get (ManifestConfig.missingness config) col
                  ([] : list (string * PyVal)) = [])
    by (unfold dict_get; rewrite (Hnone col) by (now left); reflexivity).
  rewrite !Hmc. cbn [dict_get dict_lookup float_gt].
  rewrite null_rate_at_most_one.
  - cbn [negb Outcome_bind]. apply IH.
    + intros c Hc. apply Hin. now right.
    + intros c Hc. apply Hnone. now right.
  - etransitivity; [apply length_filter|]. rewrite length_map. reflexivity.
Qed.
End Missingness.

(** X15. Without a threshold nothing is reported: when no column of the
    dataset has an entry in the missingness section of the configuration,
    [_check_missingness] returns three empty lists, whatever the cells
    hold, because a rate of nulls is never above the default maximum of
    1.0. *)
Theorem missingness_without_thresholds_is_silent `{PyRuntime} (df : DataFrame)
    (config : ManifestConfig.t) :
  NoDup (df_columns df) ->
  (forall col, In col (df_columns df) ->
               dict_lookup (ManifestConfig.missingness config) col = None) ->
  ConstraintsCheck._check_missingness df config = Returns no_findings.
Proof.
  intros _ Hnone. unfold ConstraintsCheck._check_missingness. cbv zeta.
  apply missingness_step_silent; [auto | exact Hnone].
Qed.

Section Routing.
Context `{PyRuntime}.

Lemma Outcome_fold_invariant {A S : Type} (P : S -> Prop) (body : S -> A -> Outcome S)
    (xs : list A) (s s' : S) :
  (forall s x s1, P s -> body s x = Returns s1 -> P s1) ->
  P s -> Outcome_fold body xs s = Returns s' -> P s'.
Proof.
  intros Hbody. revert s. induction xs as [|x xs IH]; intros s Hs Hf; simpl in Hf.
  - injection Hf as <-. exact Hs.
  - apply Outcome_bind_returns in Hf. destruct Hf as (s1 & H1 & Hf).
    exact (IH s1 (Hbody s x s1 Hs H1) Hf).
Qed.

Lemma Severity_getitem_inv (name : string) (s : Severity) :
  Severity_getitem name = Returns s -> Severity_value s = name.
Proof.
  unfold Severity_getitem, Severity_members. cbn [dict_lookup].
  destruct (String.eqb_spec "BLOCKER" name) as [<-|_]; [intros [= <-]; reflexivity|].
  destruct (String.eqb_spec "MAJOR" name) as [<-|_]; [intros [= <-]; reflexivity|].
  destruct (String.eqb_spec "MINOR" name) as [<-|_]; [intros [= <-]; reflexivity|].
  destruct (String.eqb_spec "INFO" name) as [<-|_]; [intros [= <-]; reflexivity|].
  intros Habs. discriminate Habs.
Qed.

Lemma routed_none : routed_buckets no_findings.
Proof. repeat split; constructor. Qed.

Lemma routed_extend_all (a b : Buckets) :
  routed_buckets a -> routed_buckets b -> routed_buckets (extend_all a b).
Proof.
  intros (Ha1 & Ha2 & Ha3) (Hb1 & Hb2 & Hb3).
  repeat split; simpl; apply Forall_app; auto.
Qed.

Lemma routed_extend_errors (a : Buckets) (fs : list Finding) :
  routed_buckets a -> Forall (severity_among [BLOCKER; MAJOR]) fs ->
  routed_buckets (extend_errors a fs).
Proof. intros (Ha1 & Ha2 & Ha3) Hfs. repeat split; simpl; auto. apply Forall_app; auto. Qed.

Lemma routed_extend_warnings (a : Buckets) (fs : list Finding) :
  routed_buckets a -> Forall (severity_among [MINOR; INFO]) fs ->
  routed_buckets (extend_warnings a fs).
Proof. intros (Ha1 & Ha2 & Ha3) Hfs. repeat split; simpl; auto. apply Forall_app; auto. Qed.

Lemma routed_extend_info (a : Buckets) (fs : list Finding) :
  routed_buckets a -> Forall (severity_among [INFO]) fs ->
  routed_buckets (extend_info a fs).
Proof. intros (Ha1 & Ha2 & Ha3) Hfs. repeat split; simpl; auto. apply Forall_app; auto. Qed.

Lemma one_finding_among (allowed : list Severity) (e : ValidationError.t) :
  In (ValidationError.severity e) allowed -> Forall (severity_among allowed) [FError e].
Proof. intros Hin. constructor; [|constructor]. exists e. auto. Qed.

Lemma validate_cnes_routed (df : DataFrame) (config : ManifestConfig.t) (b : Buckets) :
  ConstraintsCheck._validate_cnes df config = Returns b -> routed_buckets b.
Proof.
  unfold ConstraintsCheck._validate_cnes. cbv zeta. intros Hr.
  apply Outcome_bind_returns in Hr. destruct Hr as (items & _ & Hr).
  apply Outcome_bind_returns in Hr. destruct Hr as (scan & _ & Hr).
  apply Outcome_bind_returns in Hr. destruct Hr as (result & Hres & Hr).
  assert (Hresult : routed_buckets result).
  { destruct (fst scan) as [|i invalid].
    - injection Hres as <-. apply routed_none.
    - apply Outcome_bind_returns in Hres. destruct Hres as (sample & _ & Hres).
      destruct (ConstraintsCheck.cnes_severity _) eqn:Hsev; simpl in Hres;
        injection Hres as <-;
        first [ apply routed_extend_errors | apply routed_extend_warnings ];
        try apply routed_none; apply one_finding_among; simpl; auto. }
  destruct (snd scan) as [|i special]; injection Hr as <-; [exact Hresult|].
  apply routed_extend_info; [exact Hresult|]. apply one_finding_among. simpl. auto.
Qed.

Lemma validate_telefone_routed (df : DataFrame) (config : ManifestConfig.t) (b : Buckets) :
  ConstraintsCheck._validate_telefone df config = Returns b ->
  routed_buckets b /\ b_errors b = [].
Proof.
  unfold ConstraintsCheck._validate_telefone. cbv zeta. intros Hr.
  apply Outcome_bind_returns in Hr. destruct Hr as (items & _ & Hr).
  apply Outcome_bind_returns in Hr. destruct Hr as (scan & _ & Hr).
  apply Outcome_bind_returns in Hr. destruct Hr as (result & Hres & Hr).
  assert (Hresult : routed_buckets result /\ b_errors result = []).
  { destruct (fst scan) as [|i invalid].
    - injection Hres as <-. split; [apply routed_none | reflexivity].
    - apply Outcome_bind_returns in Hres. destruct Hres as (sample & _ & Hres).
      injection Hres as <-. split; [|reflexivity].
      apply routed_extend_warnings; [apply routed_none|].
      apply one_finding_among. simpl. auto. }
  destruct Hresult as [Hrouted Herr].
  destruct (snd scan) as [|i empty]; injection Hr as <-; [split; assumption|].
  split; [|exact Herr].
  apply routed_extend_info; [exact Hrouted|]. apply one_finding_among. simpl. auto.
Qed.

Lemma validate_pattern_severity (df : DataFrame) (col_name : string)
    (constraint : ConstraintConfig.t) (errors : list ValidationError.t) :
  ConstraintsCheck._validate_pattern df col_name constraint = Returns errors ->
  forall e, In e errors ->
    Severity_value (ValidationError.severity e) = ConstraintConfig.severity constraint.
Proof.
  unfold ConstraintsCheck._validate_pattern. intros Hr.
  apply Outcome_bind_returns in Hr. destruct Hr as (items & _ & Hr).
  apply Outcome_bind_returns in Hr. destruct Hr as (invalid & _ & Hr).
  destruct invalid as [|i invalid].
  - injection Hr as <-. intros e [].
  - apply Outcome_bind_returns in Hr. destruct Hr as (s & Hs & Hr).
    injection Hr as <-. intros e [<-|[]]. simpl. now apply Severity_getitem_inv.
Qed.

Lemma severity_by_name (e : ValidationError.t) (name : string) (s : Severity) :
  Severity_value (ValidationError.severity e) = name ->
  Severity_value s = name -> ValidationError.severity e = s.
Proof.
  intros H1 H2. destruct (ValidationError.severity e), s; simpl in *; subst;
    first [reflexivity | discriminate].
Qed.

Lemma pattern_step_routed (df : DataFrame) (acc acc' : Buckets)
    (item : string * ConstraintConfig.t) :
  routed_buckets acc ->
  ConstraintsCheck.pattern_step df acc item = Returns acc' ->
  routed_buckets acc'.
Proof.
  intros Hacc. unfold ConstraintsCheck.pattern_step. cbv zeta.
  destruct (str_in (fst item) ["CNES"; "Telefone"]); [intros [= <-]; exact Hacc|].
  destruct (str_in (fst item) (df_columns df) && _); [|intros [= <-]; exact Hacc].
  intros Hr. apply Outcome_bind_returns in Hr. destruct Hr as (errors & Hp & Hr).
  pose proof (validate_pattern_severity _ _ _ _ Hp) as Hsev.
  assert (Hall : forall s allowed,
            Severity_value s = ConstraintConfig.severity (snd item) ->
            In s allowed -> Forall (severity_among allowed) (map FError errors)).
  { intros s allowed Hs Hin. apply Forall_forall. intros f Hf.
    apply list_elem_of_In, in_map_iff in Hf. destruct Hf as (e & <- & He).
    exists e. split; [reflexivity|].
    rewrite (severity_by_name e _ s (Hsev e He) Hs). exact Hin. }
  destruct (String.eqb_spec (ConstraintConfig.severity (snd item)) "BLOCKER") as [Hb|Hnb].
  { injection Hr as <-. apply routed_extend_errors; [exact Hacc|].
    apply (Hall BLOCKER); simpl; auto. }
  destruct (String.eqb_spec (ConstraintConfig.severity (snd item)) "MAJOR") as [Hm|Hnm].
  { injection Hr as <-. apply routed_extend_errors; [exact Hacc|].
    apply (Hall MAJOR); simpl; auto. }
  destruct (String.eqb_spec (ConstraintConfig.severity (snd item)) "MINOR") as [Hi|Hni].
  { injection Hr as <-. apply routed_extend_warnings; [exact Hacc|].
    apply (Hall MINOR); simpl; auto. }
  injection Hr as <-. apply routed_extend_info; [exact Hacc|].
  apply Forall_forall. intros f Hf.
  apply list_elem_of_In, in_map_iff in Hf. destruct Hf as (e & <- & He).
  exists e. split; [reflexivity|]. specialize (Hsev e He).
  destruct (ValidationError.severity e); simpl in *; auto; congruence.
Qed.

Lemma is_str_true (v : PyVal) (s : string) :
  ConstraintsCheck.is_str v s = true -> v = PStr s.
Proof.
  destruct v; simpl; try discriminate.
  intros Heq. apply String.eqb_eq in Heq. now subst.
Qed.

Lemma missingness_severity (severity : PyVal) (known : bool) (sev_enum : Severity) :
  ConstraintsCheck.in_members severity = Returns known ->
  (if known then
     match Severity_getitem (py_str severity) with
     | Returns s => Returns s
     | Raises _ => Returns INFO
     end
   else Returns INFO) = Returns sev_enum ->
  (forall s, severity = PStr (Severity_value s) -> sev_enum = s) /\
  ((forall s, severity <> PStr (Severity_value s)) -> sev_enum = INFO).
Proof.
  intros Hknown Hsev. split.
  - intros s ->. simpl in Hknown. destruct s; injection Hknown as <-;
      simpl in Hsev; injection Hsev as <-; reflexivity.
  - intros Hnot. destruct known; [|now injection Hsev as <-].
    destruct (Severity_getitem (py_str severity)) as [s|e] eqn:Hg;
      [|now injection Hsev as <-].
    injection Hsev as <-. apply Severity_getitem_inv in Hg.
    destruct severity; simpl in Hknown; try discriminate.
    simpl in Hg. exfalso. apply (Hnot s). now rewrite Hg.
Qed.

Lemma names_a_severity (v : PyVal) :
  (exists s, v = PStr (Severity_value s)) \/ (forall s, v <> PStr (Severity_value s)).
Proof.
  destruct v as [| | | | |name| | |]; try (right; intros s; discriminate).
  destruct (String.eqb_spec name "BLOCKER") as [->|Hb]; [left; now exists BLOCKER|].
  destruct (String.eqb_spec name "MAJOR") as [->|Hm]; [left; now exists MAJOR|].
  destruct (String.eqb_spec name "MINOR") as [->|Hi]; [left; now exists MINOR|].
  destruct (String.eqb_spec name "INFO") as [->|Hn]; [left; now exists INFO|].
  right. intros s [= ->]. destruct s; simpl in *; congruence.
Qed.

Lemma check_missingness_routed (df : DataFrame) (config : ManifestConfig.t) (b : Buckets) :
  ConstraintsCheck._check_missingness df config = Returns b -> routed_buckets b.
Proof.
  unfold ConstraintsCheck._check_missingness. cbv zeta.
  apply Outcome_fold_invariant; [|apply routed_none].
  intros result col result' Hres Hstep.
  apply Outcome_bind_returns in Hstep. destruct Hstep as (items & _ & Hstep).
  apply Outcome_bind_returns in Hstep. destruct Hstep as (exceeded & _ & Hstep).
  destruct exceeded; [|injection Hstep as <-; exact Hres].
  apply Outcome_bind_returns in Hstep. destruct Hstep as (known & Hknown & Hstep).
  apply Outcome_bind_returns in Hstep. destruct Hstep as (sev_enum & Hsev & Hstep).
  destruct (missingness_severity _ _ _ Hknown Hsev) as [Hnamed Hother].
  match type of Hstep with
  | context [ConstraintsCheck.is_str ?v "BLOCKER"] => set (severity := v) in *
  end.
  clearbody severity.
  destruct (ConstraintsCheck.is_str severity "BLOCKER") eqn:Hb.
  { apply is_str_true in Hb. injection Hstep as <-.
    apply routed_extend_errors; [exact Hres|]. apply one_finding_among.
    simpl. rewrite (Hnamed BLOCKER Hb). auto. }
  destruct (ConstraintsCheck.is_str severity "MAJOR") eqn:Hm.
  { apply is_str_true in Hm. injection Hstep as <-.
    apply routed_extend_errors; [exact Hres|]. apply one_finding_among.
    simpl. rewrite (Hnamed MAJOR Hm). auto. }
  destruct (ConstraintsCheck.is_str severity "MINOR") eqn:Hi.
  { apply is_str_true in Hi. injection Hstep as <-.
    apply routed_extend_warnings; [exact Hres|]. apply one_finding_among.
    simpl. rewrite (Hnamed MINOR Hi). auto. }
  injection Hstep as <-. apply routed_extend_info; [exact Hres|].
  apply one_finding_among. simpl. left.
  destruct (names_a_severity severity) as [(s & Hs)|Hnone].
  - rewrite (Hnamed s Hs). rewrite Hs in Hb, Hm, Hi.
    destruct s; simpl in *; first [reflexivity | discriminate].
  - symmetry. now apply Hother.
Qed.
End Routing.

(** X16. Whatever the manifest and the dataset, a result returned by the
    constraints check keeps its three lists apart by severity: [errors]
    holds BLOCKER and MAJOR findings only, [warnings] MINOR and INFO
    findings only, [info] INFO findings only; and its category is
    [constraints]. *)
Theorem constraints_findings_are_routed `{PyRuntime} (df : DataFrame)
    (config : ManifestConfig.t) (r : ValidationResult.t) :
  ConstraintsCheck.run_on df config = Returns r ->
  routed (ValidationResult.errors r) (ValidationResult.warnings r)
         (ValidationResult.info r) /\
  ValidationResult.category r = "constraints".
Proof.
  unfold ConstraintsCheck.run_on. cbv zeta. intros Hr.
  apply Outcome_bind_returns in Hr. destruct Hr as (acc1 & H1 & Hr).
  apply Outcome_bind_returns in Hr. destruct Hr as (acc2 & H2 & Hr).
  apply Outcome_bind_returns in Hr. destruct Hr as (acc3 & H3 & Hr).
  apply Outcome_bind_returns in Hr. destruct Hr as (miss & H4 & Hr).
  injection Hr as <-. split; [|reflexivity].
  change (routed_buckets (extend_all acc3 miss)).
  apply routed_extend_all; [|exact (check_missingness_routed _ _ _ H4)].
  refine (Outcome_fold_invariant routed_buckets _ _ _ _ _ _ H3).
  { intros s x s1. apply pattern_step_routed. }
  assert (Hacc1 : routed_buckets acc1).
  { destruct (str_in "CNES" (df_columns df)).
    - apply Outcome_bind_returns in H1. destruct H1 as (cnes & Hc & H1).
      injection H1 as <-. apply routed_extend_all; [apply routed_none|].
      exact (validate_cnes_routed _ _ _ Hc).
    - injection H1 as <-. apply routed_none. }
  destruct (str_in "Telefone" (df_columns df)).
  - apply Outcome_bind_returns in H2. destruct H2 as (tel & Ht & H2).
    injection H2 as <-.
    destruct (validate_telefone_routed _ _ _ Ht) as [(_ & Hw & Hi) _].
    apply routed_extend_info; [apply routed_extend_warnings|]; assumption.
  - injection H2 as <-. exact Hacc1.
Qed.

Lemma constraints_findings_are_routed_witness :
  exists r,
    @ConstraintsCheck.run_on sample_runtime contacts_frame plain_config = Returns r /\
    length (ValidationResult.errors r) = 1 /\
    length (ValidationResult.warnings r) = 1 /\
    length (ValidationResult.info r) = 1 /\
    routed (ValidationResult.errors r) (ValidationResult.warnings r)
           (ValidationResult.info r).
Proof.
  destruct (@ConstraintsCheck.run_on sample_runtime contacts_frame plain_config)
    as [r|e] eqn:Hrun; [|vm_compute in Hrun; discriminate Hrun].
  exists r. split; [reflexivity|].
  pose proof (@constraints_findings_are_routed sample_runtime _ _ _ Hrun) as [Hrouted _].
  vm_compute in Hrun. injection Hrun as <-.
  split; [reflexivity|]. split; [reflexivity|]. split; [reflexivity|]. exact Hrouted.
Defined.

Section Telephones.
Context `{PyRuntime}.

Lemma telefone_scan_spec (config : ManifestConfig.t) (items : list (Z * PyVal))
    (acc scan : list Z * list Z) :
  Outcome_fold
    (fun (acc : list Z * list Z) (item : Z * PyVal) =>
       if pd_isna (snd item) || String.eqb (py_strip (py_str (snd item))) EmptyString
       then Returns (fst acc, snd acc ++ [fst item])
       else
         if str_in (py_strip (py_str (snd item))) (telefone_special_values config)
         then Returns acc
         else
           m <- match_pattern (telefone_pattern config) (py_strip (py_str (snd item))) ;;
           Returns (if m then acc else (fst acc ++ [fst item], snd acc)))
    items acc = Returns scan ->
  fst scan = fst acc ++ map fst (cells_where (telefone_invalid_cell config) items) /\
  snd scan = snd acc ++ map fst (cells_where telefone_empty_cell items).
Proof.
  revert acc. induction items as [|item items IH]; intros acc Hfold;
    cbn [Outcome_fold] in Hfold.
  - injection Hfold as <-. unfold cells_where. cbn [List.filter map].
    now rewrite !app_nil_r.
  - apply Outcome_bind_returns in Hfold. destruct Hfold as (acc1 & Hstep & Hfold).
    apply IH in Hfold. destruct Hfold as [Hinvalid Hempty].
    rewrite Hinvalid, Hempty. clear IH Hinvalid Hempty.
    unfold cells_where. cbn [List.filter].
    unfold telefone_invalid_cell, telefone_empty_cell, no_match.
    cbv beta in Hstep.
    destruct (pd_isna (snd item) || String.eqb (py_strip (py_str (snd item))) EmptyString);
      cbn [negb andb map fst].
    { injection Hstep as <-. cbn [fst snd].
      split; [reflexivity | now rewrite <- app_assoc]. }
    destruct (str_in (py_strip (py_str (snd item))) (telefone_special_values config));
      cbn [negb andb].
    { injection Hstep as <-. split; reflexivity. }
    apply Outcome_bind_returns in Hstep. destruct Hstep as (m & Hm & Hstep).
    injection Hstep as <-. rewrite Hm.
    destruct m; cbn [map fst snd]; split; try reflexivity. now rewrite <- app_assoc.
Qed.

Lemma pattern_scan_spec (constraint : ConstraintConfig.t) (items : list (Z * PyVal))
    (acc invalid : list Z) :
  Outcome_fold
    (fun (invalid_indices : list Z) (item : Z * PyVal) =>
       if pd_isna (snd item) then
         Returns (if ConstraintConfig.allow_empty constraint then invalid_indices
                  else invalid_indices ++ [fst item])
       else
         m <- match_pattern (ConstraintConfig.pattern constraint)
                (pattern_text constraint (snd item)) ;;
         Returns (if m then invalid_indices else invalid_indices ++ [fst item]))
    items acc = Returns invalid ->
  invalid = acc ++ map fst (cells_where (pattern_invalid_cell constraint) items).
Proof.
  revert acc. induction items as [|item items IH]; intros acc Hfold;
    cbn [Outcome_fold] in Hfold.
  - injection Hfold as <-. unfold cells_where. cbn [List.filter map].
    now rewrite app_nil_r.
  - apply Outcome_bind_returns in Hfold. destruct Hfold as (acc1 & Hstep & Hfold).
    apply IH in Hfold. rewrite Hfold. clear IH Hfold.
    unfold cells_where. cbn [List.filter].
    unfold pattern_invalid_cell, no_match. cbv beta in Hstep.
    destruct (pd_isna (snd item)).
    { injection Hstep as <-.
      destruct (ConstraintConfig.allow_empty constraint); cbn [negb map fst];
        [reflexivity | now rewrite <- app_assoc]. }
    apply Outcome_bind_returns in Hstep. destruct Hstep as (m & Hm & Hstep).
    injection Hstep as <-. rewrite Hm.
    destruct m; cbn [map fst]; [reflexivity | now rewrite <- app_assoc].
Qed.
End Telephones.

(** X17. What [_validate_telefone] and [_validate_pattern] report, for a
    dataset whose column labels and index labels are distinct.  [_validate_telefone] never
    returns an error.  Its warnings are nothing when no telephone is
    malformed (not empty, no special value, no match of the pattern) and
    otherwise one MINOR finding on [Telefone] that lists the first 30
    malformed rows in the order of the dataset, prints the number of all
    of them, and keeps the texts of the first five under [sample_invalid];
    its info is nothing when no telephone is empty and otherwise one INFO
    finding that lists the first 20 empty rows and prints their number.
    [_validate_pattern] returns nothing when no cell fails the constraint
    and otherwise one finding of the check, of the severity the constraint
    names, on the column it was given, that lists the first 50 failing
    rows, prints the number of all of them and keeps the pattern in its
    details. *)
Theorem telefone_and_pattern_findings `{PyRuntime} :
  (forall df config b,
     NoDup (df_columns df) ->
     NoDup (map fst (df_rows df)) ->
     ConstraintsCheck._validate_telefone df config = Returns b ->
     let invalid := cells_where (telefone_invalid_cell config) (column_cells df "Telefone") in
     let empty := cells_where telefone_empty_cell (column_cells df "Telefone") in
     b_errors b = [] /\
     reports (b_warnings b) (map fst invalid) 30
       (fun n => "Telefones com formato inválido (" +:+ str_of_nat n +:+ " registros)")
       (Some "Telefone")
       (Some [("sample_invalid", PList (texts (firstn 5 invalid)))]) /\
     Forall (severity_among [MINOR]) (b_warnings b) /\
     reports (b_info b) (map fst empty) 20
       (fun n => "Telefones vazios/nulos (" +:+ str_of_nat n +:+ " registros)")
       (Some "Telefone") None /\
     Forall (severity_among [INFO]) (b_info b)) /\
  (forall df col_name constraint errors,
     NoDup (df_columns df) ->
     ConstraintsCheck._validate_pattern df col_name constraint = Returns errors ->
     let invalid := cells_where (pattern_invalid_cell constraint) (column_cells df col_name) in
     reports (map FError errors) (map fst invalid) 50
       (fun n => "'" +:+ col_name +:+ "' com formato inválido (" +:+ str_of_nat n
                   +:+ " registros)")
       (Some col_name) (Some [("pattern", pattern_value constraint)]) /\
     forall e, In e errors ->
       Severity_getitem (ConstraintConfig.severity constraint)
         = Returns (ValidationError.severity e) /\
       ValidationError.category e = "constraints").
Proof.
  split.
  - intros df config b _ Hnodup. unfold ConstraintsCheck._validate_telefone. cbv zeta.
    intros Hr.
    apply Outcome_bind_returns in Hr. destruct Hr as (items & Hitems & Hr).
    apply Outcome_bind_returns in Hr. destruct Hr as (scan & Hscan & Hr).
    apply Outcome_bind_returns in Hr. destruct Hr as (result & Hres & Hr).
    rewrite (column_cells_items df "Telefone" items Hitems).
    pose proof (telefone_scan_spec config items ([], []) scan Hscan) as [Hinvalid Hempty].
    cbn [fst snd app] in Hinvalid, Hempty. rewrite Hinvalid in Hres. rewrite Hempty in Hr.
    clear Hscan Hinvalid Hempty.
    set (invalid := cells_where (telefone_invalid_cell config) items) in *.
    set (empty := cells_where telefone_empty_cell items) in *.
    assert (Hresult :
      b_errors result = [] /\
      reports (b_warnings result) (map fst invalid) 30
        (fun n => "Telefones com formato inválido (" +:+ str_of_nat n +:+ " registros)")
        (Some "Telefone")
        (Some [("sample_invalid", PList (texts (firstn 5 invalid)))]) /\
      Forall (severity_among [MINOR]) (b_warnings result) /\
      b_info result = []).
    { unfold reports. destruct (map fst invalid) as [|i labels] eqn:Hlabels.
      - injection Hres as <-. repeat split. constructor.
      - apply Outcome_bind_returns in Hres. destruct Hres as (sample & Hsample & Hres).
        rewrite <- Hlabels, firstn_map in Hsample.
        rewrite (sample_texts df "Telefone" items (firstn 5 invalid) Hnodup Hitems)
          in Hsample by (intros it; apply firstn_cells_where).
        injection Hsample as <-. injection Hres as <-.
        split; [reflexivity|]. split; [eexists; repeat split|].
        split; [|reflexivity]. apply one_finding_among. left. reflexivity. }
    destruct Hresult as (Herrors & Hwarnings & Hminor & Hinfo).
    unfold reports at 2. destruct (map fst empty) as [|i labels] eqn:Hlabels;
      injection Hr as <-.
    + rewrite Hinfo. repeat split; try assumption. constructor.
    + cbn [extend_info b_errors b_warnings b_info]. rewrite Hinfo.
      split; [exact Herrors|]. split; [exact Hwarnings|]. split; [exact Hminor|].
      split; [eexists; repeat split|]. apply one_finding_among. left. reflexivity.
  - intros df col_name constraint errors _.
    unfold ConstraintsCheck._validate_pattern. intros Hr.
    apply Outcome_bind_returns in Hr. destruct Hr as (items & Hitems & Hr).
    apply Outcome_bind_returns in Hr. destruct Hr as (invalid & Hscan & Hr).
    cbv zeta. rewrite (column_cells_items df col_name items Hitems).
    apply (pattern_scan_spec constraint items [] invalid) in Hscan.
    cbn [app] in Hscan. subst invalid.
    unfold reports.
    destruct (map fst (cells_where (pattern_invalid_cell constraint) items))
      as [|i labels] eqn:Hlabels.
    + injection Hr as <-. split; [reflexivity | intros e []].
    + apply Outcome_bind_returns in Hr. destruct Hr as (s & Hs & Hr).
      injection Hr as <-. split; [eexists; repeat split|].
      intros e [<-|[]]. split; [exact Hs | reflexivity].
Qed.

(** ** The reproducibility check *)

Lemma remove_dups_nil (l : list string) : remove_dups l = [] <-> l = [].
Proof.
  split; [|intros ->; reflexivity].
  destruct l as [|x l]; [reflexivity|]. intros Hnil. exfalso.
  assert (Hin : x ∈ remove_dups (x :: l)) by (apply elem_of_remove_dups; left).
  rewrite Hnil in Hin. inversion Hin.
Qed.

Lemma set_difference_nil (a b : list string) :
  set_difference a b = [] <-> forall x, In x a -> In x b.
Proof.
  unfold set_difference. rewrite remove_dups_nil. split.
  - intros Hnil x Hx. destruct (str_in x b) eqn:Hb; [now apply str_in_In|].
    exfalso. assert (Hin : x ∈ filter (fun x => str_in x b = false) a).
    { apply list_elem_of_filter. split; [exact Hb | now apply list_elem_of_In]. }
    rewrite Hnil in Hin. inversion Hin.
  - intros Hall. destruct (filter _ a) as [|x l] eqn:Hf; [reflexivity|]. exfalso.
    assert (Hin : x ∈ filter (fun x => str_in x b = false) a) by (rewrite Hf; left).
    apply list_elem_of_filter in Hin. destruct Hin as [Hb Hin].
    apply list_elem_of_In, Hall, str_in_In in Hin. congruence.
Qed.

(** X18. The reproducibility check compares neither the hash nor the number
    of rows with anything: a manifest has no expected hash and no expected
    number of rows.  Its result passes exactly when every column name of
    the manifest is a label of the dataset; aliases are not looked at.  It
    holds at most one error, of severity MAJOR, at most one warning, and
    always the two INFO entries of the hash and of the statistics. *)
Theorem reproducibility_fails_only_on_missing_columns `{PyRuntime} `{RuleBodies}
    (config : ManifestConfig.t) (w w' : World) (r : ValidationResult.t) :
  ReproducibilityCheck.run config w = (Returns r, w') ->
  exists (dataset_hash : string) (w1 : World),
    _compute_dataset_hash w = (Returns dataset_hash, w1) /\
    (ValidationResult.passed r = true <->
     forall c, In c (ManifestConfig.columns config) ->
               In (ColumnConfig.name c) (df_columns (w_df w1))) /\
    (forall f, In f (ValidationResult.errors r) -> severity_among [MAJOR] f) /\
    length (ValidationResult.errors r) <= 1 /\
    length (ValidationResult.warnings r) <= 1 /\
    length (ValidationResult.info r) = 2.
Proof.
  unfold ReproducibilityCheck.run, Py_bind. cbv zeta.
  destruct (_compute_dataset_hash w) as [[dataset_hash|e] w1] eqn:Hhash; [|discriminate].
  unfold read_df, datetime_now.
  destruct (_compute_stability_stats w1) as [[stats|e] w2] eqn:Hstats; [|discriminate].
  unfold Py_ret. intros [= <- <-]. exists dataset_hash, w1. split; [reflexivity|].
  unfold ManifestConfig.expected_hash, ManifestConfig.expected_rows,
    ManifestConfig.expected_columns. cbn [truthy_str].
  destruct (ManifestConfig.columns config) as [|c cs] eqn:Hcols.
  { simpl. split; [split; [intros _ c [] | reflexivity]|].
    split; [intros f []|]. lia. }
  set (names := map ColumnConfig.name (c :: cs)).
  assert (Hmissing : set_difference names (df_columns (w_df w1)) = [] <->
                     forall c0, In c0 (c :: cs) ->
                                In (ColumnConfig.name c0) (df_columns (w_df w1))).
  { rewrite set_difference_nil. unfold names. split.
    - intros Hall c0 Hc0. apply Hall, in_map. exact Hc0.
    - intros Hall x Hx. apply in_map_iff in Hx. destruct Hx as (c0 & <- & Hc0). auto. }
  change (map ColumnConfig.name (c :: cs)) with names.
  destruct names as [|n ns] eqn:Hnames; [discriminate Hnames|].
  rewrite <- Hnames in *. clearbody names.
  destruct (set_difference names (df_columns (w_df w1))) as [|m ms] eqn:Hm;
    destruct (set_difference (df_columns (w_df w1)) names) as [|x xs] eqn:Hx;
    simpl.
  - split; [split; [intros _; now apply Hmissing | reflexivity]|].
    split; [intros f []|]. lia.
  - split; [split; [intros _; now apply Hmissing | reflexivity]|].
    split; [intros f []|]. lia.
  - split; [split; [discriminate|]|].
    + intros Hall. apply Hmissing in Hall. discriminate Hall.
    + split; [|lia]. intros f [<-|[]]. eexists. split; [reflexivity|]. simpl. auto.
  - split; [split; [discriminate|]|].
    + intros Hall. apply Hmissing in Hall. discriminate Hall.
    + split; [|lia]. intros f [<-|[]]. eexists. split; [reflexivity|]. simpl. auto.
Qed.

(** ** The vocabulary check *)

Lemma Py_fold_app {A S : Type} (body : S -> A -> Py S) (xs ys : list A) (s : S) (w : World) :
  Py_fold body (xs ++ ys) s w =
  match Py_fold body xs s w with
  | (Returns s', w') => Py_fold body ys s' w'
  | (Raises e, w') => (Raises e, w')
  end.
Proof.
  revert s w. induction xs as [|x xs IH]; intros s w; [reflexivity|].
  simpl. unfold Py_bind. destruct (body s x w) as [[s1|e] w1]; [apply IH | reflexivity].
Qed.

Lemma Severity_getitem_unknown `{PyRuntime} (name : string) :
  (forall s, Severity_value s <> name) -> Severity_getitem name = Raises (KeyError name).
Proof.
  intros Hnot. unfold Severity_getitem, Severity_members. cbn [dict_lookup].
  destruct (String.eqb_spec "BLOCKER" name) as [Heq|_]; [now destruct (Hnot BLOCKER)|].
  destruct (String.eqb_spec "MAJOR" name) as [Heq|_]; [now destruct (Hnot MAJOR)|].
  destruct (String.eqb_spec "MINOR" name) as [Heq|_]; [now destruct (Hnot MINOR)|].
  destruct (String.eqb_spec "INFO" name) as [Heq|_]; [now destruct (Hnot INFO)|].
  reflexivity.
Qed.

(** X19. A controlled vocabulary whose severity is not one of the four
    names makes the vocabulary check raise [KeyError] as soon as its column
    is in the dataset: the name is looked up after the values were checked
    and whatever was found, also when every value is allowed.  The findings
    of the vocabularies before it are lost with it. *)
Theorem vocab_unknown_severity_raises `{PyRuntime} `{RuleBodies}
    (config : ManifestConfig.t) (before after : list (string * VocabConfig.t))
    (col : string) (vocab : VocabConfig.t) (acc : Buckets)
    (found : list ValidationError.t) (w w1 w2 : World) :
  ManifestConfig.controlled_vocab config = before ++ (col, vocab) :: after ->
  Py_fold VocabCheck.vocab_step before no_findings w = (Returns acc, w1) ->
  In col (df_columns (w_df w1)) ->
  _check_vocabulary col vocab w1 = (Returns found, w2) ->
  (forall s, Severity_value s <> VocabConfig.severity vocab) ->
  VocabCheck.run config w = (Raises (KeyError (VocabConfig.severity vocab)), w2).
Proof.
  intros Hcfg Hbefore Hcol Hfound Hunknown.
  unfold VocabCheck.run, Py_bind. rewrite Hcfg, Py_fold_app, Hbefore.
  cbn [Py_fold]. unfold Py_bind, VocabCheck.vocab_step. cbv zeta. unfold Py_bind.
  cbn [fst snd read_df]. apply str_in_In in Hcol. rewrite Hcol. cbn [negb].
  rewrite Hfound. unfold Py_lift. rewrite (Severity_getitem_unknown _ Hunknown).
  reflexivity.
Qed.

Lemma vocab_unknown_severity_raises_witness :
  @VocabCheck.run sample_runtime silent_rules (config_with_vocab "Nome" critical_vocab)
    (world_of names_frame)
  = (Raises (@KeyError sample_runtime "CRITICAL"), world_of names_frame).
Proof.
  apply (@vocab_unknown_severity_raises sample_runtime silent_rules
           (config_with_vocab "Nome" critical_vocab) [] [] "Nome" critical_vocab
           no_findings [] (world_of names_frame) (world_of names_frame)
           (world_of names_frame)).
  - reflexivity.
  - reflexivity.
  - simpl. left. reflexivity.
  - reflexivity.
  - intros s. destruct s; discriminate.
Defined.

(** ** The summary of a report *)

Lemma severity_matches_one (a b : Severity) (f : Finding) :
  severity_matches a f = true -> severity_matches b f = true -> a = b.
Proof.
  destruct f as [e|d]; simpl.
  - intros Ha Hb. apply bool_decide_eq_true in Ha, Hb. congruence.
  - destruct (dict_get d "severity" (PStr EmptyString)); try discriminate.
    intros Ha Hb. apply String.eqb_eq in Ha, Hb.
    destruct a, b; simpl in *; first [reflexivity | congruence].
Qed.

Lemma tally_errors_fold (errs : list Finding) (acc : Tally) :
  fold_left tally_error errs acc =
  mkTally (t_errors acc) (t_warnings acc) (t_info acc)
          (t_blocker acc + with_severity BLOCKER errs)
          (t_major acc + with_severity MAJOR errs)
          (t_minor acc + with_severity MINOR errs).
Proof.
  unfold with_severity. revert acc. induction errs as [|f errs IH]; intros acc.
  - simpl. destruct acc. simpl. f_equal; lia.
  - cbn [fold_left List.filter]. rewrite IH. unfold tally_error.
    destruct (severity_matches BLOCKER f) eqn:Hb;
      destruct (severity_matches MAJOR f) eqn:Hm;
      destruct (severity_matches MINOR f) eqn:Hi;
      try (pose proof (severity_matches_one _ _ _ Hb Hm); discriminate);
      try (pose proof (severity_matches_one _ _ _ Hb Hi); discriminate);
      try (pose proof (severity_matches_one _ _ _ Hm Hi); discriminate);
      simpl; f_equal; lia.
Qed.

Lemma with_severity_app (member : Severity) (a b : list Finding) :
  with_severity member (a ++ b) = with_severity member a + with_severity member b.
Proof. unfold with_severity. now rewrite List.filter_app, length_app. Qed.

Lemma tally_results_fold (rs : list ValidationResult.t) (acc : Tally) :
  fold_left tally_result rs acc =
  mkTally (t_errors acc + length (concat (map ValidationResult.errors rs)))
          (t_warnings acc + length (concat (map ValidationResult.warnings rs)))
          (t_info acc + length (concat (map ValidationResult.info rs)))
          (t_blocker acc + with_severity BLOCKER (concat (map ValidationResult.errors rs)))
          (t_major acc + with_severity MAJOR (concat (map ValidationResult.errors rs)))
          (t_minor acc + with_severity MINOR (concat (map ValidationResult.errors rs))).
Proof.
  revert acc. induction rs as [|r rs IH]; intros acc.
  - simpl. destruct acc. unfold with_severity. simpl. f_equal; lia.
  - cbn [fold_left map concat]. rewrite IH. unfold tally_result.
    rewrite tally_errors_fold. cbn [t_errors t_warnings t_info t_blocker t_major t_minor].
    rewrite !length_app, !with_severity_app. f_equal; lia.
Qed.

Lemma three_severities_bound (fs : list Finding) :
  with_severity BLOCKER fs + with_severity MAJOR fs + with_severity MINOR fs <= length fs.
Proof.
  unfold with_severity. induction fs as [|f fs IH]; [simpl; lia|].
  cbn [List.filter length].
  destruct (severity_matches BLOCKER f) eqn:Hb;
    destruct (severity_matches MAJOR f) eqn:Hm;
    destruct (severity_matches MINOR f) eqn:Hi;
    try (pose proof (severity_matches_one _ _ _ Hb Hm); discriminate);
    try (pose proof (severity_matches_one _ _ _ Hb Hi); discriminate);
    try (pose proof (severity_matches_one _ _ _ Hm Hi); discriminate);
    simpl; lia.
Qed.

(** X20. The summary of a report counts the entries of the three lists over
    all results, and the BLOCKER, MAJOR and MINOR entries of the [errors]
    lists only: a BLOCKER kept in a [warnings] or [info] list is not in
    [blocker_count].  The three severity counts add up to at most
    [total_errors], and passed plus failed checks to [total_checks]. *)
Theorem summary_counts_errors_only (report : ValidationReport.t) :
  let stats := get_summary_stats report in
  SummaryStats.total_errors stats = length (report_errors report) /\
  SummaryStats.total_warnings stats = length (report_warnings report) /\
  SummaryStats.total_info stats = length (report_info report) /\
  SummaryStats.blocker_count stats = with_severity BLOCKER (report_errors report) /\
  SummaryStats.major_count stats = with_severity MAJOR (report_errors report) /\
  SummaryStats.minor_count stats = with_severity MINOR (report_errors report) /\
  SummaryStats.blocker_count stats + SummaryStats.major_count stats
    + SummaryStats.minor_count stats <= SummaryStats.total_errors stats /\
  SummaryStats.passed_checks stats + SummaryStats.failed_checks stats
    = SummaryStats.total_checks stats /\
  SummaryStats.passed stats = ValidationReport.passed report.
Proof.
  cbv zeta. unfold get_summary_stats. cbv zeta.
  cbn [SummaryStats.total_errors SummaryStats.total_warnings SummaryStats.total_info
       SummaryStats.blocker_count SummaryStats.major_count SummaryStats.minor_count
       SummaryStats.passed_checks SummaryStats.failed_checks SummaryStats.total_checks
       SummaryStats.passed].
  rewrite tally_results_fold.
  cbn [t_errors t_warnings t_info t_blocker t_major t_minor].
  unfold report_errors, report_warnings, report_info.
  repeat (split; [reflexivity|]).
  split; [apply three_severities_bound|]. split; [|reflexivity].
  pose proof (filter_length_le ValidationResult.passed (ValidationReport.results report)).
  lia.
Qed.

(** ** Counting the items of a cell *)

Lemma split_on_cons (sep : Ascii.ascii) (s : string) :
  exists item rest, split_on sep s = item :: rest.
Proof.
  destruct s as [|c s]; simpl; [eauto|].
  destruct (Ascii.eqb c sep); [eauto|]. destruct (split_on sep s); eauto.
Qed.

Lemma split_on_app (sep : Ascii.ascii) (a b : string) :
  split_on sep (String.append a (String sep b)) = split_on sep a ++ split_on sep b.
Proof.
  induction a as [|c a IH].
  - change (String.append EmptyString (String sep b)) with (String sep b).
    simpl. now rewrite Ascii.eqb_refl.
  - change (String.append (String c a) (String sep b))
      with (String c (String.append a (String sep b))).
    cbn [split_on]. rewrite IH.
    destruct (Ascii.eqb c sep); [reflexivity|].
    destruct (split_on_cons sep a) as (item & rest & ->). reflexivity.
Qed.

Lemma split_on_comma_free (s : string) : comma_free s -> split_on comma s = [s].
Proof.
  unfold comma_free. induction s as [|c s IH]; [reflexivity|].
  cbn [String.list_ascii_of_string split_on]. intros Hfree.
  destruct (Ascii.eqb_spec c comma) as [->|_]; [exfalso; apply Hfree; now left|].
  rewrite IH; [reflexivity|]. intros Hin. apply Hfree. now right.
Qed.

Lemma count_comma_separated_filter (s : string) :
  count_comma_separated s =
  length (filter (fun item => py_strip item <> EmptyString) (split_on comma s)).
Proof. destruct s; reflexivity. Qed.

(** X21. [count_comma_separated] counts piece by piece: the count of two
    texts joined by a comma is the sum of their counts, and a text without
    a comma counts for one item, or for none when it is empty or blank.  So
    empty and blank pieces between commas are not counted. *)
Theorem count_comma_separated_adds_pieces :
  (forall a b : string,
     count_comma_separated (a +:+ "," +:+ b)
     = count_comma_separated a + count_comma_separated b) /\
  (forall a : string,
     comma_free a ->
     count_comma_separated a = if decide (py_strip a = EmptyString) then 0 else 1).
Proof.
  split.
  - intros a b. rewrite !count_comma_separated_filter.
    change ("," +:+ b) with (String comma b).
    change (a +:+ String comma b) with (String.append a (String comma b)).
    rewrite split_on_app, filter_app, length_app. reflexivity.
  - intros a Hfree. rewrite count_comma_separated_filter, (split_on_comma_free a Hfree).
    rewrite filter_cons, filter_nil.
    destruct (decide (py_strip a = EmptyString)) as [Hblank|Hitem].
    + rewrite decide_False by (intros Hne; now apply Hne). reflexivity.
    + rewrite decide_True by exact Hitem. reflexivity.
Qed.

Lemma count_comma_separated_adds_pieces_witness :
  comma_free " soro " /\
  count_comma_separated " soro " = 1 /\
  count_comma_separated "a, b,, c" = 3.
Proof.
  assert (Hfree : comma_free " soro ").
  { unfold comma_free. simpl. intros Hin.
    repeat (destruct Hin as [Habs|Hin]; [discriminate Habs|]). exact Hin. }
  split; [exact Hfree|]. split.
  - rewrite (proj2 count_comma_separated_adds_pieces " soro " Hfree). reflexivity.
  - vm_compute. reflexivity.
Defined.

(** ** The uniqueness and the coherence checks *)

Lemma key_steps_skip_absent `{RuleBodies} (config : ManifestConfig.t)
    (keys : list string) (acc : Buckets) (w : World) :
  (forall k, In k keys -> ~ In k (df_columns (w_df w))) ->
  Py_fold (UniquenessCheck.key_step config) keys acc w = (Returns acc, w).
Proof.
  induction keys as [|k keys IH]; intros Habsent; [reflexivity|].
  cbn [Py_fold]. unfold Py_bind at 1. unfold UniquenessCheck.key_step at 1.
  unfold Py_bind, read_df.
  destruct (str_in k (df_columns (w_df w))) eqn:Hk.
  - apply str_in_In in Hk. destruct (Habsent k); [now left | exact Hk].
  - cbn [negb]. unfold Py_ret. apply IH. intros k' Hk'. apply Habsent. now right.
Qed.

(** X22. A key column that is not in the dataset is passed over without a
    word: when none of the configured uniqueness columns is a label (or
    none is configured and there is no CNES column) the uniqueness check
    returns a passing result without findings and calls no rule. *)
Theorem uniqueness_skips_absent_keys `{RuleBodies} (config : ManifestConfig.t) (w : World) :
  (forall k, In k (ManifestConfig.uniqueness_columns config) ->
             ~ In k (df_columns (w_df w))) ->
  (ManifestConfig.uniqueness_columns config = [] -> ~ In "CNES" (df_columns (w_df w))) ->
  UniquenessCheck.run config w = (Returns (make_result "uniqueness" no_findings), w).
Proof.
  intros Habsent Hdefault.
  unfold UniquenessCheck.run, Py_bind at 1, read_df. cbv zeta.
  assert (Hkeys : forall k, In k (UniquenessCheck._get_key_columns (w_df w) config) ->
                            ~ In k (df_columns (w_df w))).
  { unfold UniquenessCheck._get_key_columns, ManifestConfig.primary_keys.
    destruct (ManifestConfig.uniqueness_columns config) as [|k0 keys] eqn:Hcfg.
    - intros k Hk. apply list_elem_of_In, list_elem_of_filter in Hk.
      destruct Hk as [_ Hk]. apply list_elem_of_In in Hk.
      destruct Hk as [<-|[]]. now apply Hdefault.
    - exact Habsent. }
  unfold Py_bind. rewrite (key_steps_skip_absent config _ no_findings w Hkeys).
  reflexivity.
Qed.

(** X23. Without a column [FU] the coherence check cannot fail: neither the
    rule on FU and Federal_Un nor the rule on Region and FU is run, and the
    rule on the two Atendimento columns contributes warnings and info
    only.  Whatever that rule returns, the result passes with no error. *)
Theorem coherence_without_FU_passes `{RuleBodies} (config : ManifestConfig.t)
    (w w' : World) (r : ValidationResult.t) :
  ~ In "FU" (df_columns (w_df w)) ->
  CoherenceCheck.run config w = (Returns r, w') ->
  ValidationResult.passed r = true /\ ValidationResult.errors r = [] /\
  ValidationResult.category r = "coherence".
Proof.
  intros Hno Hrun.
  assert (Hfu : str_in "FU" (df_columns (w_df w)) = false).
  { destruct (str_in "FU" (df_columns (w_df w))) eqn:Hfu; [|reflexivity].
    apply str_in_In in Hfu. contradiction. }
  unfold CoherenceCheck.run, Py_bind, read_df in Hrun. cbv zeta in Hrun.
  rewrite Hfu in Hrun. cbn [andb] in Hrun. unfold Py_ret in Hrun.
  rewrite Hfu, andb_false_r in Hrun.
  destruct (str_in "Atendiment" (df_columns (w_df w))
            && str_in "Atendime_1" (df_columns (w_df w))).
  - destruct (_validate_atendimento_count config w) as [[b|e] w1]; [|discriminate].
    injection Hrun as <- _. repeat split.
  - injection Hrun as <- _. repeat split.
Qed.

Lemma coherence_without_FU_passes_witness :
  ~ In "FU" (df_columns (w_df (world_of names_frame))) /\
  @CoherenceCheck.run silent_rules plain_config (world_of names_frame)
    = (Returns (make_result "coherence" no_findings), world_of names_frame) /\
  ValidationResult.passed (make_result "coherence" no_findings) = true.
Proof.
  assert (Hno : ~ In "FU" (df_columns (w_df (world_of names_frame)))).
  { simpl. intros [Habs|[]]. discriminate Habs. }
  assert (Hrun : @CoherenceCheck.run silent_rules plain_config (world_of names_frame)
                 = (Returns (make_result "coherence" no_findings), world_of names_frame))
    by reflexivity.
  split; [exact Hno|]. split; [exact Hrun|].
  exact (proj1 (@coherence_without_FU_passes silent_rules plain_config _ _ _ Hno Hrun)).
Defined.

Lemma uniqueness_skips_absent_keys_witness :
  @UniquenessCheck.run silent_rules plain_config (world_of names_frame)
  = (Returns (make_result "uniqueness" no_findings), world_of names_frame).
Proof.
  apply (@uniqueness_skips_absent_keys silent_rules plain_config (world_of names_frame)).
  - intros k [].
  - intros _. simpl. intros [Habs|[]]. discriminate Habs.
Defined.

(** ** The statements above on concrete data *)

Lemma report_counters_agree_witness :
  ValidationReport.failed_checks passing_report = 0 /\
  ValidationReport.passed passing_report = true.
Proof.
  assert (Hnone : ValidationReport.failed_checks passing_report = 0) by reflexivity.
  split; [exact Hnone|].
  exact (proj2 (proj1 (proj2 (report_counters_agree passing_report))) Hnone).
Defined.

Lemma severity_name_round_trip_witness :
  @Severity_getitem sample_runtime "CRITICAL" = Raises (@KeyError sample_runtime "CRITICAL").
Proof.
  apply (proj2 (proj2 (@severity_name_round_trip sample_runtime BLOCKER "CRITICAL"))).
  intros s'. destruct s'; discriminate.
Defined.

Lemma timed_run_only_stamps_duration_witness :
  BaseCheck.timed_run (broken_check "second") plain_config (world_of two_rows)
  = (Raises {| exc_type := "ZeroDivisionError";
               exc_str := "division by zero";
               exc_is_Exception := true |}, world_of two_rows).
Proof.
  apply (proj1 (timed_run_only_stamps_duration (broken_check "second") plain_config
                  (world_of two_rows) (world_of two_rows))).
  reflexivity.
Defined.

Lemma validate_rows_reports_failing_rows_witness :
  BaseCheck.validate_rows "demo" two_rows (fun row => Returns true) "Valor inválido"
    MAJOR (Some "CNES") = Returns [].
Proof.
  destruct (validate_rows_reports_failing_rows "demo" two_rows (fun _ => true)
              "Valor inválido" MAJOR (Some "CNES")) as (errors & Hrun & Hnone & _).
  rewrite Hrun. f_equal. apply Hnone. intros r _. reflexivity.
Defined.

Lemma run_lets_other_exceptions_through_witness :
  @ValidationRunner.run sample_runtime
    (runner_of [quiet_check "first"; interrupted_check; quiet_check "third"] [])
    (world_of two_rows)
  = (Raises KeyboardInterrupt, world_of two_rows).
Proof.
  eapply (@run_lets_other_exceptions_through sample_runtime
            (runner_of [quiet_check "first"; interrupted_check; quiet_check "third"] [])
            (world_of two_rows) [quiet_check "first"] [quiet_check "third"]
            interrupted_check).
  - reflexivity.
  - reflexivity.
  - reflexivity.
  - reflexivity.
  - reflexivity.
Defined.

Lemma quiet_check_names_its_results (name : string) : names_its_results (quiet_check name).
Proof. intros config w r w' Hrun. injection Hrun as <- _. reflexivity. Defined.

Lemma broken_check_names_its_results (name : string) : names_its_results (broken_check name).
Proof. intros config w r w' Hrun. discriminate Hrun. Defined.

Lemma report_categories_are_check_names_witness :
  let self := runner_of [quiet_check "first"; broken_check "second"; quiet_check "third"]
                ["third"] in
  exists rep w',
    @ValidationRunner.run sample_runtime self (world_of two_rows) = (Returns rep, w') /\
    map ValidationResult.category (ValidationReport.results rep) = ["first"; "second"].
Proof.
  intros self.
  apply (proj2 (@report_categories_are_check_names sample_runtime silent_rules self
                  (world_of two_rows))).
  - repeat constructor.
    + apply quiet_check_names_its_results.
    + apply broken_check_names_its_results.
    + apply quiet_check_names_its_results.
  - repeat constructor.
    + apply quiet_check_raises_only_Exception.
    + apply broken_check_raises_only_Exception.
    + apply quiet_check_raises_only_Exception.
Defined.

Lemma schema_passes_iff_required_columns_found_witness :
  (exists r,
     @SchemaCheck.run_on sample_runtime names_frame (config_with_columns [name_column])
       = Returns r /\
     ValidationResult.passed r = true) /\
  @SchemaCheck.run_on sample_runtime twin_frame (config_with_columns [nome_column])
  = Raises (AttributeError "'DataFrame' object has no attribute 'dtype'").
Proof.
  split.
  - destruct (proj1 (@schema_passes_iff_required_columns_found sample_runtime names_frame
                       (config_with_columns [name_column])))
      as (r & Hrun); [intros c [<-|[]]; reflexivity|].
    exists r. split; [exact Hrun|].
    apply (proj2 (proj2 (@schema_passes_iff_required_columns_found sample_runtime
                           names_frame (config_with_columns [name_column]))) r Hrun).
    intros c [<-|[]] _. reflexivity.
  - apply (proj1 (proj2 (@schema_passes_iff_required_columns_found sample_runtime
                           twin_frame (config_with_columns [nome_column])))).
    exists nome_column. split; [left; reflexivity | reflexivity].
Defined.


Lemma resolve_aliases_only_relabels_witness :
  resolve_aliases names_frame (config_with_columns [nome_column]) = names_frame.
Proof.
  apply (resolve_aliases_only_relabels names_frame (config_with_columns [nome_column])).
  intros c [<-|[]]. left. reflexivity.
Defined.

Lemma find_column_returns_first_candidate_witness :
  GeospatialCheck._find_column coordinates_frame ["lat"; "Lat"; "latitude"] = Some "Lat".
Proof.
  apply (proj1 (find_column_returns_first_candidate coordinates_frame
                  ["lat"; "Lat"; "latitude"])).
  exists ["lat"], ["latitude"]. split; [reflexivity|]. split; [reflexivity|].
  intros x [<-|[]]. reflexivity.
Defined.

Lemma geospatial_without_columns_or_with_section_witness :
  @GeospatialCheck.run silent_rules plain_config (world_of names_frame)
  = (Returns no_coordinates_result, world_of names_frame).
Proof.
  apply (proj1 (@geospatial_without_columns_or_with_section silent_rules plain_config
                  (world_of names_frame))).
  left. intros x Hx. unfold lat_candidates in Hx. simpl in Hx.
  destruct Hx as [<-|[<-|[<-|[<-|[]]]]]; reflexivity.
Defined.

Lemma missingness_without_thresholds_is_silent_witness :
  @ConstraintsCheck._check_missingness sample_runtime two_rows plain_config
  = Returns no_findings.
Proof.
  apply (@missingness_without_thresholds_is_silent sample_runtime two_rows plain_config).
  - simpl. constructor.
    + intros Hin. apply list_elem_of_In in Hin. destruct Hin as [Habs|[]].
      discriminate Habs.
    + constructor; [|constructor]. intros Hin. apply list_elem_of_In in Hin. destruct Hin.
  - intros col _. reflexivity.
Defined.

Lemma telefone_and_pattern_findings_witness :
  NoDup (df_columns telephones_frame) /\
  NoDup (map fst (df_rows telephones_frame)) /\
  exists b e,
    @ConstraintsCheck._validate_telefone sample_runtime telephones_frame plain_config
      = Returns b /\
    b_errors b = [] /\
    b_warnings b = [FError e] /\
    ValidationError.row_indices e = Some [0%Z; 3%Z] /\
    ValidationError.message e = "Telefones com formato inválido (2 registros)" /\
    ValidationError.details e = Some [("sample_invalid", PList [PStr "x"; PStr "y"])].
Proof.
  assert (Hlabels : NoDup (map fst (df_rows telephones_frame))).
  { apply (bool_decide_unpack _). vm_compute. reflexivity. }
  assert (Hcols : NoDup (df_columns telephones_frame)).
  { apply (bool_decide_unpack _). vm_compute. reflexivity. }
  split; [exact Hcols|]. split; [exact Hlabels|].
  destruct (@ConstraintsCheck._validate_telefone sample_runtime telephones_frame
              plain_config) as [b|e] eqn:Hrun; [|vm_compute in Hrun; discriminate Hrun].
  pose proof (proj1 (@telefone_and_pattern_findings sample_runtime)
                telephones_frame plain_config b Hcols Hlabels Hrun)
    as (Herrors & Hwarnings & _).
  vm_compute in Hwarnings.
  destruct Hwarnings as (e & Hfs & Hrows & Hmsg & _ & Hdetails).
  exists b, e. split; [reflexivity|]. split; [exact Herrors|]. split; [exact Hfs|].
  split; [exact Hrows|]. split; [exact Hmsg | exact Hdetails].
Defined.

Lemma reproducibility_fails_only_on_missing_columns_witness :
  exists r w',
    @ReproducibilityCheck.run sample_runtime silent_rules
      (config_with_columns [nome_column]) (world_of names_frame) = (Returns r, w') /\
    ValidationResult.passed r = true.
Proof.
  destruct (@ReproducibilityCheck.run sample_runtime silent_rules
              (config_with_columns [nome_column]) (world_of names_frame))
    as [[r|e] w'] eqn:Hrun; [|vm_compute in Hrun; discriminate Hrun].
  exists r, w'. split; [reflexivity|].
  destruct (@reproducibility_fails_only_on_missing_columns sample_runtime silent_rules
              _ _ _ _ Hrun) as (dataset_hash & w1 & Hhash & Hpassed & _).
  injection Hhash as _ <-. apply Hpassed.
  intros c [<-|[]]. left. reflexivity.
Defined.
